(** * The object model and the Java language model of the client generator

    A shallow embedding of [googleapis/codegen/template_objects.py] and
    [googleapis/codegen/java_generator.py].  Python objects live in a heap
    indexed by handles, properties with side effects thread the heap through
    an exception monad, and dictionaries are finite maps. *)

From Stdlib Require Import ZArith Ascii String List Lia.
From stdpp Require Import gmap strings list pretty.

Local Open Scope Z_scope.
Local Open Scope nat_scope.

(** ** Python values, truthiness and exceptions *)

(** The exceptions the two source files can raise.  [RuntimeError] is the one
    Python raises when the recursion limit is exceeded.  [NoSuchObject] is not
    a Python exception: it marks a handle that points outside the heap, which
    a Python reference cannot do. *)
Inductive exn : Type :=
| ValueError (msg : string)
| KeyError (key : string)
| AttributeError (attr : string)
| TypeError
| IndexError
| UnboundLocalError (var : string)
| RuntimeError
| NoSuchObject.

Inductive result (A : Type) : Type :=
| Ok (a : A)
| Raise (e : exn).
Arguments Ok {A} a.
Arguments Raise {A} e.

#[global] Instance result_ret : MRet result := fun A a => Ok a.

#[global] Instance result_bind : MBind result := fun A B k m =>
  match m with
  | Ok a => k a
  | Raise e => Raise e
  end.

(** The values stored in a template dictionary: strings, booleans and None. *)
Inductive pyval : Type :=
| PStr (s : string)
| PBool (b : bool)
| PNone.

#[global] Instance pyval_eq_dec : EqDecision pyval.
Proof. solve_decision. Defined.

(** [if s:] on a string. *)
Definition str_truthy (s : string) : bool :=
  match s with
  | EmptyString => false
  | String _ _ => true
  end.

(** [if v:] on a dictionary value. *)
Definition truthy (v : pyval) : bool :=
  match v with
  | PStr s => str_truthy s
  | PBool b => b
  | PNone => false
  end.

(** [d.get(k)] followed by a truth test, as in [a or b]. *)
Definition get_truthy (d : gmap string pyval) (k : string) : option pyval :=
  match d !! k with
  | Some v => if truthy v then Some v else None
  | None => None
  end.

(** ** Strings *)

Definition lower_ascii (c : ascii) : ascii :=
  let n := nat_of_ascii c in
  if (65 <=? n) && (n <=? 90) then ascii_of_nat (n + 32) else c.

Definition upper_ascii (c : ascii) : ascii :=
  let n := nat_of_ascii c in
  if (97 <=? n) && (n <=? 122) then ascii_of_nat (n - 32) else c.

(** [str.lower()]. *)
Fixpoint lower (s : string) : string :=
  match s with
  | EmptyString => EmptyString
  | String c r => String (lower_ascii c) (lower r)
  end.

(** [s.replace(old, new)] for a one-character [old]. *)
Fixpoint replace_char (old : ascii) (new : string) (s : string) : string :=
  match s with
  | EmptyString => EmptyString
  | String c r =>
      if decide (c = old) then new +:+ replace_char old new r
      else String c (replace_char old new r)
  end.

(** [x in s]: the string [x] occurs in [s]. *)
Definition occurs_in (x s : string) : Prop :=
  exists pre post : string, s = pre +:+ x +:+ post.

(** [str(n)] of an integer, as ['%s' % long(n)] prints it. *)
Definition str_of_long (n : Z) : string := pretty n.

(** ** utilities *)

(** The helpers of [googleapis.codegen.utilities] the two files call. *)
Class Utilities : Type := {
  CamelCase : string -> string;
  ReversedDomainComponents : pyval -> list string;
  SanitizeDomain : pyval -> pyval;
  (* [ValidateAndSanitizeComment(StripHTML(d))] of the constructor *)
  SanitizeComment : pyval -> result pyval
}.

Definition is_word_delimiter (c : ascii) : bool :=
  bool_decide (c ∈ ["-"; "_"; "."; "/"; " "]%char).

Fixpoint CamelCase_words (start : bool) (s : string) : string :=
  match s with
  | EmptyString => EmptyString
  | String c r =>
      if is_word_delimiter c then CamelCase_words true r
      else String (if start then upper_ascii c else c) (CamelCase_words false r)
  end.

(** [s.split(sep)] for a one-character separator; [acc] is the current piece. *)
Fixpoint split_char (sep : ascii) (acc : string) (s : string) : list string :=
  match s with
  | EmptyString => [acc]
  | String c r =>
      if decide (c = sep) then acc :: split_char sep EmptyString r
      else split_char sep (acc +:+ String c EmptyString) r
  end.

(** Modelled from the spec: [googleapis/codegen/utilities.py] and the comment
    sanitizer are not among the sources.  The spec only says that names are
    camel-cased, that the default root path is derived from the owner domain
    and that a comment failing sanitization becomes empty; this instance
    starts a new word after each delimiter and upper-cases the first letter of
    every word, reverses the dot-separated components of a domain (none for a
    missing or empty domain), and leaves domains and comments as they are.  It
    is used to evaluate the code on concrete inputs; the general theorems hold
    for every [Utilities]. *)
Definition title_utilities : Utilities :=
  {| CamelCase := CamelCase_words true;
     ReversedDomainComponents := fun d =>
       match d with
       | PStr (String c r) => rev (split_char "." EmptyString (String c r))
       | _ => []
       end;
     SanitizeDomain := fun d => d;
     SanitizeComment := fun d => Ok d |}.

#[global] Instance pyval_countable : Countable pyval.
Proof.
  refine (inj_countable'
    (fun v => match v with
              | PStr s => inl s
              | PBool b => inr (inl b)
              | PNone => inr (inr tt)
              end)
    (fun x => match x with
              | inl s => PStr s
              | inr (inl b) => PBool b
              | inr (inr _) => PNone
              end) _).
  intros v. destruct v; reflexivity.
Defined.

(** [str(v)], as ['%s' % v] prints a dictionary value. *)
Definition str_of_pyval (v : pyval) : string :=
  match v with
  | PStr s => s
  | PBool true => "True"
  | PBool false => "False"
  | PNone => "None"
  end.

(** [utilities.CamelCase] is written for strings; every call in the two files
    passes a dictionary value, and a value that is not a string is kept apart
    as an error of its own. *)
Definition CamelCase_val `{Utilities} (v : pyval) : result string :=
  match v with
  | PStr s => Ok (CamelCase s)
  | _ => Raise TypeError
  end.

(** [fmt % arg] for a format with one [%s]. *)
Fixpoint format1 (fmt : string) (arg : string) : string :=
  match fmt with
  | EmptyString => EmptyString
  | String "%" (String "s" r) => arg +:+ r
  | String c r => String c (format1 r arg)
  end.

(** ** java_generator.py: the language models *)

Record ImportDefinition : Type := {
  imports : list string;
  template_values : list string
}.

(** What [ToSafeClassName] reads of a schema on the parent's chain. *)
Record Schema : Type := {
  safeClassName : pyval;
  class_name : pyval
}.

(** What [_Int] reads of a DataValue whose value is an integer. *)
Record IntDataValue : Type := {
  dv_value : Z;
  dv_code_type : string
}.

(** The message of the [ValueError] that [_Int] raises. *)
Definition int_error_message (value : Z) (code_type : string) : string :=
  "Provided DataValue (" +:+ str_of_long value +:+
  ") does not present an appropriate Java annotated code type (" +:+
  code_type +:+ ").".

(** [the_api.values['name']]; Modules are built with no api. *)
Definition api_name (the_api : option (gmap string pyval)) : result pyval :=
  match the_api with
  | None => Raise (AttributeError "values")
  | Some values =>
      match values !! "name" with
      | Some name => Ok name
      | None => Raise (KeyError "name")
      end
  end.

(** A key [(json_type, json_format)] of the type tables. *)
Definition type_key (t : string) (f : option string) : pyval * pyval :=
  (PStr t, from_option PStr PNone f).

Module JavaLanguageModel.

Definition _JSON_STRING_IMPORT : string := "com.google.api.client.json.JsonString".
Definition _JSON_STRING_TEMPLATE_VALUE : string := "requiresJsonString".

Definition import1 (i : string) : ImportDefinition :=
  {| imports := [i]; template_values := [] |}.

Definition TYPE_FORMAT_TO_DATATYPE_AND_IMPORTS_items
  : list ((pyval * pyval) * (string * ImportDefinition)) :=
  [ (type_key "boolean" None, ("Boolean", import1 "java.lang.Boolean"));
    (type_key "any" None, ("Object", import1 "java.lang.Object"));
    (type_key "integer" (Some "int16"), ("Short", import1 "java.lang.Short"));
    (type_key "integer" (Some "int32"), ("Integer", import1 "java.lang.Integer"));
    (type_key "integer" (Some "uint32"), ("Long", import1 "java.lang.Long"));
    (type_key "number" (Some "double"), ("Double", import1 "java.lang.Double"));
    (type_key "number" (Some "float"), ("Float", import1 "java.lang.Float"));
    (type_key "object" None, ("Object", import1 "java.lang.Object"));
    (type_key "string" None, ("String", import1 "java.lang.String"));
    (type_key "string" (Some "byte"), ("String", import1 "java.lang.String"));
    (type_key "string" (Some "date"),
      ("DateTime", import1 "com.google.api.client.util.DateTime"));
    (type_key "string" (Some "date-time"),
      ("DateTime", import1 "com.google.api.client.util.DateTime"));
    (type_key "string" (Some "int64"),
      ("Long", {| imports := ["java.lang.Long"; _JSON_STRING_IMPORT];
                  template_values := [_JSON_STRING_TEMPLATE_VALUE] |}));
    (type_key "string" (Some "uint64"),
      ("UnsignedLong",
       {| imports := ["com.google.common.primitives.UnsignedLong"; _JSON_STRING_IMPORT];
          template_values := [_JSON_STRING_TEMPLATE_VALUE] |})) ].

Definition TYPE_FORMAT_TO_DATATYPE_AND_IMPORTS
  : gmap (pyval * pyval) (string * ImportDefinition) :=
  list_to_map TYPE_FORMAT_TO_DATATYPE_AND_IMPORTS_items.

Definition _JAVA_KEYWORDS : list string :=
  [ "abstract"; "assert"; "boolean"; "break"; "byte"; "case"; "catch"; "char";
    "class"; "const"; "continue"; "default"; "do"; "double"; "else"; "enum";
    "extends"; "final"; "finally"; "float"; "for"; "goto"; "if"; "implements";
    "import"; "instanceof"; "int"; "interface"; "long"; "native"; "new";
    "package"; "private"; "protected"; "public"; "return"; "short"; "static";
    "strictfp"; "super"; "switch"; "synchronized"; "this"; "throw"; "throws";
    "transient"; "try"; "void"; "volatile"; "while" ].

Definition _SPECIAL_CLASS_NAMES : list string := [ "entry" ].

Definition RESERVED_CLASS_NAMES : list string :=
  _JAVA_KEYWORDS ++ _SPECIAL_CLASS_NAMES ++
  [ "float"; "integer"; "object"; "string"; "true"; "false" ].

(** [name in RESERVED_CLASS_NAMES]. *)
Definition reserved (name : string) : bool :=
  bool_decide (name ∈ RESERVED_CLASS_NAMES).

(** [unicode(bool(value)).lower()]. *)
Definition _Boolean (value : bool) : string :=
  lower (str_of_pyval (PBool value)).

Definition code_types : gmap string string :=
  list_to_map [ ("Short", "%s"); ("Integer", "%s"); ("Long", "%sL") ].

Definition _Int (data_value : IntDataValue) : result string :=
  match code_types !! dv_code_type data_value with
  | Some fmt => Ok (format1 fmt (str_of_long (dv_value data_value)))
  | None =>
      Raise (ValueError
        (int_error_message (dv_value data_value) (dv_code_type data_value)))
  end.

Definition GetCodeTypeFromDictionary `{Utilities}
    (def_dict : gmap string pyval) : result string :=
  let json_type := default (PStr "string") (def_dict !! "type") in
  let json_format := default PNone (def_dict !! "format") in
  match TYPE_FORMAT_TO_DATATYPE_AND_IMPORTS !! (json_type, json_format) with
  | Some datatype_and_imports => Ok (fst datatype_and_imports)
  | None => CamelCase_val json_type
  end.

Definition ToMemberName `{Utilities}
    (s : string) (the_api : option (gmap string pyval)) : result string :=
  let camel_s := CamelCase s in
  if reserved (lower s) then
    name ← api_name the_api;
    Ok (str_of_pyval name +:+ camel_s)
  else
    match camel_s with
    | EmptyString => Raise IndexError
    | String c r => Ok (String (lower_ascii c) r)
    end.

(** One turn of the loop over [parent.full_path]. *)
Definition disambiguate (parent : Schema) (safe_class_name : string)
    (ancestor : Schema) : string :=
  if decide (safeClassName ancestor = PStr safe_class_name)
  then str_of_pyval (class_name parent) +:+ safe_class_name
  else safe_class_name.

(** The loop [for ancestor in parent.full_path], run when there is a
    parent.  [parent] is given with its ancestors, from the ultimate parent
    down, so that [parent.full_path] is [ancestors ++ [parent]]. *)
Definition disambiguated (parent : option (list Schema * Schema))
    (safe_class_name : string) : string :=
  match parent with
  | Some (ancestors, p) =>
      fold_left (disambiguate p) (ancestors ++ [p]) safe_class_name
  | None => safe_class_name
  end.

Definition ToSafeClassName `{Utilities}
    (s : string) (the_api : option (gmap string pyval))
    (parent : option (list Schema * Schema)) : result string :=
  let safe_class_name := disambiguated parent (CamelCase s) in
  if reserved (lower safe_class_name) then
    name ← api_name the_api;
    camel_name ← CamelCase_val name;
    Ok (camel_name +:+ CamelCase s)
  else Ok safe_class_name.

End JavaLanguageModel.

Module Java14LanguageModel.

Definition TYPE_FORMAT_TO_DATATYPE_items : list ((pyval * pyval) * string) :=
  [ (type_key "boolean" None, "java.lang.Boolean");
    (type_key "any" None, "java.lang.Object");
    (type_key "integer" (Some "int16"), "java.lang.Short");
    (type_key "integer" (Some "int32"), "java.lang.Integer");
    (type_key "integer" (Some "uint32"), "java.lang.Long");
    (type_key "number" (Some "double"), "java.lang.Double");
    (type_key "number" (Some "float"), "java.lang.Float");
    (type_key "object" None, "java.lang.Object");
    (type_key "string" None, "java.lang.String");
    (type_key "string" (Some "byte"), "java.lang.String");
    (type_key "string" (Some "date"), "com.google.api.client.util.DateTime");
    (type_key "string" (Some "date-time"), "com.google.api.client.util.DateTime");
    (type_key "string" (Some "int64"), "java.lang.Long");
    (type_key "string" (Some "uint64"), "java.math.BigInteger") ].

Definition TYPE_FORMAT_TO_DATATYPE : gmap (pyval * pyval) string :=
  list_to_map TYPE_FORMAT_TO_DATATYPE_items.

Definition code_types : gmap string string :=
  list_to_map [ ("java.lang.Short", "%s"); ("java.lang.Integer", "%s");
                ("java.lang.Long", "%sL") ].

Definition _Int (data_value : IntDataValue) : result string :=
  match code_types !! dv_code_type data_value with
  | Some fmt => Ok (format1 fmt (str_of_long (dv_value data_value)))
  | None =>
      Raise (ValueError
        (int_error_message (dv_value data_value) (dv_code_type data_value)))
  end.

Definition GetCodeTypeFromDictionary `{Utilities}
    (def_dict : gmap string pyval) : result string :=
  let json_type := default (PStr "string") (def_dict !! "type") in
  let json_format := default PNone (def_dict !! "format") in
  match TYPE_FORMAT_TO_DATATYPE !! (json_type, json_format) with
  | Some datatype =>
      if str_truthy datatype then Ok datatype else CamelCase_val json_type
  | None => CamelCase_val json_type
  end.

End Java14LanguageModel.

(** ** java_generator.py: the generators *)

(** A data type as the generators see it: its [json_type], its template
    values and, where it has one, the [_base_type] it wraps. *)
Inductive DataType : Type :=
| Plain (json_type : string) (values : gmap string pyval)
| Wrapper (json_type : string) (values : gmap string pyval)
          (_base_type : DataType).

Definition json_type (d : DataType) : string :=
  match d with
  | Plain t _ | Wrapper t _ _ => t
  end.

Definition dt_values (d : DataType) : gmap string pyval :=
  match d with
  | Plain _ v | Wrapper _ v _ => v
  end.

Definition is_collection (t : string) : bool :=
  bool_decide (t = "array") || bool_decide (t = "map").

(** The loop [while json_type == 'array' or json_type == 'map'], which follows
    [_base_type]; [steps] counts its turns. *)
Fixpoint strip_collections (steps : nat) (data_type : DataType)
    : result (nat * DataType) :=
  if is_collection (json_type data_type) then
    match data_type with
    | Wrapper _ _ base => strip_collections (S steps) base
    | Plain _ _ => Raise (AttributeError "_base_type")
    end
  else Ok (steps, data_type).

(** A Property or Parameter: its template values and its [data_type]. *)
Record Element : Type := {
  el_values : gmap string pyval;
  el_data_type : DataType
}.

Definition el_SetTemplateValue (name : string) (value : pyval) (e : Element)
    : Element :=
  {| el_values := <[name := value]> (el_values e);
     el_data_type := el_data_type e |}.

Module Java14Generator.

Definition _HandleJsonString (element : Element) : result Element :=
  '(_, data_type) ← strip_collections 0 (el_data_type element);
  let json_type := json_type data_type in
  let json_format := default PNone (dt_values data_type !! "format") in
  if bool_decide (json_type = "string") &&
     (bool_decide (json_format = PStr "int64") ||
      bool_decide (json_format = PStr "uint64"))
  then Ok (el_SetTemplateValue "requiresJsonString" (PBool true) element)
  else Ok element.

Definition AnnotateParameter (parameter : Element) : result Element :=
  _HandleJsonString parameter.

Definition AnnotateProperty (prop : Element) : result Element :=
  _HandleJsonString prop.

End Java14Generator.

(** ** template_objects.py: the object model *)

#[global] Instance result_fmap : FMap result := fun A B f m =>
  match m with
  | Ok a => Ok (f a)
  | Raise e => Raise e
  end.

(** A reference to an object: the index of the object in the heap. *)
Abbreviation handle := nat (only parsing).

(** The members of a [LanguageModel] that template_objects.py reads.  The
    base class lives outside the two files; a language model is a strategy
    object without state, so the record holds its operations. *)
Record LanguageModel : Type := {
  class_name_delimiter : string;
  module_name_delimiter : string;
  ToMemberName : pyval -> option (gmap string pyval) -> result pyval;
  DefaultContainerPathForOwner : pyval -> pyval -> result string
}.

(** [JavaLanguageModel()]: the class-name delimiter is ['.']; the module-name
    delimiter is inherited from the base class and stays a parameter. *)
Definition JavaLanguageModel_new `{Utilities} (module_delimiter : string)
    : LanguageModel :=
  {| class_name_delimiter := ".";
     module_name_delimiter := module_delimiter;
     ToMemberName := fun s the_api =>
       match s with
       | PStr s => PStr <$> JavaLanguageModel.ToMemberName s the_api
       | _ => Raise TypeError
       end;
     DefaultContainerPathForOwner := fun _ owner_domain =>
       if decide (owner_domain = PStr "google.com")
       then Ok "com/google/api/services"
       else Ok (String.concat "/" (ReversedDomainComponents owner_domain)) |}.

(** The fields a [Module] adds to a [CodeObject]. *)
Record ModuleFields : Type := {
  _path : pyval;
  _owner_name : pyval;
  _owner_domain : pyval;
  (* None until the name is computed, then a string *)
  _name : option string
}.

Record CodeObject : Type := {
  _def_dict : gmap string pyval;
  _api : option handle;
  _children : list handle;
  _parent : option handle;
  _language_model : option LanguageModel;
  _module : option handle;
  (* [Some] for an instance of [Module] *)
  module_fields : option ModuleFields
}.

Abbreviation heap := (list CodeObject) (only parsing).

Definition deref (h : heap) (r : handle) : result CodeObject :=
  match h !! r with
  | Some o => Ok o
  | None => Raise NoSuchObject
  end.

Definition set_def_dict (d : gmap string pyval) (o : CodeObject) : CodeObject :=
  {| _def_dict := d; _api := _api o; _children := _children o;
     _parent := _parent o; _language_model := _language_model o;
     _module := _module o; module_fields := module_fields o |}.

Definition set_children (c : list handle) (o : CodeObject) : CodeObject :=
  {| _def_dict := _def_dict o; _api := _api o; _children := c;
     _parent := _parent o; _language_model := _language_model o;
     _module := _module o; module_fields := module_fields o |}.

Definition set_parent (p : option handle) (o : CodeObject) : CodeObject :=
  {| _def_dict := _def_dict o; _api := _api o; _children := _children o;
     _parent := p; _language_model := _language_model o;
     _module := _module o; module_fields := module_fields o |}.

Definition set_language_model (lm : option LanguageModel) (o : CodeObject)
    : CodeObject :=
  {| _def_dict := _def_dict o; _api := _api o; _children := _children o;
     _parent := _parent o; _language_model := lm;
     _module := _module o; module_fields := module_fields o |}.

Definition set_module (m : option handle) (o : CodeObject) : CodeObject :=
  {| _def_dict := _def_dict o; _api := _api o; _children := _children o;
     _parent := _parent o; _language_model := _language_model o;
     _module := m; module_fields := module_fields o |}.

Definition set_module_fields (f : option ModuleFields) (o : CodeObject)
    : CodeObject :=
  {| _def_dict := _def_dict o; _api := _api o; _children := _children o;
     _parent := _parent o; _language_model := _language_model o;
     _module := _module o; module_fields := f |}.

(** *** UseableInTemplates *)

Definition GetTemplateValue (o : CodeObject) (name : string) : pyval :=
  default PNone (_def_dict o !! name).

Definition SetTemplateValue (h : heap) (self : handle) (name : string)
    (value : pyval) : heap :=
  alter (fun o => set_def_dict (<[name := value]> (_def_dict o)) o) self h.

Definition DeleteTemplateValue (h : heap) (self : handle) (name : string)
    : heap :=
  alter (fun o => set_def_dict (delete name (_def_dict o)) o) self h.

(** *** CodeObject *)

(** [l.remove(x)]: drops the first [x], and raises when there is none. *)
Fixpoint list_remove_first (x : handle) (l : list handle)
    : result (list handle) :=
  match l with
  | [] => Raise (ValueError "list.remove(x): x not in list")
  | y :: l' =>
      if decide (y = x) then Ok l'
      else cons y <$> list_remove_first x l'
  end.

Definition SetParent (h : heap) (self : handle) (parent : option handle)
    : result heap :=
  o ← deref h self;
  h1 ← match _parent o with
       | Some old =>
           oo ← deref h old;
           children ← list_remove_first self (_children oo);
           Ok (alter (set_children children) old h)
       | None => Ok h
       end;
  let h2 := alter (set_parent parent) self h1 in
  match parent with
  | Some p =>
      _ ← deref h2 p;
      Ok (alter (fun po => set_children (_children po ++ [self]) po) p h2)
  | None => Ok h2
  end.

Definition SetLanguageModel (h : heap) (self : handle)
    (language_model : option LanguageModel) : result heap :=
  _ ← deref h self;
  Ok (alter (set_language_model language_model) self h).

(** [CodeObject.__init__]: the new object is the last of the heap. *)
Definition CodeObject_init `{Utilities} (h : heap)
    (def_dict : gmap string pyval) (api parent : option handle)
    (language_model : option LanguageModel) : result (handle * heap) :=
  let self := length h in
  let o := {| _def_dict := def_dict; _api := api; _children := [];
              _parent := None; _language_model := language_model;
              _module := None; module_fields := None |} in
  h1 ← SetParent (h ++ [o]) self parent;
  h2 ← match get_truthy def_dict "description" with
       | Some d =>
           d' ← SanitizeComment d;
           Ok (SetTemplateValue h1 self "description" d')
       | None => Ok h1
       end;
  Ok (self, h2).

(** The properties below call themselves on the parent.  [depth] is the
    number of nested calls Python allows before it raises [RuntimeError]. *)

(** [repr(self)] in an error message: Python prints the address. *)
Definition repr (self : handle) : string :=
  "<CodeObject object at " +:+ pretty self +:+ ">".

(** The property [module].  A Python variable holds an object or None, so the
    value returned is an [option].  The classes define neither [__nonzero__]
    nor [__len__], so [if self._module] and [if self.parent] ask whether the
    field is None. *)
Fixpoint module (depth : nat) (h : heap) (self : handle)
    : result (option handle) :=
  match depth with
  | 0 => Raise RuntimeError
  | S depth =>
      o ← deref h self;
      match _module o with
      | Some m => Ok (Some m)
      | None =>
          match _parent o with
          | Some p => module depth h p
          | None =>
              Raise (ValueError
                ("Asked for module of CodeObject without any: " +:+
                 str_of_pyval
                   (default (PStr "<unnamed>") (_def_dict o !! "wireName")) +:+
                 ", " +:+ repr self))
          end
      end
  end.

(** The property [language_model], which stores what it finds on the way. *)
Fixpoint language_model (depth : nat) (h : heap) (self : handle)
    : result (option LanguageModel * heap) :=
  match depth with
  | 0 => Raise RuntimeError
  | S depth =>
      o ← deref h self;
      match _language_model o with
      | Some lm => Ok (Some lm, h)
      | None =>
          match _parent o with
          | Some p =>
              '(lm, h1) ← language_model depth h p;
              Ok (lm, alter (set_language_model lm) self h1)
          | None => Ok (None, h)
          end
      end
  end.

(** The property [codeName]. *)
Definition codeName (depth : nat) (h : heap) (self : handle)
    : result (pyval * heap) :=
  o ← deref h self;
  match get_truthy (_def_dict o) "codeName" with
  | Some code_name => Ok (code_name, h)
  | None =>
      match _def_dict o !! "wireName" with
      | None => Raise (KeyError "wireName")
      | Some wire_name =>
          (* [if self.language_model:] *)
          '(lm, h1) ← language_model depth h self;
          '(code_name, h2) ←
            match lm with
            | Some _ =>
                (* [self.language_model.ToMemberName(code_name, self._api)] *)
                '(lm, h2) ← language_model depth h1 self;
                match lm with
                | Some lm =>
                    code_name ← ToMemberName lm wire_name
                                  (a ← _api o; _def_dict <$> h2 !! a);
                    Ok (code_name, h2)
                | None => Raise (AttributeError "ToMemberName")
                end
            | None => Ok (wire_name, h1)
            end;
          Ok (code_name, SetTemplateValue h2 self "codeName" code_name)
      end
  end.

(** [str + value]: the value has to be a string. *)
Definition str_add (s : string) (v : pyval) : result string :=
  match v with
  | PStr t => Ok (s +:+ t)
  | _ => Raise TypeError
  end.

(** [RelativeClassName(other)]. *)
Fixpoint RelativeClassName (depth : nat) (h : heap) (self : handle)
    (other : option handle) : result (string * heap) :=
  match depth with
  | 0 => Raise RuntimeError
  | S depth =>
      if decide (Some self = other) then Ok (EmptyString, h)
      else
        o ← deref h self;
        '(full_name, h1) ←
          match _parent o with
          | Some p => RelativeClassName depth h p other
          | None => Ok (EmptyString, h)
          end;
        '(full_name, h2) ←
          (if str_truthy full_name then
             '(lm, h2) ← language_model depth h1 self;
             match lm with
             | Some lm => Ok (full_name +:+ class_name_delimiter lm, h2)
             | None => Raise (UnboundLocalError "class_name_delimiter")
             end
           else Ok (full_name, h1));
        o2 ← deref h2 self;
        let last :=
          match get_truthy (_def_dict o2) "className" with
          | Some v => v
          | None =>
              match get_truthy (_def_dict o2) "codeName" with
              | Some v => v
              | None => default (PStr EmptyString) (_def_dict o2 !! "name")
              end
          end in
        full_name ← str_add full_name last;
        Ok (full_name, h2)
  end.

Definition packageRelativeClassName (depth : nat) (h : heap) (self : handle)
    : result (string * heap) :=
  RelativeClassName depth h self None.

(** The property [ancestors]: from the ultimate parent down to the parent. *)
Fixpoint ancestors (depth : nat) (h : heap) (self : handle)
    : result (list handle) :=
  match depth with
  | 0 => Raise RuntimeError
  | S depth =>
      o ← deref h self;
      match _parent o with
      | Some p => l ← ancestors depth h p; Ok (l ++ [p])
      | None => Ok []
      end
  end.

(** The property [full_path]. *)
Definition full_path (depth : nat) (h : heap) (self : handle)
    : result (list handle) :=
  l ← ancestors depth h self;
  Ok (l ++ [self]).

(** *** Module *)

Definition set_path (path : pyval) (o : CodeObject) : CodeObject :=
  set_module_fields
    ((fun f => {| _path := path; _owner_name := _owner_name f;
                  _owner_domain := _owner_domain f; _name := _name f |})
       <$> module_fields o) o.

Definition set_name (name : option string) (o : CodeObject) : CodeObject :=
  set_module_fields
    ((fun f => {| _path := _path f; _owner_name := _owner_name f;
                  _owner_domain := _owner_domain f; _name := name |})
       <$> module_fields o) o.

(** An attribute that only a [Module] has. *)
Definition module_attr (o : CodeObject) (attr : string) : result ModuleFields :=
  match module_fields o with
  | Some f => Ok f
  | None => Raise (AttributeError attr)
  end.

(** [if self._name:] *)
Definition name_truthy (name : option string) : bool :=
  match name with
  | Some n => str_truthy n
  | None => false
  end.

(** [Module.__init__]. *)
Definition Module_init `{Utilities} (h : heap)
    (path owner_name owner_domain : pyval) (parent : option handle)
    (language_model : option LanguageModel) : result (handle * heap) :=
  '(self, h1) ← CodeObject_init h ∅ None parent language_model;
  Ok (self,
      alter (set_module_fields
               (Some {| _path := path; _owner_name := owner_name;
                        _owner_domain := SanitizeDomain owner_domain;
                        _name := None |})) self h1).

(** [Module.ModuleFromDictionary], given [def_dict.get('library_definition')]. *)
Definition ModuleFromDictionary `{Utilities} (h : heap)
    (lib_def : option (gmap string pyval)) : result (option handle * heap) :=
  match lib_def with
  | None => Ok (None, h)
  | Some lib_def =>
      if decide (lib_def = ∅) then Ok (None, h)
      else
        '(m, h1) ← Module_init h
          (default (PStr EmptyString) (get_truthy lib_def "modulePath"))
          (default PNone (lib_def !! "owner"))
          (default PNone (lib_def !! "domain")) None None;
        Ok (Some m, h1)
  end.

Definition SetPath (h : heap) (self : handle) (path : pyval) : result heap :=
  o ← deref h self;
  f ← module_attr o "_name";
  if name_truthy (_name f)
  then Raise (ValueError "SetPath called after first use of name property")
  else Ok (alter (set_path path) self h).

(** ['/'.join(x for x in (base_path, self._path) if x)]. *)
Definition join_path (base_path : string) (path : pyval) : result string :=
  match str_truthy base_path, truthy path with
  | true, true => str_add (base_path +:+ "/") path
  | true, false => Ok base_path
  | false, true => str_add EmptyString path
  | false, false => Ok EmptyString
  end.

(** The property [path] of a Module. *)
Fixpoint path (depth : nat) (h : heap) (self : handle)
    : result (string * heap) :=
  match depth with
  | 0 => Raise RuntimeError
  | S depth =>
      o ← deref h self;
      f ← module_attr o "path";
      '(base_path, h1) ←
        match _parent o with
        | Some p => path depth h p
        | None =>
            '(lm, h1) ← language_model depth h self;
            match lm with
            | Some lm =>
                base_path ← DefaultContainerPathForOwner lm
                              (_owner_name f) (_owner_domain f);
                Ok (base_path, h1)
            | None => Raise (AttributeError "DefaultContainerPathForOwner")
            end
        end;
      p ← join_path base_path (_path f);
      Ok (p, h1)
  end.

(** The property [name] of a Module. *)
Definition name (depth : nat) (h : heap) (self : handle)
    : result (string * heap) :=
  o ← deref h self;
  f ← module_attr o "_name";
  if name_truthy (_name f) then Ok (default EmptyString (_name f), h)
  else
    '(p, h1) ← path depth h self;
    '(lm, h2) ← language_model depth h1 self;
    match lm with
    | Some lm =>
        let n := replace_char "/" (module_name_delimiter lm) p in
        Ok (n, alter (set_name (Some n)) self h2)
    | None => Raise (AttributeError "module_name_delimiter")
    end.

(** The property [fullClassName]. *)
Definition fullClassName (depth : nat) (h : heap) (self : handle)
    : result (string * heap) :=
  m ← module depth h self;
  match m with
  | Some m =>
      '(lm, h1) ← language_model depth h self;
      match lm with
      | Some lm =>
          '(module_name, h2) ← name depth h1 m;
          '(relative, h3) ← RelativeClassName depth h2 self None;
          Ok (module_name +:+ class_name_delimiter lm +:+ relative, h3)
      | None => Raise (AttributeError "class_name_delimiter")
      end
  | None => RelativeClassName depth h self None
  end.

(** ** Predicates and reference functions of the statements *)

(** What the two tables of [_Int] say, for a table whose type names are
    [short], [integer] and [long]. *)
Definition int_literal (short integer long : string) (d : IntDataValue)
    : result string :=
  let digits := str_of_long (dv_value d) in
  if decide (dv_code_type d = long) then Ok (digits +:+ "L")
  else if decide (dv_code_type d = short \/ dv_code_type d = integer)
       then Ok digits
       else Raise (ValueError (int_error_message (dv_value d) (dv_code_type d))).

(** [unwraps_to d n leaf]: [d] is [n] array or map layers around [leaf],
    which is neither an array nor a map. *)
Inductive unwraps_to : DataType -> nat -> DataType -> Prop :=
| unwraps_leaf (leaf : DataType) :
    is_collection (json_type leaf) = false ->
    unwraps_to leaf 0 leaf
| unwraps_layer (t : string) (values : gmap string pyval)
                (base leaf : DataType) (n : nat) :
    is_collection t = true ->
    unwraps_to base n leaf ->
    unwraps_to (Wrapper t values base) (S n) leaf.

(** The schema dictionary of a string with a format. *)
Definition string_schema (format : string) : gmap string pyval :=
  {[ "type" := PStr "string"; "format" := PStr format ]}.

(** [prefix] put [k] times in front of [name]. *)
Definition prefixed (k : nat) (prefix name : string) : string :=
  Nat.iter k (String.append prefix) name.

(** *** The tree *)

(** The parent and the children of the object at [r]. *)
Definition parent_of (h : heap) (r : handle) : option handle :=
  o ← h !! r; _parent o.

Definition children_of (h : heap) (r : handle) : list handle :=
  default [] (_children <$> h !! r).

(** How many times [x] is in [l]. *)
Definition count (x : handle) (l : list handle) : nat :=
  length (filter (fun y => y = x) l).

(** Every object is once in the children of its parent and in no other
    list of children. *)
Definition children_consistent (h : heap) : Prop :=
  forall p c : handle, p < length h -> c < length h ->
    count c (children_of h p) = if decide (parent_of h c = Some p) then 1 else 0.

(** References point into the heap. *)
Definition closed (h : heap) : Prop :=
  forall r : handle, r < length h ->
    (forall p, parent_of h r = Some p -> p < length h) /\
    (forall c, c ∈ children_of h r -> c < length h).

Definition tree_wf (h : heap) : Prop :=
  children_consistent h /\ closed h.

(** A call [self.SetParent(parent)] names objects of the heap. *)
Definition call_ok (h : heap) (call : handle * option handle) : Prop :=
  call.1 < length h /\ forall p, call.2 = Some p -> p < length h.

(** A sequence of [SetParent] calls. *)
Fixpoint SetParent_all (h : heap) (calls : list (handle * option handle))
    : result heap :=
  match calls with
  | [] => Ok h
  | (self, parent) :: calls =>
      h1 ← SetParent h self parent;
      SetParent_all h1 calls
  end.

(** [l] without its first [x]. *)
Fixpoint without_first (x : nat) (l : list nat) : list nat :=
  match l with
  | [] => []
  | y :: l' => if decide (y = x) then l' else y :: without_first x l'
  end.

(** What one call does to the tree. *)
Definition moved (h h' : heap) (self : nat) (new : option nat) : Prop :=
  length h' = length h /\
  (forall r, parent_of h' r = if decide (r = self) then new else parent_of h r) /\
  (forall p, children_of h' p =
     (if decide (parent_of h self = Some p)
      then without_first self (children_of h p) else children_of h p) ++
     (if decide (new = Some p) then [self] else [])).

(** An object with no parent, no children and nothing assigned, as
    [CodeObject({}, None)] builds it. *)
Definition bare_object : CodeObject :=
  {| _def_dict := ∅; _api := None; _children := []; _parent := None;
     _language_model := None; _module := None; module_fields := None |}.

(** [parent_chain h self chain]: [chain] lists [self], its parent, and so on
    up to an object with no parent. *)
Inductive parent_chain (h : heap) : handle -> list handle -> Prop :=
| chain_root (r : handle) (o : CodeObject) :
    h !! r = Some o -> _parent o = None ->
    parent_chain h r [r]
| chain_step (r p : handle) (o : CodeObject) (chain : list handle) :
    h !! r = Some o -> _parent o = Some p ->
    parent_chain h p chain ->
    parent_chain h r (r :: chain).

(** The Module assigned to the first object of [chain] that has one. *)
Fixpoint first_module (h : heap) (chain : list handle) : option handle :=
  match chain with
  | [] => None
  | r :: chain =>
      match h !! r ≫= _module with
      | Some m => Some m
      | None => first_module h chain
      end
  end.

(** [h1] is [h] with some language models stored by [language_model]. *)
Definition lm_frame (h h1 : heap) : Prop :=
  length h1 = length h /\
  forall r o, h !! r = Some o ->
    exists lm, h1 !! r = Some (set_language_model lm o).

Definition SetPath_error : exn :=
  ValueError "SetPath called after first use of name property".

(** The session that reads the name of a Module made from a library
    definition with no path and no domain, sets a path, and reads the name
    again. *)
Definition empty_name_session : result (string * string) :=
  let U := title_utilities in
  '(m, h0) ← ModuleFromDictionary [] (Some {[ "owner" := PStr "Best Buy" ]});
  match m with
  | None => Raise NoSuchObject
  | Some m =>
      h1 ← SetLanguageModel h0 m (Some (JavaLanguageModel_new "."));
      '(first_name, h2) ← name 10 h1 m;
      h3 ← SetPath h2 m (PStr "model");
      '(second_name, _) ← name 10 h3 m;
      Ok (first_name, second_name)
  end.

(** What may happen between two reads of [codeName]. *)
Inductive tree_call : Type :=
| CallSetLanguageModel (self : nat) (language_model : option LanguageModel)
| CallSetParent (self : nat) (parent : option nat).

Definition run_call (h : heap) (c : tree_call) : result heap :=
  match c with
  | CallSetLanguageModel self lm => SetLanguageModel h self lm
  | CallSetParent self parent => SetParent h self parent
  end.

Fixpoint run_calls (h : heap) (calls : list tree_call) : result heap :=
  match calls with
  | [] => Ok h
  | c :: calls => h1 ← run_call h c; run_calls h1 calls
  end.

(** The template values of the object at [r]. *)
Definition dict_of (h : heap) (r : nat) : option (gmap string pyval) :=
  _def_dict <$> h !! r.

(** [codeName] holds the value [v] for [self]. *)
Definition cached (h : heap) (self : nat) (v : pyval) : Prop :=
  exists d, dict_of h self = Some d /\ get_truthy d "codeName" = Some v.

(** The session that reads the code name of an object with an empty wire name
    and no language model, gives it the Java language model, and reads the
    code name again. *)
Definition empty_codeName_session : result pyval * result pyval :=
  let U := title_utilities in
  let h := [set_def_dict {[ "wireName" := PStr EmptyString ]} bare_object] in
  match codeName 10 h 0 with
  | Ok (first, h1) =>
      (Ok first,
       h2 ← SetLanguageModel h1 0 (Some (JavaLanguageModel_new "."));
       fst <$> codeName 10 h2 0)
  | Raise e => (Raise e, Raise e)
  end.

(** The qualified name [fullClassName] builds once the Module [m] and the
    language model [lm] are found. *)
Definition qualified_name (depth : nat) (h1 : heap) (self m : nat)
    (lm : LanguageModel) : result (string * heap) :=
  '(module_name, h2) ← name depth h1 m;
  '(relative, h3) ← RelativeClassName depth h2 self None;
  Ok (module_name +:+ class_name_delimiter lm +:+ relative, h3).

(** A schema named Volume in the Module "books" of google.com. *)
Definition books_heap : heap :=
  let U := title_utilities in
  let java := JavaLanguageModel_new "." in
  [ set_module (Some 1)
      (set_language_model (Some java)
         (set_def_dict {[ "className" := PStr "Volume" ]} bare_object));
    set_language_model (Some java)
      (set_module_fields
         (Some {| _path := PStr "books"; _owner_name := PStr "Google";
                  _owner_domain := PStr "google.com"; _name := None |})
         bare_object) ].

(** An object with a Module assigned and no language model in reach. *)
Definition no_language_model_heap : heap :=
  [ set_module (Some 1)
      (set_def_dict {[ "className" := PStr "Volume" ]} bare_object);
    set_module_fields
      (Some {| _path := PStr "books"; _owner_name := PStr "Google";
               _owner_domain := PStr "google.com"; _name := None |})
      bare_object ].

(** *** More of UseableInTemplates *)

(** The language model assigned to the first object of [chain] that has
    one. *)
Fixpoint first_language_model (h : heap) (chain : list handle)
    : option LanguageModel :=
  match chain with
  | [] => None
  | r :: chain =>
      match h !! r ≫= _language_model with
      | Some lm => Some lm
      | None => first_language_model h chain
      end
  end.

(** *** More of CodeObject *)

(** [FindTopParent]. *)
Fixpoint FindTopParent (depth : nat) (h : heap) (self : handle)
    : result handle :=
  match depth with
  | 0 => Raise RuntimeError
  | S depth =>
      o ← deref h self;
      match _parent o with
      | Some p => FindTopParent depth h p
      | None => Ok self
      end
  end.

(** [[p.values.get(key) for p in parent_list]]. *)
Fixpoint values_get (h : heap) (key : string) (parent_list : list handle)
    : result (list pyval) :=
  match parent_list with
  | [] => Ok []
  | p :: parent_list =>
      o ← deref h p;
      rest ← values_get h key parent_list;
      Ok (GetTemplateValue o key :: rest)
  end.

(** The property [parentPath]. *)
Definition parentPath (depth : nat) (h : heap) (self : handle)
    : result (list pyval) :=
  parent_list ← ancestors depth h self;
  values_get h "className" parent_list.

(** The class name stored for the object at [r], None when there is none. *)
Definition className_of (h : heap) (r : handle) : pyval :=
  default PNone (h !! r ≫= fun o => _def_dict o !! "className").

(** The name [RelativeClassName] puts last: [className], else [codeName],
    else [name], else the empty string. *)
Definition class_segment (o : CodeObject) : pyval :=
  match get_truthy (_def_dict o) "className" with
  | Some v => v
  | None =>
      match get_truthy (_def_dict o) "codeName" with
      | Some v => v
      | None => default (PStr EmptyString) (_def_dict o !! "name")
      end
  end.

(** [rel_chain h other self chain]: [chain] lists [self], its parent, and so
    on, up to a root or up to the child of [other]. *)
Inductive rel_chain (h : heap) (other : option handle)
    : handle -> list handle -> Prop :=
| rel_stop (r : handle) :
    other = Some r -> rel_chain h other r []
| rel_root (r : handle) (o : CodeObject) :
    other <> Some r -> h !! r = Some o -> _parent o = None ->
    rel_chain h other r [r]
| rel_step (r p : handle) (o : CodeObject) (chain : list handle) :
    other <> Some r -> h !! r = Some o -> _parent o = Some p ->
    rel_chain h other p chain ->
    rel_chain h other r (r :: chain).

(** The object at [r] has a language model of its own and a name that is a
    string. *)
Definition named (h : heap) (r : handle) : Prop :=
  exists o lm s,
    h !! r = Some o /\ _language_model o = Some lm /\
    class_segment o = PStr s.

(** The names of [chain], the root first, each followed by the delimiter of
    the next object but for the names before which nothing was written. *)
Fixpoint joined (h : heap) (chain : list handle) : string :=
  match chain with
  | [] => EmptyString
  | r :: chain =>
      let up := joined h chain in
      match h !! r with
      | Some o =>
          (if str_truthy up
           then up +:+ from_option class_name_delimiter EmptyString
                         (_language_model o)
           else up) +:+ str_of_pyval (class_segment o)
      | None => up
      end
  end.

(** The name of the object at [r], when it is a string. *)
Definition segment_of (h : heap) (r : handle) : option string :=
  o ← h !! r;
  match class_segment o with
  | PStr s => Some s
  | _ => None
  end.

(** Some object of [l] has a name that is not empty. *)
Definition has_name (h : heap) (l : list handle) : bool :=
  existsb (fun r => from_option str_truthy false (segment_of h r)) l.

(** *** More of Module *)

(** The path segment of the Module at [r]. *)
Definition path_segment (h : heap) (r : handle) : option pyval :=
  f ← h !! r ≫= module_fields; Some (_path f).

(** The path segments of [chain], a Module first and its root last, joined
    after [base] from the root down. *)
Fixpoint joined_path (h : heap) (base : string) (chain : list handle)
    : result string :=
  match chain with
  | [] => Ok base
  | r :: chain =>
      up ← joined_path h base chain;
      match path_segment h r with
      | Some segment => join_path up segment
      | None => Raise (AttributeError "path")
      end
  end.

(** The default container path the language model [lm] gives for the owner
    of the Module at [r]. *)
Definition container_path (h : heap) (lm : LanguageModel) (r : handle)
    : result string :=
  match h !! r ≫= module_fields with
  | Some f => DefaultContainerPathForOwner lm (_owner_name f) (_owner_domain f)
  | None => Raise (AttributeError "path")
  end.

(** The character [c] occurs in [s]. *)
Fixpoint has_char (c : ascii) (s : string) : bool :=
  match s with
  | EmptyString => false
  | String x r => bool_decide (x = c) || has_char c r
  end.

(** [lm] is the language model of some object of the heap. *)
Definition model_in (h : heap) (lm : LanguageModel) : Prop :=
  exists r o, h !! r = Some o /\ _language_model o = Some lm.

(** The Module that [Module(path, owner_name, owner_domain)] builds, with no
    parent and no language model. *)
Definition root_module `{Utilities} (path owner_name owner_domain : pyval)
    : CodeObject :=
  set_module_fields
    (Some {| _path := path; _owner_name := owner_name;
             _owner_domain := SanitizeDomain owner_domain; _name := None |})
    bare_object.

(** [lib_def.get('modulePath') or '']. *)
Definition modulePath_or_empty (lib_def : gmap string pyval) : pyval :=
  default (PStr EmptyString) (get_truthy lib_def "modulePath").

(** The test of [_HandleJsonString] on the data type left after unwrapping. *)
Definition is_json_string (leaf : DataType) : bool :=
  bool_decide (json_type leaf = "string") &&
  (bool_decide (dt_values leaf !! "format" = Some (PStr "int64")) ||
   bool_decide (dt_values leaf !! "format" = Some (PStr "uint64"))).

(** *** BaseJavaGenerator *)

Module BaseJavaGenerator.

(** The loop [while parent.parent: parent = parent.parent].  A loop does not
    hit the recursion limit: [None] says that it has not ended after [turns]
    turns. *)
Fixpoint top_parent (turns : nat) (h : heap) (parent : handle)
    : option (result handle) :=
  match turns with
  | 0 => None
  | S turns =>
      match h !! parent with
      | None => Some (Raise NoSuchObject)
      | Some o =>
          match _parent o with
          | Some p => top_parent turns h p
          | None => Some (Ok parent)
          end
      end
  end.

(** [for template_value in ...: element.SetTemplateValue(template_value, True)]. *)
Definition set_template_values (names : list string) (element : Element)
    : Element :=
  fold_left (fun e name => el_SetTemplateValue name (PBool true) e)
    names element.

(** [_HandleImports], for an element whose schema is the object at [schema].
    The import manager is outside the two files: the result names the object
    whose import manager is taken, and lists the imports handed to its
    [AddImport], in the order of the calls, beside the element. *)
Definition _HandleImports (inner_model_classes_supported : bool)
    (type_map : gmap (pyval * pyval) (string * ImportDefinition))
    (turns : nat) (h : heap) (schema : handle) (element : Element)
    : option (result (handle * list string * Element)) :=
  match (if inner_model_classes_supported
         then top_parent turns h schema else Some (Ok schema)) with
  | None => None
  | Some (Raise e) => Some (Raise e)
  | Some (Ok parent) =>
      Some ('(_, data_type) ← strip_collections 0 (el_data_type element);
            let json_type := json_type data_type in
            let json_format :=
              default PNone (dt_values data_type !! "format") in
            match type_map !! (PStr json_type, json_format) with
            | Some datatype_and_imports =>
                let import_definition := snd datatype_and_imports in
                Ok (parent, imports import_definition,
                    set_template_values (template_values import_definition)
                      element)
            | None => Ok (parent, [], element)
            end)
  end.

End BaseJavaGenerator.

(** The keys of the type tables for numbers that travel as strings. *)
Definition json_string_key (key : pyval * pyval) : bool :=
  bool_decide (key = type_key "string" (Some "int64")) ||
  bool_decide (key = type_key "string" (Some "uint64")).

(** *** JavaApi *)

Module JavaApi.

(** [ToClassName(s, element, element_type)].  [class_name] is the attribute
    [_class_name] of the Api, [values] its template values; the element
    itself is not read. *)
Definition ToClassName `{Utilities} (class_name : pyval)
    (values : gmap string pyval) (s : string) (element_type : pyval)
    : result string :=
  let name := replace_char " " EmptyString (CamelCase s) in
  if JavaLanguageModel.reserved (lower name) then
    service ← (if truthy class_name then Ok class_name
               else
                 match values !! "name" with
                 | Some api_name => PStr <$> CamelCase_val api_name
                 | None => Raise (KeyError "name")
                 end);
    match service with
    | PStr service => Ok (service +:+ name)
    | _ => Raise TypeError
    end
  else if decide (Some (PStr name) = values !! "className") then
    if decide (PStr "resource" = element_type) then Ok (name +:+ "Operations")
    else if decide (PStr "method" = element_type) then Ok (name +:+ "Operation")
    else Ok name
  else Ok name.

End JavaApi.

(** An upper-case letter of ASCII: what [str.lower] changes. *)
Definition is_upper (c : ascii) : bool :=
  let n := nat_of_ascii c in (65 <=? n) && (n <=? 90).

(** Two outcomes of [_Int] that tell the same: the same literal, or a
    ValueError on both sides. *)
Definition same_literal (a b : result string) : Prop :=
  match a, b with
  | Ok x, Ok y => x = y
  | Raise (ValueError _), Raise (ValueError _) => True
  | _, _ => False
  end.

(** [found_on prefix path candidate k]: going down [path] with [candidate],
    the loop of [ToSafeClassName] finds [k] nodes named as the candidate it
    holds when it reaches them.  Nothing is found when no node has the
    candidate as its safe class name; otherwise the first such node is found,
    and the search goes on below it with [prefix] put in front of the
    candidate. *)
Inductive found_on (prefix : string) : list Schema -> string -> nat -> Prop :=
| found_none (path : list Schema) (candidate : string) :
    (forall node, node ∈ path -> safeClassName node <> PStr candidate) ->
    found_on prefix path candidate 0
| found_next (before : list Schema) (node : Schema) (after : list Schema)
    (candidate : string) (k : nat) :
    (forall b, b ∈ before -> safeClassName b <> PStr candidate) ->
    safeClassName node = PStr candidate ->
    found_on prefix after (prefix +:+ candidate) k ->
    found_on prefix (before ++ node :: after) candidate (S k).

(** *** DataValue *)

Module DataValue.

(** [DataValue.SetLanguageModel(language_model)]: the model is given to the
    DataValue and then to its data type.  [data_type] is the object that the
    DataValue holds as [_data_type], a CodeObject of its own. *)
Definition SetLanguageModel (h : heap) (self data_type : handle)
    (language_model : option LanguageModel) : result heap :=
  h1 ← SetLanguageModel h self language_model;
  SetLanguageModel h1 data_type language_model.

End DataValue.

(** The calls that change the tree or a language model, those of a
    DataValue among them. *)
Inductive object_call : Type :=
| CallCodeObject (c : tree_call)
| CallDataValueSetLanguageModel (self data_type : handle)
    (language_model : option LanguageModel).

Definition run_object_call (h : heap) (c : object_call) : result heap :=
  match c with
  | CallCodeObject c => run_call h c
  | CallDataValueSetLanguageModel self data_type lm =>
      DataValue.SetLanguageModel h self data_type lm
  end.

Fixpoint run_object_calls (h : heap) (calls : list object_call)
    : result heap :=
  match calls with
  | [] => Ok h
  | c :: calls => h1 ← run_object_call h c; run_object_calls h1 calls
  end.

(** A call that assigns no language model to [self]: [self] is neither the
    object of a [SetLanguageModel] nor the data type of a DataValue whose
    [SetLanguageModel] is called. *)
Definition leaves_model (self : handle) (c : object_call) : Prop :=
  match c with
  | CallCodeObject (CallSetLanguageModel r _) => r <> self
  | CallCodeObject (CallSetParent _ _) => True
  | CallDataValueSetLanguageModel r data_type _ =>
      r <> self /\ data_type <> self
  end.

(** A list of names without the empty names it starts with. *)
Fixpoint skip_empty (names : list string) : list string :=
  match names with
  | EmptyString :: names => skip_empty names
  | _ => names
  end.

(** The object at [r] has a language model of its own, whose class-name
    delimiter is [d], and its name is the string [s]. *)
Definition named_as (d : string) (h : heap) (r : handle) (s : string) : Prop :=
  exists o lm,
    h !! r = Some o /\ _language_model o = Some lm /\
    class_name_delimiter lm = d /\ class_segment o = PStr s.

(** * Properties *)

(** ** The exception monad *)

Lemma bind_Ok {A B : Type} (m : result A) (k : A -> result B) (b : B) :
  m ≫= k = Ok b -> exists a, m = Ok a /\ k a = Ok b.
Proof. destruct m as [a|e]; [eauto | discriminate]. Qed.

Lemma fmap_Ok {A B : Type} (f : A -> B) (m : result A) (b : B) :
  f <$> m = Ok b -> exists a, m = Ok a /\ b = f a.
Proof.
  destruct m as [a|e]; [|discriminate].
  intros [= <-]. eauto.
Qed.

(** ** Type resolution *)

Section TypeResolution.
Context `{Utilities}.

Lemma TYPE_FORMAT_TO_DATATYPE_truthy (key : pyval * pyval) (datatype : string) :
  Java14LanguageModel.TYPE_FORMAT_TO_DATATYPE !! key = Some datatype ->
  str_truthy datatype = true.
Proof.
  intros Hk. apply elem_of_list_to_map_2 in Hk.
  assert (Hall : Forall (fun kv => str_truthy kv.2 = true)
                   Java14LanguageModel.TYPE_FORMAT_TO_DATATYPE_items)
    by (repeat constructor).
  rewrite Forall_forall in Hall. exact (Hall _ Hk).
Qed.

(** C1.  A schema dictionary whose type, where it has one, is a string:
    both language models return the type name the table gives for the
    (type, format) pair, and the camel-cased type for a pair the table does
    not have; they never raise; and a dictionary with no type is treated as
    the same dictionary with type "string". *)
Theorem GetCodeTypeFromDictionary_spec
    (def_dict : gmap string pyval) (t : string) :
  default (PStr "string") (def_dict !! "type") = PStr t ->
  let key := (PStr t, default PNone (def_dict !! "format")) in
  JavaLanguageModel.GetCodeTypeFromDictionary def_dict =
    Ok (match JavaLanguageModel.TYPE_FORMAT_TO_DATATYPE_AND_IMPORTS !! key with
        | Some (name, _) => name
        | None => CamelCase t
        end) /\
  Java14LanguageModel.GetCodeTypeFromDictionary def_dict =
    Ok (match Java14LanguageModel.TYPE_FORMAT_TO_DATATYPE !! key with
        | Some name => name
        | None => CamelCase t
        end) /\
  (def_dict !! "type" = None ->
   t = "string" /\
   JavaLanguageModel.GetCodeTypeFromDictionary def_dict =
     JavaLanguageModel.GetCodeTypeFromDictionary
       (<["type" := PStr "string"]> def_dict) /\
   Java14LanguageModel.GetCodeTypeFromDictionary def_dict =
     Java14LanguageModel.GetCodeTypeFromDictionary
       (<["type" := PStr "string"]> def_dict)).
Proof.
  intros Ht key. split; [|split].
  - unfold JavaLanguageModel.GetCodeTypeFromDictionary. rewrite Ht. fold key.
    destruct (JavaLanguageModel.TYPE_FORMAT_TO_DATATYPE_AND_IMPORTS !! key)
      as [[name imps]|]; reflexivity.
  - unfold Java14LanguageModel.GetCodeTypeFromDictionary. rewrite Ht. fold key.
    destruct (Java14LanguageModel.TYPE_FORMAT_TO_DATATYPE !! key)
      as [name|] eqn:Hk; [|reflexivity].
    rewrite (TYPE_FORMAT_TO_DATATYPE_truthy _ _ Hk). reflexivity.
  - intros Hnone. rewrite Hnone in Ht. simpl in Ht.
    split; [congruence|].
    unfold JavaLanguageModel.GetCodeTypeFromDictionary,
      Java14LanguageModel.GetCodeTypeFromDictionary.
    rewrite Hnone, lookup_insert_eq, lookup_insert_ne by discriminate.
    split; reflexivity.
Qed.

End TypeResolution.

Lemma GetCodeTypeFromDictionary_spec_witness :
  JavaLanguageModel.GetCodeTypeFromDictionary (H := title_utilities)
    {[ "format" := PStr "int64" ]} = Ok "Long" /\
  Java14LanguageModel.GetCodeTypeFromDictionary (H := title_utilities)
    {[ "format" := PStr "int64" ]} = Ok "java.lang.Long".
Proof.
  pose proof (GetCodeTypeFromDictionary_spec (H := title_utilities)
                {[ "format" := PStr "int64" ]} "string" eq_refl) as (H1 & H2 & _).
  split; [exact H1 | exact H2].
Defined.

(** ** Reserved words *)

Section ReservedWords.
Context `{Utilities}.

(** C2, as the code has it by design.  For an identifier whose lower-cased
    camel-case form is reserved: [ToSafeClassName] with no parent returns the
    camel-cased API name followed by the camel-cased identifier, and so it
    does with a parent, whenever the candidate that the loop over the
    parent's chain leaves is reserved; [ToMemberName] returns the API's name,
    as it is given, followed by the camel-cased identifier, for the
    identifiers that camel-casing changes in letter case only.  Neither
    checks the prefixed name again.  What [ToMemberName] does with an
    identifier that camel-casing changes in more than case is left open
    here: it tests the lower-cased identifier itself, where
    [ToSafeClassName] and [JavaApi.ToClassName] test the camel-cased one. *)
Theorem reserved_names_are_prefixed
    (s name : string) (the_api : gmap string pyval) :
  the_api !! "name" = Some (PStr name) ->
  (JavaLanguageModel.reserved (lower (CamelCase s)) = true ->
   lower s = lower (CamelCase s) ->
   JavaLanguageModel.ToMemberName s (Some the_api) =
     Ok (name +:+ CamelCase s)) /\
  (JavaLanguageModel.reserved (lower (CamelCase s)) = true ->
   JavaLanguageModel.ToSafeClassName s (Some the_api) None =
     Ok (CamelCase name +:+ CamelCase s)) /\
  (forall parent,
     JavaLanguageModel.reserved
       (lower (JavaLanguageModel.disambiguated parent (CamelCase s))) = true ->
     JavaLanguageModel.ToSafeClassName s (Some the_api) parent =
       Ok (CamelCase name +:+ CamelCase s)).
Proof.
  intros Hname.
  assert (Hsafe : forall parent,
     JavaLanguageModel.reserved
       (lower (JavaLanguageModel.disambiguated parent (CamelCase s))) = true ->
     JavaLanguageModel.ToSafeClassName s (Some the_api) parent =
       Ok (CamelCase name +:+ CamelCase s)).
  { intros parent Hres. unfold JavaLanguageModel.ToSafeClassName.
    rewrite Hres. simpl. rewrite Hname. reflexivity. }
  split; [|split; [|exact Hsafe]].
  - intros Hres Hcase. unfold JavaLanguageModel.ToMemberName.
    rewrite Hcase, Hres. simpl. rewrite Hname. reflexivity.
  - intros Hres. by apply (Hsafe None).
Qed.

End ReservedWords.

Lemma reserved_names_are_prefixed_witness :
  JavaLanguageModel.ToMemberName (H := title_utilities) "class"
    (Some {[ "name" := PStr "books" ]}) = Ok "booksClass" /\
  JavaLanguageModel.ToSafeClassName (H := title_utilities) "class"
    (Some {[ "name" := PStr "books" ]}) None = Ok "BooksClass".
Proof.
  pose proof (reserved_names_are_prefixed (H := title_utilities)
                "class" "books" {[ "name" := PStr "books" ]} eq_refl)
    as (Hm & Hc & _).
  split; [exact (Hm eq_refl eq_refl) | exact (Hc eq_refl)].
Defined.

(** C2 as the spec words it fails.  With the API named "en" and the wire name
    "try", whose lower-cased camel-case form is a Java keyword,
    [ToMemberName] returns "enTry", which is not the camel-cased API name
    followed by the camel-cased identifier, and [ToSafeClassName] returns
    "EnTry", which the reserved-word test ("entry") rejects again.  The wire
    name "try_" camel-cases to "Try", reserved as well, and [ToMemberName]
    returns the bare keyword "try", with no prefix at all. *)
Lemma reserved_prefix_counterexample :
  let U := title_utilities in
  let the_api : gmap string pyval := {[ "name" := PStr "en" ]} in
  JavaLanguageModel.reserved (lower (CamelCase "try")) = true /\
  JavaLanguageModel.ToMemberName "try" (Some the_api) = Ok "enTry" /\
  JavaLanguageModel.ToMemberName "try" (Some the_api) <>
    Ok (CamelCase "en" +:+ CamelCase "try") /\
  JavaLanguageModel.ToSafeClassName "try" (Some the_api) None = Ok "EnTry" /\
  JavaLanguageModel.reserved (lower "EnTry") = true /\
  JavaLanguageModel.reserved (lower (CamelCase "try_")) = true /\
  JavaLanguageModel.ToMemberName "try_" (Some the_api) = Ok "try" /\
  JavaLanguageModel.reserved (lower "try") = true.
Proof. vm_compute. repeat split; discriminate. Qed.

(** ** Integer literals *)

Lemma string_app_nil_r (s : string) : s +:+ EmptyString = s.
Proof.
  induction s as [|c s IH]; [reflexivity|].
  change (String c (s +:+ EmptyString) = String c s). by rewrite IH.
Qed.

Lemma string_app_assoc (a b c : string) : (a +:+ b) +:+ c = a +:+ b +:+ c.
Proof.
  induction a as [|x a IH]; [reflexivity|].
  change (String x ((a +:+ b) +:+ c) = String x (a +:+ b +:+ c)). by rewrite IH.
Qed.

Lemma int_error_message_value (value : Z) (code_type : string) :
  occurs_in (str_of_long value) (int_error_message value code_type).
Proof. exists "Provided DataValue (". eexists. reflexivity. Qed.

Lemma int_error_message_code_type (value : Z) (code_type : string) :
  occurs_in code_type (int_error_message value code_type).
Proof.
  exists ("Provided DataValue (" +:+ str_of_long value +:+
          ") does not present an appropriate Java annotated code type (").
  exists ").". unfold int_error_message.
  rewrite !string_app_assoc. reflexivity.
Qed.

Lemma format1_plain (digits : string) : format1 "%s" digits = digits.
Proof. apply string_app_nil_r. Qed.

(** Reads a table written as a chain of inserts at a given key. *)
Ltac read_table :=
  cbn [fst snd];
  repeat (rewrite lookup_insert_eq || rewrite lookup_insert_ne by naive_solver);
  rewrite ?lookup_empty.

(** Splits on the type name as [int_literal] does, then reads the table. *)
Ltac int_table :=
  unfold int_literal; cbn [list_to_map foldr dv_code_type dv_value uncurry];
  match goal with
  | |- context [ decide (?t = ?long) ] =>
      destruct (decide (t = long)) as [->|?]; [read_table; reflexivity|]
  end;
  match goal with
  | |- context [ decide (?t = ?short \/ ?t = ?integer) ] =>
      destruct (decide (t = short \/ t = integer)) as [[-> | ->]|?];
      [read_table; apply (f_equal Ok), format1_plain ..|]
  end;
  read_table; reflexivity.

(** C7.  [_Int] looks the resolved type name up in its table: the Long type
    gives the digits followed by L, the Short and Integer types the plain
    digits, and any other type name a [ValueError] whose message contains the
    value and the type name.  So 5 renders as "5L" for a Long and as "5" for
    an Integer. *)
Theorem _Int_spec (data_value : IntDataValue) :
  JavaLanguageModel._Int data_value =
    int_literal "Short" "Integer" "Long" data_value /\
  Java14LanguageModel._Int data_value =
    int_literal "java.lang.Short" "java.lang.Integer" "java.lang.Long"
      data_value /\
  occurs_in (str_of_long (dv_value data_value))
    (int_error_message (dv_value data_value) (dv_code_type data_value)) /\
  occurs_in (dv_code_type data_value)
    (int_error_message (dv_value data_value) (dv_code_type data_value)) /\
  JavaLanguageModel._Int {| dv_value := 5; dv_code_type := "Long" |} = Ok "5L" /\
  JavaLanguageModel._Int {| dv_value := 5; dv_code_type := "Integer" |} = Ok "5" /\
  Java14LanguageModel._Int
    {| dv_value := 5; dv_code_type := "java.lang.Long" |} = Ok "5L".
Proof.
  destruct data_value as [v t].
  split; [|split; [|split; [|split; [|by vm_compute]]]].
  - unfold JavaLanguageModel._Int, JavaLanguageModel.code_types. int_table.
  - unfold Java14LanguageModel._Int, Java14LanguageModel.code_types. int_table.
  - apply int_error_message_value.
  - apply int_error_message_code_type.
Qed.

(** ** String-encoded 64-bit numbers *)

Lemma strip_collections_unwraps (d leaf : DataType) (n steps : nat) :
  unwraps_to d n leaf ->
  strip_collections steps d = Ok (steps + n, leaf).
Proof.
  intros Hu. revert steps.
  induction Hu as [leaf Hleaf | t values base leaf n Ht Hu IH]; intros steps.
  - destruct leaf; simpl in *; rewrite Hleaf; by rewrite Nat.add_0_r.
  - simpl. rewrite Ht, IH. do 2 f_equal. lia.
Qed.

(** C8, as the code has it.  An element whose data type is any number of
    array or map layers around a string of format int64 or uint64 gets
    [requiresJsonString = True], after exactly that number of unwrapping
    steps.  The int64 pair resolves to the Long type of each language model;
    the uint64 pair resolves to UnsignedLong, and to java.math.BigInteger
    from version 1.14 on. *)
Theorem json_string_annotation `{Utilities}
    (element : Element) (leaf : DataType) (n : nat) (format : string) :
  unwraps_to (el_data_type element) n leaf ->
  json_type leaf = "string" ->
  dt_values leaf !! "format" = Some (PStr format) ->
  format = "int64" \/ format = "uint64" ->
  strip_collections 0 (el_data_type element) = Ok (n, leaf) /\
  Java14Generator._HandleJsonString element =
    Ok (el_SetTemplateValue "requiresJsonString" (PBool true) element) /\
  JavaLanguageModel.GetCodeTypeFromDictionary (string_schema format) =
    Ok (if decide (format = "int64") then "Long" else "UnsignedLong") /\
  Java14LanguageModel.GetCodeTypeFromDictionary (string_schema format) =
    Ok (if decide (format = "int64") then "java.lang.Long"
        else "java.math.BigInteger").
Proof.
  intros Hu Ht Hf Hfmt.
  pose proof (strip_collections_unwraps _ _ _ 0 Hu) as Hs. simpl in Hs.
  split; [exact Hs|]. split.
  - unfold Java14Generator._HandleJsonString. rewrite Hs. simpl.
    rewrite Ht, Hf. simpl.
    destruct Hfmt as [-> | ->]; reflexivity.
  - destruct Hfmt as [-> | ->]; split; reflexivity.
Qed.

Lemma json_string_annotation_witness :
  Java14Generator._HandleJsonString
    {| el_values := ∅;
       el_data_type :=
         Wrapper "array" ∅ (Plain "string" {[ "format" := PStr "uint64" ]}) |} =
  Ok {| el_values := {[ "requiresJsonString" := PBool true ]};
        el_data_type :=
          Wrapper "array" ∅ (Plain "string" {[ "format" := PStr "uint64" ]}) |}.
Proof.
  pose proof (json_string_annotation (H := title_utilities)
    {| el_values := ∅;
       el_data_type :=
         Wrapper "array" ∅ (Plain "string" {[ "format" := PStr "uint64" ]}) |}
    (Plain "string" {[ "format" := PStr "uint64" ]}) 1 "uint64") as Hspec.
  destruct Hspec as (_ & Hset & _).
  - apply unwraps_layer; [reflexivity|]. apply unwraps_leaf. reflexivity.
  - reflexivity.
  - reflexivity.
  - right. reflexivity.
  - exact Hset.
Defined.

(** C8 as the spec words it fails for uint64.  The 64-bit integer type of the
    language models is the one [_Int] renders with the suffix L, and int64
    resolves to it.  uint64 resolves to another type, which the table of
    [_Int] does not have; from version 1.14 on it is java.math.BigInteger,
    which is not a 64-bit type. *)
Lemma uint64_counterexample :
  let U := title_utilities in
  Java14LanguageModel.GetCodeTypeFromDictionary (string_schema "int64") =
    Ok "java.lang.Long" /\
  Java14LanguageModel.code_types !! "java.lang.Long" = Some "%sL" /\
  Java14LanguageModel.GetCodeTypeFromDictionary (string_schema "uint64") =
    Ok "java.math.BigInteger" /\
  Java14LanguageModel.code_types !! "java.math.BigInteger" = None /\
  JavaLanguageModel.GetCodeTypeFromDictionary (string_schema "int64") =
    Ok "Long" /\
  JavaLanguageModel.code_types !! "Long" = Some "%sL" /\
  JavaLanguageModel.GetCodeTypeFromDictionary (string_schema "uint64") =
    Ok "UnsignedLong" /\
  JavaLanguageModel.code_types !! "UnsignedLong" = None.
Proof. by vm_compute. Qed.

(** ** Class names on the parent's chain *)

Lemma string_length_app (a b : string) :
  String.length (a +:+ b) = String.length a + String.length b.
Proof.
  induction a as [|x a IH]; [reflexivity|].
  change (S (String.length (a +:+ b)) = S (String.length a + String.length b)).
  by rewrite IH.
Qed.

Lemma prefixed_length (k : nat) (prefix name : string) :
  String.length (prefixed k prefix name) =
  k * String.length prefix + String.length name.
Proof.
  induction k as [|k IH]; [reflexivity|].
  unfold prefixed in *. rewrite Nat.iter_succ, string_length_app, IH. lia.
Qed.

Section ParentChain.
Variable parent : Schema.

Let prefix : string := str_of_pyval (class_name parent).

Lemma disambiguate_step (candidate : string) (ancestor : Schema) :
  JavaLanguageModel.disambiguate parent candidate ancestor =
  if decide (safeClassName ancestor = PStr candidate)
  then prefix +:+ candidate else candidate.
Proof. reflexivity. Qed.

(** The loop only ever puts the parent's class name in front. *)
Lemma disambiguate_fold_prefixed (chain : list Schema) (candidate : string) :
  exists k,
    fold_left (JavaLanguageModel.disambiguate parent) chain candidate =
    prefixed k prefix candidate.
Proof.
  revert candidate.
  induction chain as [|ancestor chain IH]; intros candidate.
  - exists 0. reflexivity.
  - cbn [fold_left]. rewrite disambiguate_step.
    destruct (decide (safeClassName ancestor = PStr candidate)) as [Heq|Hne].
    + destruct (IH (prefix +:+ candidate)) as [k Hk].
      exists (S k). rewrite Hk. unfold prefixed.
      by rewrite Nat.iter_succ_r.
    + apply IH.
Qed.

(** A node of the chain named as the candidate makes it do so at least
    once. *)
Lemma disambiguate_fold_collision (chain : list Schema) (candidate : string) :
  (exists ancestor, ancestor ∈ chain /\
                    safeClassName ancestor = PStr candidate) ->
  exists k,
    fold_left (JavaLanguageModel.disambiguate parent) chain candidate =
    prefixed (S k) prefix candidate.
Proof.
  induction chain as [|ancestor chain IH]; intros (a & Hin & Ha).
  - by apply elem_of_nil in Hin.
  - cbn [fold_left]. rewrite disambiguate_step.
    destruct (decide (safeClassName ancestor = PStr candidate)) as [Heq|Hne].
    + destruct (disambiguate_fold_prefixed chain (prefix +:+ candidate))
        as [k Hk].
      exists k. rewrite Hk. unfold prefixed.
      by rewrite Nat.iter_succ_r.
    + apply IH. exists a. split; [|exact Ha].
      apply elem_of_cons in Hin as [-> | Hin]; [contradiction | exact Hin].
Qed.

End ParentChain.

(** A path with no node named as the candidate leaves it as it is. *)
Lemma disambiguated_no_collision (parent : Schema) (name : string)
    (ancestors : list Schema) :
  (forall ancestor, ancestor ∈ ancestors ->
     safeClassName ancestor <> PStr name) ->
  fold_left (JavaLanguageModel.disambiguate parent) ancestors name = name.
Proof.
  induction ancestors as [|a rest IH]; intros Hno; [done|].
  cbn [fold_left]. unfold JavaLanguageModel.disambiguate at 2.
  rewrite decide_False by (apply Hno; left).
  apply IH. intros ancestor Hin. apply Hno. by right.
Qed.

(** A path splits at its first node named as the candidate, when it has
    one. *)
Lemma first_named (path : list Schema) (candidate : string) :
  (forall node, node ∈ path -> safeClassName node <> PStr candidate) \/
  exists before node after,
    path = before ++ node :: after /\
    (forall b, b ∈ before -> safeClassName b <> PStr candidate) /\
    safeClassName node = PStr candidate.
Proof.
  induction path as [|a path IH].
  - left. intros node Hin. by apply elem_of_nil in Hin.
  - destruct (decide (safeClassName a = PStr candidate)) as [Ha|Ha].
    + right. exists [], a, path. split; [reflexivity|]. split; [|exact Ha].
      intros b Hin. by apply elem_of_nil in Hin.
    + destruct IH as [Hno | (before & node & after & -> & Hno & Hnode)].
      * left. intros node Hin.
        apply elem_of_cons in Hin as [-> | Hin]; [exact Ha | by apply Hno].
      * right. exists (a :: before), node, after.
        split; [reflexivity|]. split; [|exact Hnode].
        intros b Hin.
        apply elem_of_cons in Hin as [-> | Hin]; [exact Ha | by apply Hno].
Qed.

Lemma first_named_unique (before before' after after' : list Schema)
    (node node' : Schema) (candidate : string) :
  before ++ node :: after = before' ++ node' :: after' ->
  (forall b, b ∈ before -> safeClassName b <> PStr candidate) ->
  (forall b, b ∈ before' -> safeClassName b <> PStr candidate) ->
  safeClassName node = PStr candidate ->
  safeClassName node' = PStr candidate ->
  after = after'.
Proof.
  revert before'.
  induction before as [|a before IH]; intros [|a' before'] Heq Hno Hno' Hn Hn'.
  - by injection Heq as _ ->.
  - injection Heq as -> _. destruct (Hno' a'); [by left | exact Hn].
  - injection Heq as <- _. destruct (Hno a); [by left | exact Hn'].
  - injection Heq as _ Heq. apply (IH before' Heq); try done.
    + intros b Hin. apply Hno. by right.
    + intros b Hin. apply Hno'. by right.
Qed.

Section FoundOn.
Variable parent : Schema.

Let prefix : string := str_of_pyval (class_name parent).

(** The loop returns the candidate with the prefix in front once for each
    node found. *)
Lemma found_on_fold (path : list Schema) (candidate : string) (k : nat) :
  found_on prefix path candidate k ->
  fold_left (JavaLanguageModel.disambiguate parent) path candidate =
  prefixed k prefix candidate.
Proof.
  induction 1 as [path candidate Hno
                 | before node after candidate k Hno Hnode _ IH].
  - by apply disambiguated_no_collision.
  - rewrite fold_left_app, (disambiguated_no_collision _ _ _ Hno).
    cbn [fold_left]. rewrite disambiguate_step, decide_True by done.
    fold prefix. rewrite IH. unfold prefixed. by rewrite Nat.iter_succ_r.
Qed.

(** Every path and candidate have their count of nodes found, and only
    one. *)
Lemma found_on_total (path : list Schema) (candidate : string) :
  exists k, found_on prefix path candidate k.
Proof.
  remember (length path) as n eqn:Hn. revert path candidate Hn.
  induction n as [n IH] using lt_wf_ind. intros path candidate ->.
  destruct (first_named path candidate)
    as [Hno | (before & node & after & -> & Hno & Hnode)].
  - exists 0. by constructor.
  - destruct (IH (length after)) with (path := after)
      (candidate := prefix +:+ candidate) as [k Hk]; [|reflexivity|].
    + rewrite length_app. simpl. lia.
    + exists (S k). by constructor.
Qed.

Lemma found_on_unique (path : list Schema) (candidate : string) (k k' : nat) :
  found_on prefix path candidate k -> found_on prefix path candidate k' ->
  k = k'.
Proof.
  intros Hk. revert k'.
  induction Hk as [path candidate Hno
                  | before node after candidate k Hno Hnode _ IH];
    intros k' Hk'.
  - inversion Hk' as [| before node after c k0 _ Hnode _ Hpath]; subst;
      [reflexivity|].
    destruct (Hno node); [|exact Hnode].
    apply elem_of_app. right. by left.
  - inversion Hk' as [path c Hno' | before' node' after' c k0 Hno' Hnode' Hrest Hpath];
      subst.
    + destruct (Hno' node); [|exact Hnode].
      apply elem_of_app. right. by left.
    + f_equal. apply IH.
      by rewrite (first_named_unique _ _ _ _ _ _ _ (eq_sym Hpath)
                    Hno Hno' Hnode Hnode').
Qed.

End FoundOn.

(** C9, as the code has it.  When a node of the parent's [full_path] has the
    camel-cased candidate as its safe class name, the name that reaches the
    reserved-word check is the candidate with the parent's class name put in
    front, once for every node the loop finds named as the current candidate:
    that number is the one [found_on] counts, it is at least one, and there
    is no other.  The name is not the candidate itself when the parent's
    class name is not empty.  The reserved-word check then applies to that
    name. *)
Theorem ToSafeClassName_disambiguates `{Utilities}
    (s : string) (the_api : option (gmap string pyval))
    (ancestors : list Schema) (parent : Schema) :
  (exists ancestor, ancestor ∈ ancestors ++ [parent] /\
                    safeClassName ancestor = PStr (CamelCase s)) ->
  exists k,
    let prefix := str_of_pyval (class_name parent) in
    let candidate := prefixed (S k) prefix (CamelCase s) in
    found_on prefix (ancestors ++ [parent]) (CamelCase s) (S k) /\
    (forall k', found_on prefix (ancestors ++ [parent]) (CamelCase s) k' ->
                k' = S k) /\
    JavaLanguageModel.disambiguated (Some (ancestors, parent)) (CamelCase s) =
      candidate /\
    (str_truthy prefix = true -> candidate <> CamelCase s) /\
    JavaLanguageModel.ToSafeClassName s the_api (Some (ancestors, parent)) =
      (if JavaLanguageModel.reserved (lower candidate)
       then name ← api_name the_api;
            camel_name ← CamelCase_val name;
            Ok (camel_name +:+ CamelCase s)
       else Ok candidate).
Proof.
  intros (ancestor & Hin & Hnamed).
  destruct (found_on_total parent (ancestors ++ [parent]) (CamelCase s))
    as [k0 Hfound].
  destruct k0 as [|k].
  { inversion Hfound as [path c Hno|]; subst. by destruct (Hno ancestor). }
  pose proof (found_on_fold parent _ _ _ Hfound) as Hk.
  change (JavaLanguageModel.disambiguated (Some (ancestors, parent))
            (CamelCase s) =
          prefixed (S k) (str_of_pyval (class_name parent)) (CamelCase s))
    in Hk.
  exists k. cbv zeta. split; [exact Hfound|].
  split; [intros k' Hk'; by apply (found_on_unique parent _ _ _ _ Hk')|].
  split; [exact Hk|]. split.
  - intros Hp Heq. apply (f_equal String.length) in Heq.
    rewrite prefixed_length in Heq.
    destruct (str_of_pyval (class_name parent)); [discriminate|].
    simpl in Heq. lia.
  - unfold JavaLanguageModel.ToSafeClassName. cbv zeta. rewrite Hk.
    reflexivity.
Qed.

Lemma ToSafeClassName_disambiguates_witness :
  JavaLanguageModel.ToSafeClassName (H := title_utilities) "foo" None
    (Some ([ {| safeClassName := PStr "Foo"; class_name := PStr "Foo" |} ],
           {| safeClassName := PStr "FooFoo"; class_name := PStr "Foo" |})) =
  Ok "FooFooFoo".
Proof.
  destruct (ToSafeClassName_disambiguates (H := title_utilities) "foo" None
    [ {| safeClassName := PStr "Foo"; class_name := PStr "Foo" |} ]
    {| safeClassName := PStr "FooFoo"; class_name := PStr "Foo" |})
    as (k & _ & _ & Hcand & _ & Hres).
  - exists {| safeClassName := PStr "Foo"; class_name := PStr "Foo" |}.
    split; [apply elem_of_cons; left; reflexivity | reflexivity].
  - rewrite Hres, <- Hcand. reflexivity.
Defined.

(** C9 as the spec words it fails.  Under the parent Bar, nested in Foo, the
    names "foo" and "barFoo" are distinct and neither is reserved, yet both
    get the class name "BarFoo": the first one by disambiguation from the
    ancestor Foo, the second one as it is. *)
Lemma class_names_collide :
  let U := title_utilities in
  let chain :=
    Some ([ {| safeClassName := PStr "Foo"; class_name := PStr "Foo" |} ],
          {| safeClassName := PStr "Bar"; class_name := PStr "Bar" |}) in
  "foo" <> "barFoo" /\
  JavaLanguageModel.ToSafeClassName "foo" None chain = Ok "BarFoo" /\
  JavaLanguageModel.ToSafeClassName "barFoo" None chain = Ok "BarFoo".
Proof. by vm_compute. Qed.

(** ** The tree of CodeObjects *)

Lemma heap_lookup_alter (f : CodeObject -> CodeObject) (i r : handle) (h : heap) :
  alter f i h !! r = if decide (i = r) then f <$> h !! r else h !! r.
Proof.
  rewrite list_lookup_alter. destruct (decide (i = r)); by subst.
Qed.

Lemma parent_of_alter (f : CodeObject -> CodeObject) (i r : handle) (h : heap) :
  (forall o, _parent (f o) = _parent o) ->
  parent_of (alter f i h) r = parent_of h r.
Proof.
  intros Hf. unfold parent_of. rewrite heap_lookup_alter.
  destruct (decide (i = r)); [|reflexivity].
  destruct (h !! r); simpl; [apply Hf | reflexivity].
Qed.

Lemma children_of_alter (f : CodeObject -> CodeObject) (i r : handle) (h : heap) :
  (forall o, _children (f o) = _children o) ->
  children_of (alter f i h) r = children_of h r.
Proof.
  intros Hf. unfold children_of. rewrite heap_lookup_alter.
  destruct (decide (i = r)); [|reflexivity].
  destruct (h !! r); simpl; [apply Hf | reflexivity].
Qed.

Lemma parent_of_set_parent (q : option handle) (i r : handle) (h : heap) :
  i < length h ->
  parent_of (alter (set_parent q) i h) r =
  if decide (r = i) then q else parent_of h r.
Proof.
  intros Hi. unfold parent_of. rewrite heap_lookup_alter.
  destruct (decide (i = r)) as [->|Hne].
  - rewrite decide_True by done.
    destruct (lookup_lt_is_Some_2 h r Hi) as [o ->]. reflexivity.
  - rewrite decide_False by done. reflexivity.
Qed.

Lemma children_of_alter_children (g : list handle -> list handle)
    (i r : handle) (h : heap) :
  i < length h ->
  children_of (alter (fun o => set_children (g (_children o)) o) i h) r =
  if decide (r = i) then g (children_of h r) else children_of h r.
Proof.
  intros Hi. unfold children_of. rewrite heap_lookup_alter.
  destruct (decide (i = r)) as [->|Hne].
  - rewrite decide_True by done.
    destruct (lookup_lt_is_Some_2 h r Hi) as [o ->]. reflexivity.
  - rewrite decide_False by done. reflexivity.
Qed.

Lemma count_cons (x y : nat) (l : list nat) :
  count x (y :: l) = (if decide (y = x) then 1 else 0) + count x l.
Proof.
  unfold count. rewrite filter_cons.
  destruct (decide (y = x)); reflexivity.
Qed.

Lemma count_app (x : nat) (l1 l2 : list nat) :
  count x (l1 ++ l2) = count x l1 + count x l2.
Proof. unfold count. by rewrite filter_app, length_app. Qed.

Lemma count_pos_elem_of (x : nat) (l : list nat) :
  0 < count x l <-> x ∈ l.
Proof.
  induction l as [|y l IH].
  - split; [inversion 1 | by intros ?%elem_of_nil].
  - rewrite count_cons, elem_of_cons.
    destruct (decide (y = x)) as [->|Hne]; [split; [auto | lia]|].
    simpl. rewrite IH.
    split; [by right | intros [Heq | Hin]; [congruence | exact Hin]].
Qed.

Lemma list_remove_first_elem_of (x : nat) (l : list nat) :
  x ∈ l -> list_remove_first x l = Ok (without_first x l).
Proof.
  induction l as [|y l IH]; intros Hin.
  - by apply elem_of_nil in Hin.
  - simpl. destruct (decide (y = x)) as [->|Hne]; [reflexivity|].
    apply elem_of_cons in Hin as [-> | Hin]; [done|].
    by rewrite (IH Hin).
Qed.

Lemma count_without_first (x y : nat) (l : list nat) :
  count y (without_first x l) =
  count y l - (if decide (y = x) then 1 else 0).
Proof.
  induction l as [|z l IH]; [reflexivity|].
  simpl. destruct (decide (z = x)) as [->|Hne].
  - rewrite count_cons. destruct (decide (x = y)) as [->|Hxy].
    + rewrite decide_True by done. lia.
    + rewrite decide_False by done. lia.
  - rewrite !count_cons, IH.
    destruct (decide (z = y)) as [->|Hzy]; [|simpl; lia].
    rewrite decide_False by done. lia.
Qed.

Lemma elem_of_without_first (x y : nat) (l : list nat) :
  y ∈ without_first x l -> y ∈ l.
Proof.
  induction l as [|z l IH]; [done|].
  simpl. destruct (decide (z = x)); rewrite ?elem_of_cons.
  - intros Hin. by right.
  - intros [-> | Hin]; [by left | right; by apply IH].
Qed.

Lemma children_of_set_children (c : list nat) (i r : nat) (h : heap) :
  i < length h ->
  children_of (alter (set_children c) i h) r =
  if decide (r = i) then c else children_of h r.
Proof.
  intros Hi. unfold children_of. rewrite heap_lookup_alter.
  destruct (decide (i = r)) as [->|Hne].
  - rewrite decide_True by done.
    destruct (lookup_lt_is_Some_2 h r Hi) as [o ->]. reflexivity.
  - rewrite decide_False by done. reflexivity.
Qed.

Lemma deref_lt (h : heap) (r : nat) :
  r < length h -> exists o, h !! r = Some o /\ deref h r = Ok o.
Proof.
  intros Hr. destruct (lookup_lt_is_Some_2 h r Hr) as [o Ho].
  exists o. unfold deref. by rewrite Ho.
Qed.

Lemma SetParent_moved (h : heap) (self : nat) (new : option nat) :
  tree_wf h -> call_ok h (self, new) ->
  exists h', SetParent h self new = Ok h' /\ moved h h' self new.
Proof.
  intros [Hcons Hclosed] [Hself Hnew]. simpl in Hself, Hnew.
  destruct (deref_lt h self Hself) as (o & Ho & Hd).
  unfold SetParent. rewrite Hd. simpl.
  assert (Hpo : parent_of h self = _parent o)
    by (unfold parent_of; by rewrite Ho).
  (* the old parent gives the object up *)
  assert (exists h1,
    match _parent o with
    | Some old =>
        oo ← deref h old;
        children ← list_remove_first self (_children oo);
        Ok (alter (set_children children) old h)
    | None => Ok h
    end = Ok h1 /\
    length h1 = length h /\
    (forall r, parent_of h1 r = parent_of h r) /\
    (forall p, children_of h1 p =
       if decide (parent_of h self = Some p)
       then without_first self (children_of h p) else children_of h p))
    as (h1 & -> & Hlen1 & Hpar1 & Hch1).
  { rewrite Hpo. destruct (_parent o) as [old|] eqn:Hold.
    - assert (Hlt : old < length h).
      { destruct (Hclosed self Hself) as [Hp _]. apply Hp. congruence. }
      destruct (deref_lt h old Hlt) as (oo & Hoo & Hdo).
      rewrite Hdo. simpl.
      assert (Hch : children_of h old = _children oo)
        by (unfold children_of; by rewrite Hoo).
      assert (Hin : self ∈ _children oo).
      { rewrite <- Hch. apply count_pos_elem_of.
        rewrite (Hcons old self Hlt Hself), Hpo, decide_True by done. lia. }
      rewrite (list_remove_first_elem_of _ _ Hin). simpl.
      eexists. split; [reflexivity|]. split; [apply length_alter|].
      split.
      + intros r. by apply parent_of_alter.
      + intros p. rewrite children_of_set_children by done.
        destruct (decide (p = old)) as [->|Hne].
        * rewrite decide_True by done. by rewrite Hch.
        * rewrite decide_False by congruence. reflexivity.
    - exists h. repeat split; done. }
  simpl.
  set (h2 := alter (set_parent new) self h1).
  assert (Hlen2 : length h2 = length h) by (unfold h2; by rewrite length_alter).
  assert (Hpar2 : forall r, parent_of h2 r =
                            if decide (r = self) then new else parent_of h r).
  { intros r. unfold h2. rewrite parent_of_set_parent by lia.
    by rewrite Hpar1. }
  assert (Hch2 : forall p, children_of h2 p = children_of h1 p)
    by (intros p; unfold h2; by apply children_of_alter).
  destruct new as [p|].
  - assert (Hp : p < length h2) by (rewrite Hlen2; by apply Hnew).
    destruct (deref_lt h2 p Hp) as (po & _ & ->). simpl.
    eexists. split; [reflexivity|]. split; [|split].
    + by rewrite length_alter.
    + intros r. rewrite parent_of_alter by done. apply Hpar2.
    + intros q.
      rewrite (children_of_alter_children (fun l => l ++ [self])) by done.
      rewrite Hch2, Hch1.
      destruct (decide (q = p)) as [->|Hne].
      * by rewrite (decide_True (P := Some p = Some p)).
      * rewrite (decide_False (P := Some p = Some q)) by congruence.
        by rewrite app_nil_r.
  - exists h2. split; [reflexivity|]. split; [done|]. split; [done|].
    intros q. rewrite Hch2, Hch1. by rewrite app_nil_r.
Qed.

Lemma moved_wf (h h' : heap) (self : nat) (new : option nat) :
  tree_wf h -> call_ok h (self, new) -> moved h h' self new -> tree_wf h'.
Proof.
  intros [Hcons Hclosed] [Hself Hnew] (Hlen & Hpar & Hch).
  simpl in Hself, Hnew. split.
  - intros p c Hp Hc. rewrite Hlen in Hp, Hc.
    rewrite Hch, count_app, Hpar.
    assert (Hold : count c
              (if decide (parent_of h self = Some p)
               then without_first self (children_of h p)
               else children_of h p) =
            if decide (c = self) then 0
            else if decide (parent_of h c = Some p) then 1 else 0).
    { destruct (decide (parent_of h self = Some p)) as [Hsp|Hsp].
      - rewrite count_without_first, (Hcons p c Hp Hc).
        destruct (decide (c = self)) as [->|Hne].
        + rewrite decide_True by done. reflexivity.
        + lia.
      - rewrite (Hcons p c Hp Hc).
        destruct (decide (c = self)) as [->|Hne]; [|reflexivity].
        by rewrite decide_False. }
    rewrite Hold.
    destruct (decide (c = self)) as [->|Hne].
    + destruct (decide (new = Some p)) as [Hn|Hn]; [|reflexivity].
      rewrite count_cons, decide_True by done. reflexivity.
    + destruct (decide (new = Some p)) as [Hn|Hn].
      * rewrite count_cons, (decide_False (P := self = c)) by congruence.
        destruct (decide (parent_of h c = Some p)); reflexivity.
      * destruct (decide (parent_of h c = Some p)); reflexivity.
  - intros r Hr. rewrite Hlen in Hr. rewrite Hlen.
    destruct (Hclosed r Hr) as [Hrp Hrc]. split.
    + intros p. rewrite Hpar.
      destruct (decide (r = self)); [apply Hnew | apply Hrp].
    + intros c. rewrite Hch, elem_of_app. intros [Hin | Hin].
      * destruct (decide (parent_of h self = Some r));
          [apply elem_of_without_first in Hin|]; by apply Hrc.
      * destruct (decide (new = Some r)); [|by apply elem_of_nil in Hin].
        apply list_elem_of_singleton in Hin. by subst.
Qed.

Lemma call_ok_length (h h' : heap) (call : nat * option nat) :
  length h' = length h -> call_ok h call -> call_ok h' call.
Proof. unfold call_ok. intros ->. done. Qed.

(** C3.  From a forest in which every object is once in the children of its
    parent and in no other list of children, every sequence of [SetParent]
    calls on its objects runs without an error and leaves such a forest; and
    a further call takes the object out of the children of its previous
    parent and puts it at the end of the children of the new one. *)
Theorem SetParent_keeps_children_consistent
    (h : heap) (calls : list (nat * option nat)) :
  tree_wf h -> Forall (call_ok h) calls ->
  exists h',
    SetParent_all h calls = Ok h' /\ length h' = length h /\ tree_wf h' /\
    forall self new, call_ok h' (self, new) ->
      exists h'', SetParent h' self new = Ok h'' /\ tree_wf h'' /\
                  moved h' h'' self new.
Proof.
  intros Hwf Hcalls. revert h Hwf Hcalls.
  induction calls as [|[self new] calls IH]; intros h Hwf Hcalls.
  - exists h. split; [reflexivity|]. split; [reflexivity|]. split; [exact Hwf|].
    intros self new Hok.
    destruct (SetParent_moved h self new Hwf Hok) as (h'' & Hrun & Hmoved).
    exists h''. eauto using moved_wf.
  - apply Forall_cons in Hcalls as [Hcall Hcalls].
    destruct (SetParent_moved h self new Hwf Hcall) as (h1 & Hrun & Hmoved).
    assert (Hlen : length h1 = length h) by apply Hmoved.
    destruct (IH h1) as (h' & Hall & Hlen' & Hwf' & Hnext).
    + eauto using moved_wf.
    + eapply Forall_impl; [exact Hcalls|].
      intros call. by apply call_ok_length.
    + exists h'. simpl. rewrite Hrun. simpl.
      split; [exact Hall|]. split; [congruence|]. split; [exact Hwf'|].
      exact Hnext.
Qed.

(** Objects that were never given a parent form a forest. *)
Lemma roots_wf (h : heap) :
  Forall (fun o => _parent o = None /\ _children o = []) h -> tree_wf h.
Proof.
  intros Hall. rewrite Forall_lookup in Hall.
  assert (Hp : forall r, parent_of h r = None).
  { intros r. unfold parent_of. destruct (h !! r) as [o|] eqn:Ho; [|done].
    simpl. by destruct (Hall r o Ho). }
  assert (Hc : forall r, children_of h r = []).
  { intros r. unfold children_of. destruct (h !! r) as [o|] eqn:Ho; [|done].
    simpl. by destruct (Hall r o Ho). }
  split.
  - intros p c _ _. by rewrite Hc, Hp.
  - intros r _. split.
    + intros p. by rewrite Hp.
    + intros c. rewrite Hc. by intros ?%elem_of_nil.
Qed.

Lemma SetParent_keeps_children_consistent_witness :
  exists h',
    SetParent_all [bare_object; bare_object; bare_object]
      [(1, Some 0); (2, Some 1); (2, Some 0); (1, None)] = Ok h' /\
    children_of h' 0 = [2] /\ children_of h' 1 = [] /\ tree_wf h'.
Proof.
  destruct (SetParent_keeps_children_consistent
              [bare_object; bare_object; bare_object]
              [(1, Some 0); (2, Some 1); (2, Some 0); (1, None)])
    as (h' & Hrun & _ & Hwf & _).
  - apply roots_wf. repeat constructor.
  - repeat (apply Forall_cons; split;
      [split; [simpl; lia
              |intros p Hp; simpl in Hp; try discriminate;
               injection Hp as <-; simpl; lia]|]).
    constructor.
  - exists h'. split; [exact Hrun|].
    vm_compute in Hrun. injection Hrun as <-.
    split; [reflexivity|]. split; [reflexivity | exact Hwf].
Defined.

(** The invariant only looks at parents and children. *)
Lemma tree_wf_ext (h h' : heap) :
  length h' = length h ->
  (forall r, parent_of h' r = parent_of h r) ->
  (forall r, children_of h' r = children_of h r) ->
  tree_wf h -> tree_wf h'.
Proof.
  intros Hlen Hp Hc [Hcons Hclosed]. split.
  - intros p c. rewrite Hlen, Hc, Hp. apply Hcons.
  - intros r. rewrite Hlen. intros Hr.
    destruct (Hclosed r Hr) as [H1 H2]. split.
    + intros p. rewrite Hp. apply H1.
    + intros c. rewrite Hc. apply H2.
Qed.

(** A new object with no parent and no children joins the forest. *)
Lemma tree_wf_new (h : heap) (o : CodeObject) :
  _parent o = None -> _children o = [] -> tree_wf h -> tree_wf (h ++ [o]).
Proof.
  intros Hpo Hco [Hcons Hclosed].
  assert (Hp : forall r, parent_of (h ++ [o]) r = parent_of h r).
  { intros r. unfold parent_of.
    destruct (decide (r < length h)) as [Hr|Hr].
    - by rewrite lookup_app_l.
    - rewrite lookup_app_r by lia. rewrite (lookup_ge_None_2 h r) by lia.
      destruct (r - length h) as [|n]; simpl; [exact Hpo | reflexivity]. }
  assert (Hc : forall r, children_of (h ++ [o]) r = children_of h r).
  { intros r. unfold children_of.
    destruct (decide (r < length h)) as [Hr|Hr].
    - by rewrite lookup_app_l.
    - rewrite lookup_app_r by lia. rewrite (lookup_ge_None_2 h r) by lia.
      destruct (r - length h) as [|n]; simpl; [exact Hco | reflexivity]. }
  assert (Hnone_p : forall r, length h <= r -> parent_of h r = None).
  { intros r Hr. unfold parent_of. by rewrite (lookup_ge_None_2 h r). }
  assert (Hnone_c : forall r, length h <= r -> children_of h r = []).
  { intros r Hr. unfold children_of. by rewrite (lookup_ge_None_2 h r). }
  split.
  - intros p c. rewrite length_app, Hc, Hp. simpl. intros Hplt Hclt.
    destruct (decide (p < length h)) as [Hp'|Hp'].
    + destruct (decide (c < length h)) as [Hc'|Hc']; [by apply Hcons|].
      rewrite (Hnone_p c) by lia. rewrite decide_False by done.
      destruct (count c (children_of h p)) eqn:Hn; [reflexivity|].
      assert (Hin : c ∈ children_of h p)
        by (apply count_pos_elem_of; lia).
      apply (Hclosed p Hp') in Hin. lia.
    + rewrite (Hnone_c p) by lia.
      destruct (decide (parent_of h c = Some p)) as [Heq|]; [|reflexivity].
      destruct (decide (c < length h)) as [Hc'|Hc'].
      * apply (Hclosed c Hc') in Heq. lia.
      * rewrite (Hnone_p c) in Heq by lia. discriminate.
  - intros r. rewrite length_app, Hp, Hc. simpl. intros Hr.
    destruct (decide (r < length h)) as [Hr'|Hr'].
    + destruct (Hclosed r Hr') as [H1 H2]. split.
      * intros p Hpp. apply H1 in Hpp. lia.
      * intros c Hcc. apply H2 in Hcc. lia.
    + rewrite (Hnone_p r), (Hnone_c r) by lia. split; [discriminate|].
      by intros c ?%elem_of_nil.
Qed.

(** The constructor keeps the forest consistent. *)
Lemma CodeObject_init_wf `{Utilities} (h h' : heap)
    (def_dict : gmap string pyval) (api parent : option nat)
    (lm : option LanguageModel) (self : nat) :
  tree_wf h -> (forall p, parent = Some p -> p < length h) ->
  CodeObject_init h def_dict api parent lm = Ok (self, h') ->
  self = length h /\ length h' = S (length h) /\ tree_wf h' /\
  parent_of h' self = parent.
Proof.
  intros Hwf Hparent. unfold CodeObject_init.
  set (o := {| _def_dict := def_dict; _api := api; _children := [];
               _parent := None; _language_model := lm; _module := None;
               module_fields := None |}).
  intros Hrun. apply bind_Ok in Hrun as (h1 & Hset & Hrun).
  apply bind_Ok in Hrun as (h2 & Hdesc & Hrun). injection Hrun as <- <-.
  assert (Hwf0 : tree_wf (h ++ [o])) by by apply tree_wf_new.
  assert (Hok : call_ok (h ++ [o]) (length h, parent)).
  { split; simpl; rewrite length_app; simpl; [lia|].
    intros p Hp. apply Hparent in Hp. lia. }
  destruct (SetParent_moved _ _ _ Hwf0 Hok) as (h1' & Hset' & Hmoved).
  rewrite Hset in Hset'. injection Hset' as <-.
  pose proof (moved_wf _ _ _ _ Hwf0 Hok Hmoved) as Hwf1.
  destruct Hmoved as (Hlen1 & Hpar1 & _).
  rewrite length_app in Hlen1. simpl in Hlen1.
  assert (Hkeep : length h2 = length h1 /\
                  (forall r, parent_of h2 r = parent_of h1 r) /\
                  (forall r, children_of h2 r = children_of h1 r)).
  { destruct (get_truthy def_dict "description") as [d|].
    - apply bind_Ok in Hdesc as (d' & _ & Hdesc). injection Hdesc as <-.
      unfold SetTemplateValue. split; [apply length_alter|].
      split; intros r; [by apply parent_of_alter | by apply children_of_alter].
    - by injection Hdesc as <-. }
  destruct Hkeep as (Hlen2 & Hp2 & Hc2).
  split; [reflexivity|]. split; [lia|]. split.
  - by eapply tree_wf_ext.
  - rewrite Hp2, Hpar1. by rewrite decide_True.
Qed.

(** [full_path] lists the chain of parents from the root down to the object. *)
Lemma full_path_chain (depth : nat) (h : heap) (self : nat)
    (chain : list nat) :
  parent_chain h self chain -> length chain <= depth ->
  full_path depth h self = Ok (rev chain).
Proof.
  intros Hchain Hdepth.
  assert (Hanc : ancestors depth h self = Ok (rev (tail chain))).
  { revert depth Hdepth.
    induction Hchain as [r o Ho Hroot | r p o chain Ho Hp Hchain IH];
      intros depth Hdepth; simpl in Hdepth;
      (destruct depth as [|depth]; [lia|]);
      cbn [ancestors]; unfold deref; rewrite Ho; cbn [mbind result_bind].
    - by rewrite Hroot.
    - rewrite Hp, IH by lia. cbn [mbind result_bind tail].
      destruct Hchain; reflexivity. }
  unfold full_path. rewrite Hanc. cbn [mbind result_bind].
  destruct Hchain; reflexivity.
Qed.

(** ** Module resolution *)

(** [module] never returns None. *)
Lemma module_not_None (depth : nat) (h : heap) (self : handle) :
  module depth h self <> Ok None.
Proof.
  revert self. induction depth as [|depth IH]; intros self; [discriminate|].
  simpl. destruct (deref h self) as [o|e]; [|discriminate]. simpl.
  destruct (_module o); [discriminate|].
  destruct (_parent o); [apply IH | discriminate].
Qed.

(** C6.  When the chain of parents of an object ends at a root, within the
    depth Python allows, [module] returns the Module of the first object of
    that chain, from the object up, that has one assigned, and raises a
    [ValueError] when none has; it never returns None. *)
Theorem module_first_assigned
    (depth : nat) (h : heap) (self : handle) (chain : list handle) :
  parent_chain h self chain -> length chain <= depth ->
  match first_module h chain with
  | Some m => module depth h self = Ok (Some m)
  | None => exists msg, module depth h self = Raise (ValueError msg)
  end.
Proof.
  intros Hchain. revert depth.
  induction Hchain as [r o Ho Hroot | r p o chain Ho Hp Hchain IH];
    intros depth Hdepth; simpl in Hdepth.
  - destruct depth as [|depth]; [lia|].
    simpl. unfold deref. rewrite Ho. simpl.
    destruct (_module o) as [m|]; [reflexivity|].
    rewrite Hroot. eauto.
  - destruct depth as [|depth]; [lia|].
    simpl. unfold deref. rewrite Ho. simpl.
    destruct (_module o) as [m|]; [reflexivity|].
    rewrite Hp. apply IH. lia.
Qed.

Lemma module_first_assigned_witness :
  module 2
    [set_module (Some 2) bare_object; set_parent (Some 0) bare_object;
     bare_object] 1 = Ok (Some 2).
Proof.
  apply (module_first_assigned 2
           [set_module (Some 2) bare_object; set_parent (Some 0) bare_object;
            bare_object] 1 [1; 0]).
  - eapply chain_step; [reflexivity | reflexivity |].
    eapply chain_root; reflexivity.
  - simpl. lia.
Defined.

(** ** What [language_model] leaves untouched *)

Lemma set_language_model_id (o : CodeObject) :
  set_language_model (_language_model o) o = o.
Proof. by destruct o. Qed.

Lemma lm_frame_refl (h : heap) : lm_frame h h.
Proof.
  split; [reflexivity|]. intros r o Ho.
  exists (_language_model o). by rewrite set_language_model_id.
Qed.

Lemma lm_frame_trans (h h1 h2 : heap) :
  lm_frame h h1 -> lm_frame h1 h2 -> lm_frame h h2.
Proof.
  intros [Hl1 H1] [Hl2 H2]. split; [congruence|].
  intros r o Ho. destruct (H1 r o Ho) as [lm1 Ho1].
  destruct (H2 r _ Ho1) as [lm2 Ho2]. exists lm2. by rewrite Ho2.
Qed.

Lemma lm_frame_alter (h : heap) (r : nat) (lm : option LanguageModel) :
  lm_frame h (alter (set_language_model lm) r h).
Proof.
  split; [apply length_alter|]. intros r' o Ho.
  rewrite heap_lookup_alter, Ho.
  destruct (decide (r = r')); simpl; [by exists lm|].
  exists (_language_model o). by rewrite set_language_model_id.
Qed.

Lemma language_model_frame (depth : nat) (h h1 : heap) (self : nat)
    (lm : option LanguageModel) :
  language_model depth h self = Ok (lm, h1) -> lm_frame h h1.
Proof.
  revert h h1 self lm.
  induction depth as [|depth IH]; intros h h1 self lm; [discriminate|].
  simpl. destruct (deref h self) as [o|e]; [|discriminate]. simpl.
  destruct (_language_model o) as [lm0|].
  { intros [= <- <-]. apply lm_frame_refl. }
  destruct (_parent o) as [p|]; [|intros [= <- <-]; apply lm_frame_refl].
  destruct (language_model depth h p) as [[lm' h']|e] eqn:Hp; [|discriminate].
  simpl. intros [= <- <-].
  eapply lm_frame_trans; [by eapply IH | apply lm_frame_alter].
Qed.

Lemma lm_frame_deref (h h1 : heap) (r : nat) (o : CodeObject) :
  lm_frame h h1 -> deref h r = Ok o ->
  exists lm, h1 !! r = Some (set_language_model lm o) /\
             deref h1 r = Ok (set_language_model lm o).
Proof.
  intros [_ Hf]. unfold deref.
  destruct (h !! r) as [o'|] eqn:Ho; [|discriminate]. intros [= <-].
  destruct (Hf r o' Ho) as [lm Hlm]. exists lm. by rewrite Hlm.
Qed.

Lemma path_frame (depth : nat) (h h1 : heap) (self : nat) (p : string) :
  path depth h self = Ok (p, h1) -> lm_frame h h1.
Proof.
  revert h h1 self p.
  induction depth as [|depth IH]; intros h h1 self p; [discriminate|].
  simpl. destruct (deref h self) as [o|e]; [|discriminate]. simpl.
  destruct (module_attr o "path") as [f|e]; [|discriminate]. simpl.
  destruct (_parent o) as [q|].
  - destruct (path depth h q) as [[base h']|e] eqn:Hq; [|discriminate].
    simpl. destruct (join_path base (_path f)); [|discriminate].
    simpl. intros [= <- <-]. by eapply IH.
  - destruct (language_model depth h self) as [[lm h']|e] eqn:Hlm;
      [|discriminate].
    simpl. destruct lm as [lm|]; [|discriminate].
    destruct (DefaultContainerPathForOwner lm _ _); [|discriminate]. simpl.
    destruct (join_path _ (_path f)); [|discriminate].
    simpl. intros [= <- <-]. by eapply language_model_frame.
Qed.

(** ** The name and the path of a Module *)

(** Once [name] has returned a name that is not empty, the Module is frozen. *)
Lemma name_freezes (depth : nat) (h h1 : heap) (self : nat)
    (n : string) (new_path : pyval) :
  name depth h self = Ok (n, h1) -> str_truthy n = true ->
  SetPath h1 self new_path = Raise SetPath_error.
Proof.
  unfold name, SetPath.
  destruct (deref h self) as [o|e] eqn:Ho; [|discriminate]. simpl.
  destruct (module_attr o "_name") as [f|e] eqn:Hf; [|discriminate]. simpl.
  destruct (name_truthy (_name f)) eqn:Hcached.
  - intros [= <- <-] _. rewrite Ho. simpl. rewrite Hf. simpl.
    by rewrite Hcached.
  - destruct (path depth h self) as [[p h']|e] eqn:Hp; [|discriminate].
    simpl.
    destruct (language_model depth h' self) as [[lm h2]|e] eqn:Hlm;
      [|discriminate].
    simpl. destruct lm as [lm|]; [|discriminate].
    intros [= <- <-] Hn.
    assert (Hframe : lm_frame h h2).
    { eapply lm_frame_trans;
        [by eapply path_frame | by eapply language_model_frame]. }
    destruct (lm_frame_deref _ _ _ _ Hframe Ho) as (lm2 & Ho2 & _).
    unfold deref. rewrite heap_lookup_alter, decide_True, Ho2 by done.
    assert (Hmf : module_fields o = Some f).
    { unfold module_attr in Hf.
      destruct (module_fields o); [by injection Hf as -> | discriminate]. }
    simpl. unfold module_attr. simpl. rewrite Hmf. simpl. by rewrite Hn.
Qed.

(** A read of [name] that returns the empty name does not freeze the Module:
    the [SetPath] that follows succeeds. *)
Lemma name_empty_does_not_freeze (depth : nat) (h h1 : heap)
    (self : nat) (new_path : pyval) :
  name depth h self = Ok (EmptyString, h1) ->
  SetPath h1 self new_path = Ok (alter (set_path new_path) self h1).
Proof.
  unfold name, SetPath.
  destruct (deref h self) as [o|e] eqn:Ho; [|discriminate].
  cbn [mbind result_bind].
  destruct (module_attr o "_name") as [f|e] eqn:Hf; [|discriminate].
  cbn [mbind result_bind].
  assert (Hmf : module_fields o = Some f).
  { unfold module_attr in Hf.
    destruct (module_fields o); [by injection Hf as -> | discriminate]. }
  destruct (name_truthy (_name f)) eqn:Hcached.
  - intros [= Hn <-]. destruct (_name f) as [n|]; [|discriminate].
    simpl in Hn, Hcached. subst n. discriminate.
  - intros Hrun.
    apply bind_Ok in Hrun as ([p h'] & Hp & Hrun).
    apply bind_Ok in Hrun as ([lm h2] & Hlm & Hrun).
    destruct lm as [lm|]; [|discriminate].
    injection Hrun as Hn <-.
    assert (Hframe : lm_frame h h2).
    { eapply lm_frame_trans;
        [by eapply path_frame | by eapply language_model_frame]. }
    destruct (lm_frame_deref _ _ _ _ Hframe Ho) as (lm2 & Ho2 & _).
    unfold deref. rewrite heap_lookup_alter, decide_True, Ho2 by done.
    cbn [fmap option_fmap option_map mbind result_bind].
    unfold module_attr.
    cbn [set_name module_fields set_language_model set_module_fields].
    rewrite Hmf. cbn [fmap option_fmap option_map mbind result_bind _name].
    rewrite Hn. reflexivity.
Qed.

(** Before any read of [name], [SetPath] succeeds and leaves the Module as
    it was but for its path. *)
Lemma SetPath_before_name (h : heap) (self : nat) (o : CodeObject)
    (f : ModuleFields) (new_path : pyval) :
  h !! self = Some o -> module_fields o = Some f -> _name f = None ->
  SetPath h self new_path = Ok (alter (set_path new_path) self h) /\
  alter (set_path new_path) self h !! self =
    Some (set_module_fields
            (Some {| _path := new_path; _owner_name := _owner_name f;
                     _owner_domain := _owner_domain f; _name := None |}) o).
Proof.
  intros Ho Hf Hn. unfold SetPath, deref, module_attr.
  rewrite Ho. simpl. rewrite Hf. simpl. rewrite Hn. simpl.
  split; [reflexivity|].
  rewrite heap_lookup_alter, decide_True, Ho by done. simpl.
  unfold set_path. rewrite Hf. simpl. by rewrite Hn.
Qed.

Lemma language_model_own (depth : nat) (h : heap) (self : nat)
    (o : CodeObject) (lm : LanguageModel) :
  h !! self = Some o -> _language_model o = Some lm ->
  language_model (S depth) h self = Ok (Some lm, h).
Proof.
  intros Ho Hlm. cbn [language_model]. unfold deref. rewrite Ho. simpl.
  by rewrite Hlm.
Qed.

(** The path of a Module with no parent and a language model of its own. *)
Lemma path_root (depth : nat) (h : heap) (self : nat)
    (o : CodeObject) (f : ModuleFields) (lm : LanguageModel) :
  h !! self = Some o -> module_fields o = Some f ->
  _parent o = None -> _language_model o = Some lm ->
  path (S (S depth)) h self =
    (base ← DefaultContainerPathForOwner lm (_owner_name f) (_owner_domain f);
     p ← join_path base (_path f);
     Ok (p, h)).
Proof.
  intros Ho Hf Hroot Hlm. cbn [path]. unfold deref, module_attr.
  rewrite Ho. cbn [mbind result_bind]. rewrite Hf, Hroot.
  rewrite (language_model_own depth h self o lm Ho Hlm).
  cbn [mbind result_bind].
  by destruct (DefaultContainerPathForOwner lm _ _).
Qed.

(** The name computed after [SetPath] is made of the path that was set last:
    here for a Module with no parent and a language model of its own. *)
Lemma name_after_SetPath (depth : nat) (h : heap) (self : nat)
    (o : CodeObject) (f : ModuleFields) (lm : LanguageModel)
    (first last base full : string) :
  h !! self = Some o -> module_fields o = Some f -> _name f = None ->
  _parent o = None -> _language_model o = Some lm ->
  DefaultContainerPathForOwner lm (_owner_name f) (_owner_domain f) = Ok base ->
  join_path base (PStr last) = Ok full ->
  exists h1 h2 h3,
    SetPath h self (PStr first) = Ok h1 /\
    SetPath h1 self (PStr last) = Ok h2 /\
    name (S (S depth)) h2 self =
      Ok (replace_char "/" (module_name_delimiter lm) full, h3).
Proof.
  intros Ho Hf Hn Hroot Hlm Hbase Hfull.
  destruct (SetPath_before_name h self o f (PStr first) Ho Hf Hn)
    as [Hset1 Ho1].
  destruct (SetPath_before_name _ self _ _ (PStr last) Ho1 eq_refl eq_refl)
    as [Hset2 Ho2].
  cbn [_owner_name _owner_domain] in Ho2.
  eexists _, _, _. split; [exact Hset1|]. split; [exact Hset2|].
  unfold name, deref, module_attr. rewrite Ho2.
  cbn [mbind result_bind module_fields set_module_fields _name name_truthy].
  erewrite path_root; [|exact Ho2|reflexivity|exact Hroot|exact Hlm].
  cbn [_owner_name _owner_domain _path].
  rewrite Hbase. cbn [mbind result_bind]. rewrite Hfull.
  cbn [mbind result_bind].
  rewrite (language_model_own _ _ self _ lm Ho2 Hlm).
  reflexivity.
Qed.

(** C4, where the code departs from it.  A Module made from a library
    definition with no path and no domain has the empty name under the Java
    language model.  Reading that name does not freeze the Module: the
    [SetPath] that follows succeeds, and the name read next is another one. *)
Theorem SetPath_after_empty_name :
  empty_name_session = Ok (EmptyString, "model").
Proof. vm_compute. reflexivity. Qed.

(** ** The code name *)

Lemma dict_of_alter (f : CodeObject -> CodeObject) (i r : nat) (h : heap) :
  (forall o, _def_dict (f o) = _def_dict o) ->
  dict_of (alter f i h) r = dict_of h r.
Proof.
  intros Hf. unfold dict_of. rewrite heap_lookup_alter.
  destruct (decide (i = r)); [|reflexivity].
  destruct (h !! r); simpl; [by rewrite Hf | reflexivity].
Qed.

Lemma lm_frame_dict_of (h h1 : heap) (r : nat) :
  lm_frame h h1 -> dict_of h1 r = dict_of h r.
Proof.
  intros [Hlen Hf]. unfold dict_of.
  destruct (h !! r) as [o|] eqn:Ho.
  - destruct (Hf r o Ho) as [lm ->]. reflexivity.
  - apply lookup_ge_None in Ho. rewrite <- Hlen in Ho.
    apply lookup_ge_None in Ho. by rewrite Ho.
Qed.

Lemma SetParent_dict_of (h h' : heap) (self r : nat) (new : option nat) :
  SetParent h self new = Ok h' -> dict_of h' r = dict_of h r.
Proof.
  unfold SetParent.
  destruct (deref h self) as [o|e]; [|discriminate]. cbn [mbind result_bind].
  intros Hrun. apply bind_Ok in Hrun as (h1 & Hold & Hrun).
  assert (H1 : dict_of h1 r = dict_of h r).
  { destruct (_parent o) as [old|]; [|by injection Hold as ->].
    apply bind_Ok in Hold as (oo & _ & Hold).
    apply bind_Ok in Hold as (children & _ & Hold).
    injection Hold as <-. by apply dict_of_alter. }
  rewrite <- H1.
  destruct new as [p|].
  - apply bind_Ok in Hrun as (po & _ & Hrun). injection Hrun as <-.
    rewrite !dict_of_alter by done. reflexivity.
  - injection Hrun as <-. by apply dict_of_alter.
Qed.

Lemma run_call_dict_of (h h' : heap) (c : tree_call) (r : nat) :
  run_call h c = Ok h' -> dict_of h' r = dict_of h r.
Proof.
  destruct c as [self lm | self parent]; simpl.
  - unfold SetLanguageModel. intros Hrun.
    apply bind_Ok in Hrun as (o & _ & Hrun). injection Hrun as <-.
    by apply dict_of_alter.
  - apply SetParent_dict_of.
Qed.

Lemma run_calls_dict_of (h h' : heap) (calls : list tree_call) (r : nat) :
  run_calls h calls = Ok h' -> dict_of h' r = dict_of h r.
Proof.
  revert h. induction calls as [|c calls IH]; intros h; simpl.
  - by intros [= <-].
  - intros Hrun. apply bind_Ok in Hrun as (h1 & Hc & Hrun).
    rewrite (IH _ Hrun). by eapply run_call_dict_of.
Qed.

Lemma codeName_of_cached (depth : nat) (h : heap) (self : nat) (v : pyval) :
  cached h self v -> codeName depth h self = Ok (v, h).
Proof.
  intros (d & Hd & Hv). unfold dict_of in Hd. unfold codeName, deref.
  destruct (h !! self) as [o|]; [|discriminate].
  injection Hd as <-. cbn [mbind result_bind]. by rewrite Hv.
Qed.

(** A language model found by [language_model] is found again, and at once. *)
Lemma language_model_memo (depth : nat) (h h1 : heap) (self : nat)
    (lm : LanguageModel) :
  language_model depth h self = Ok (Some lm, h1) ->
  language_model depth h1 self = Ok (Some lm, h1).
Proof.
  destruct depth as [|depth]; [discriminate|].
  cbn [language_model].
  destruct (deref h self) as [o|e] eqn:Ho; [|discriminate].
  cbn [mbind result_bind].
  destruct (_language_model o) as [lm0|] eqn:Hown.
  { intros [= <- <-]. rewrite Ho. cbn [mbind result_bind]. by rewrite Hown. }
  destruct (_parent o) as [p|]; [|discriminate].
  destruct (language_model depth h p) as [[lm' h']|e] eqn:Hp; [|discriminate].
  cbn [mbind result_bind]. intros [= -> <-].
  destruct (lm_frame_deref _ _ _ _ (language_model_frame _ _ _ _ _ Hp) Ho)
    as (lm2 & Ho2 & _).
  unfold deref. rewrite heap_lookup_alter, decide_True, Ho2 by done.
  reflexivity.
Qed.

(** The first read, for an object with no [codeName] yet: the wire name goes
    through [ToMemberName] of the language model found, or stays as it is
    when none is found, and the result is stored. *)
Lemma codeName_first_read (depth : nat) (h h1 : heap) (self : nat)
    (o : CodeObject) (wire_name : pyval) (lm : option LanguageModel) :
  h !! self = Some o ->
  get_truthy (_def_dict o) "codeName" = None ->
  _def_dict o !! "wireName" = Some wire_name ->
  language_model depth h self = Ok (lm, h1) ->
  codeName depth h self =
    match lm with
    | Some lm =>
        code_name ← ToMemberName lm wire_name
                      (a ← _api o; _def_dict <$> h1 !! a);
        Ok (code_name, SetTemplateValue h1 self "codeName" code_name)
    | None => Ok (wire_name, SetTemplateValue h1 self "codeName" wire_name)
    end.
Proof.
  intros Ho Hnone Hwire Hlm. unfold codeName, deref. rewrite Ho.
  cbn [mbind result_bind]. rewrite Hnone, Hwire, Hlm.
  cbn [mbind result_bind].
  destruct lm as [lm|]; [|reflexivity].
  rewrite (language_model_memo _ _ _ _ _ Hlm). cbn [mbind result_bind].
  by destruct (ToMemberName lm wire_name _).
Qed.

(** A read that returns a value Python takes for true leaves it stored. *)
Lemma codeName_caches (depth : nat) (h h1 : heap) (self : nat) (v : pyval) :
  codeName depth h self = Ok (v, h1) -> truthy v = true -> cached h1 self v.
Proof.
  unfold codeName.
  destruct (deref h self) as [o|e] eqn:Ho; [|discriminate].
  cbn [mbind result_bind].
  destruct (get_truthy (_def_dict o) "codeName") as [c|] eqn:Hc.
  { intros [= <- <-] _. exists (_def_dict o). split; [|exact Hc].
    unfold deref, dict_of in *. destruct (h !! self); [|discriminate].
    by injection Ho as ->. }
  destruct (_def_dict o !! "wireName") as [w|]; [|discriminate].
  intros Hrun Hv.
  apply bind_Ok in Hrun as ([lm hl] & Hlm & Hrun).
  apply bind_Ok in Hrun as ([code_name hc] & Hname & Hrun).
  injection Hrun as <- <-. cbn [fst snd].
  assert (Hframe : lm_frame h hc).
  { destruct lm as [lm|].
    - apply bind_Ok in Hname as ([lm2 h2] & Hlm2 & Hname).
      destruct lm2 as [lm2|]; [|discriminate].
      apply bind_Ok in Hname as (c & _ & Hname). injection Hname as _ <-.
      eapply lm_frame_trans; by eapply language_model_frame.
    - injection Hname as _ <-. by eapply language_model_frame. }
  destruct (lm_frame_deref _ _ _ _ Hframe Ho) as (lm' & Ho' & _).
  eexists. unfold dict_of, SetTemplateValue.
  rewrite heap_lookup_alter, decide_True, Ho' by done.
  split; [reflexivity|]. cbn [fmap option_fmap option_map _def_dict set_def_dict].
  unfold get_truthy. by rewrite lookup_insert_eq, Hv.
Qed.

(** A read of [codeName] that returns a value Python takes for false leaves
    the object without a cached name: the next read computes it again. *)
Lemma codeName_falsy_not_cached (depth : nat) (h h1 : heap)
    (self : nat) (v : pyval) :
  codeName depth h self = Ok (v, h1) -> truthy v = false ->
  exists d, dict_of h1 self = Some d /\ get_truthy d "codeName" = None.
Proof.
  unfold codeName.
  destruct (deref h self) as [o|e] eqn:Ho; [|discriminate].
  cbn [mbind result_bind].
  destruct (get_truthy (_def_dict o) "codeName") as [c|] eqn:Hc.
  { intros [= <- <-] Hv. unfold get_truthy in Hc.
    destruct (_def_dict o !! "codeName") as [c'|]; [|discriminate].
    destruct (truthy c') eqn:Hc'; [|discriminate].
    injection Hc as <-. congruence. }
  destruct (_def_dict o !! "wireName") as [w|]; [|discriminate].
  intros Hrun Hv.
  apply bind_Ok in Hrun as ([lm hl] & Hlm & Hrun).
  apply bind_Ok in Hrun as ([code_name hc] & Hname & Hrun).
  injection Hrun as <- <-. cbn [fst snd].
  assert (Hframe : lm_frame h hc).
  { destruct lm as [lm|].
    - apply bind_Ok in Hname as ([lm2 h2] & Hlm2 & Hname).
      destruct lm2 as [lm2|]; [|discriminate].
      apply bind_Ok in Hname as (c & _ & Hname). injection Hname as _ <-.
      eapply lm_frame_trans; by eapply language_model_frame.
    - injection Hname as _ <-. by eapply language_model_frame. }
  destruct (lm_frame_deref _ _ _ _ Hframe Ho) as (lm' & Ho' & _).
  eexists. unfold dict_of, SetTemplateValue.
  rewrite heap_lookup_alter, decide_True, Ho' by done.
  split; [reflexivity|]. cbn [fmap option_fmap option_map _def_dict set_def_dict].
  unfold get_truthy. by rewrite lookup_insert_eq, Hv.
Qed.

(** A name that is not empty is cached: after a read that returned it, every
    read returns it again, whatever [SetLanguageModel] and [SetParent] calls
    come in between. *)
Lemma codeName_is_stable (depth depth' : nat) (h h1 h2 : heap)
    (self : nat) (v : pyval) (calls : list tree_call) :
  codeName depth h self = Ok (v, h1) -> truthy v = true ->
  run_calls h1 calls = Ok h2 ->
  codeName depth' h2 self = Ok (v, h2).
Proof.
  intros Hread Hv Hcalls. apply codeName_of_cached.
  destruct (codeName_caches _ _ _ _ _ Hread Hv) as (d & Hd & Hget).
  exists d. split; [|exact Hget].
  by rewrite (run_calls_dict_of _ _ _ _ Hcalls).
Qed.

(** C5, where the code departs from it.  An object with an empty wire name
    and no language model: the first read of [codeName] returns the empty
    name, which Python takes for false, so it does not count as cached.  Once
    a language model is set, the next read computes the name again, and here
    raises [IndexError] instead of returning the first value. *)
Theorem codeName_empty_not_cached :
  empty_codeName_session = (Ok (PStr EmptyString), Raise IndexError).
Proof. vm_compute. reflexivity. Qed.

(** ** Qualified class names *)

(** C10, as the code has it.  An error of [module], such as the one for a
    missing Module, is the error of [fullClassName].  When [module] returns,
    it returns a Module and not None, so the branch for an unqualified name
    is never taken: with a language model in reach the result is the name of
    the Module, the class-name delimiter and the relative class name, and
    with none in reach it is an [AttributeError].  Whatever [fullClassName]
    returns is qualified. *)
Theorem fullClassName_qualified (depth : nat) (h : heap) (self : nat) :
  (forall e, module depth h self = Raise e ->
             fullClassName depth h self = Raise e) /\
  (forall m, module depth h self = Ok m ->
     exists m', m = Some m' /\
       fullClassName depth h self =
         match language_model depth h self with
         | Ok (Some lm, h1) => qualified_name depth h1 self m' lm
         | Ok (None, _) => Raise (AttributeError "class_name_delimiter")
         | Raise e => Raise e
         end) /\
  (forall s h', fullClassName depth h self = Ok (s, h') ->
     exists m lm h1 module_name h2 relative,
       module depth h self = Ok (Some m) /\
       language_model depth h self = Ok (Some lm, h1) /\
       name depth h1 m = Ok (module_name, h2) /\
       RelativeClassName depth h2 self None = Ok (relative, h') /\
       s = module_name +:+ class_name_delimiter lm +:+ relative).
Proof.
  assert (Hsome : forall m, module depth h self = Ok m ->
     exists m', m = Some m' /\
       fullClassName depth h self =
         match language_model depth h self with
         | Ok (Some lm, h1) => qualified_name depth h1 self m' lm
         | Ok (None, _) => Raise (AttributeError "class_name_delimiter")
         | Raise e => Raise e
         end).
  { intros m Hm. destruct m as [m'|]; [|by apply module_not_None in Hm].
    exists m'. split; [reflexivity|].
    unfold fullClassName. rewrite Hm. cbn [mbind result_bind].
    destruct (language_model depth h self) as [[[lm|] h1]|e]; reflexivity. }
  split; [|split; [exact Hsome|]].
  - intros e He. unfold fullClassName. by rewrite He.
  - intros s h' Hfull.
    destruct (module depth h self) as [m|e] eqn:Hm;
      [|by unfold fullClassName in Hfull; rewrite Hm in Hfull].
    destruct (Hsome m eq_refl) as (m' & -> & Heq).
    rewrite Heq in Hfull.
    destruct (language_model depth h self) as [[[lm|] h1]|e];
      [|discriminate..].
    unfold qualified_name in Hfull.
    apply bind_Ok in Hfull as ([module_name h2] & Hname & Hfull).
    apply bind_Ok in Hfull as ([relative h3] & Hrel & Hfull).
    injection Hfull as <- <-.
    by exists m', lm, h1, module_name, h2, relative.
Qed.

Lemma fullClassName_qualified_witness :
  fst <$> fullClassName 10 books_heap 0 =
  Ok "com.google.api.services.books.Volume".
Proof.
  destruct (fullClassName_qualified 10 books_heap 0) as (_ & Hsome & _).
  destruct (Hsome (Some 1) eq_refl) as (m & Hm & ->).
  injection Hm as <-. reflexivity.
Defined.

(** C10 as the spec words it fails.  The object has a Module, so the error
    for a missing Module is not raised, and yet no name is returned: with no
    language model in reach, [fullClassName] raises an [AttributeError]. *)
Lemma fullClassName_without_language_model :
  module 10 no_language_model_heap 0 = Ok (Some 1) /\
  fullClassName 10 no_language_model_heap 0 =
    Raise (AttributeError "class_name_delimiter").
Proof. split; reflexivity. Qed.

(** * More properties of the code *)

(** ** The constructor *)

Lemma lookup_app_old (h : heap) (o : CodeObject) (r : handle) :
  r < length h -> (h ++ [o]) !! r = h !! r.
Proof. intros Hr. by rewrite lookup_app_l. Qed.

Lemma lookup_app_new (h : heap) (o : CodeObject) :
  (h ++ [o]) !! length h = Some o.
Proof. rewrite lookup_app_r by lia. by rewrite Nat.sub_diag. Qed.

(** X2.  [CodeObject(def_dict, api, parent, language_model)] on a consistent
    forest: the new object is the last of the heap, has the parent it was
    given and no children, and is put at the end of the children of that
    parent; the objects there already keep their parent, their template
    values and, the parent apart, their children; the forest stays
    consistent.  With no description to sanitize the constructor returns. *)
Theorem CodeObject_init_appends `{Utilities} (h : heap)
    (def_dict : gmap string pyval) (api parent : option handle)
    (lm : option LanguageModel) :
  tree_wf h -> (forall p, parent = Some p -> p < length h) ->
  (get_truthy def_dict "description" = None ->
   exists h', CodeObject_init h def_dict api parent lm = Ok (length h, h')) /\
  (forall self h',
     CodeObject_init h def_dict api parent lm = Ok (self, h') ->
     self = length h /\ length h' = S (length h) /\ tree_wf h' /\
     parent_of h' self = parent /\ children_of h' self = [] /\
     (forall r, r < length h ->
        parent_of h' r = parent_of h r /\
        dict_of h' r = dict_of h r /\
        children_of h' r =
          children_of h r ++ (if decide (parent = Some r) then [self] else []))).
Proof.
  intros Hwf Hparent. unfold CodeObject_init.
  set (o := {| _def_dict := def_dict; _api := api; _children := [];
               _parent := None; _language_model := lm; _module := None;
               module_fields := None |}).
  assert (Hwf0 : tree_wf (h ++ [o])) by by apply tree_wf_new.
  assert (Hok : call_ok (h ++ [o]) (length h, parent)).
  { split; simpl; rewrite length_app; simpl; [lia|].
    intros p Hp. apply Hparent in Hp. lia. }
  destruct (SetParent_moved _ _ _ Hwf0 Hok) as (h1 & Hset & Hmoved).
  rewrite Hset. cbn [mbind result_bind]. split.
  { intros ->. eexists. reflexivity. }
  intros self h' Hrun.
  apply bind_Ok in Hrun as (h2 & Hdesc & Hrun). injection Hrun as <- <-.
  pose proof (moved_wf _ _ _ _ Hwf0 Hok Hmoved) as Hwf1.
  destruct Hmoved as (Hlen1 & Hpar1 & Hch1).
  rewrite length_app in Hlen1. simpl in Hlen1.
  assert (Hkeep : length h2 = length h1 /\
                  (forall r, parent_of h2 r = parent_of h1 r) /\
                  (forall r, children_of h2 r = children_of h1 r) /\
                  (forall r, r <> length h -> dict_of h2 r = dict_of h1 r)).
  { destruct (get_truthy def_dict "description") as [d|].
    - apply bind_Ok in Hdesc as (d' & _ & Hdesc). injection Hdesc as <-.
      unfold SetTemplateValue. split; [apply length_alter|].
      split; [intros r; by apply parent_of_alter|].
      split; [intros r; by apply children_of_alter|].
      intros r Hr. unfold dict_of. by rewrite heap_lookup_alter, decide_False.
    - by injection Hdesc as <-. }
  destruct Hkeep as (Hlen2 & Hp2 & Hc2 & Hd2).
  assert (Hnew : parent_of (h ++ [o]) (length h) = None)
    by (unfold parent_of; by rewrite lookup_app_new).
  assert (Hnewc : children_of (h ++ [o]) (length h) = [])
    by (unfold children_of; by rewrite lookup_app_new).
  assert (Hd1 : forall r, dict_of h1 r = dict_of (h ++ [o]) r)
    by (intros r; by eapply SetParent_dict_of).
  split; [reflexivity|]. split; [lia|].
  split; [by eapply tree_wf_ext|].
  split; [rewrite Hp2, Hpar1; by rewrite decide_True|].
  split.
  { rewrite Hc2, Hch1, Hnew, Hnewc. rewrite decide_False by done.
    destruct (decide (parent = Some (length h))) as [->|]; [|reflexivity].
    specialize (Hparent _ eq_refl). lia. }
  intros r Hr. split; [|split].
  - rewrite Hp2, Hpar1, decide_False by lia.
    unfold parent_of. by rewrite lookup_app_old.
  - rewrite Hd2, Hd1 by lia. unfold dict_of. by rewrite lookup_app_old.
  - rewrite Hc2, Hch1, Hnew. rewrite decide_False by done.
    unfold children_of at 1. by rewrite lookup_app_old.
Qed.

Lemma CodeObject_init_appends_witness :
  exists h',
    CodeObject_init (H := title_utilities) [bare_object]
      {[ "wireName" := PStr "volume" ]} None (Some 0) None = Ok (1, h') /\
    children_of h' 0 = [1] /\ parent_of h' 1 = Some 0.
Proof.
  destruct (CodeObject_init_appends (H := title_utilities) [bare_object]
              {[ "wireName" := PStr "volume" ]} None (Some 0) None)
    as [Hret Hspec].
  - apply roots_wf. repeat constructor.
  - intros p [= <-]. simpl. lia.
  - destruct (Hret eq_refl) as [h' Hrun]. exists h'.
    destruct (Hspec _ _ Hrun) as (_ & _ & _ & Hp & _ & Hold).
    destruct (Hold 0) as (_ & _ & Hc); [simpl; lia|].
    repeat split; assumption.
Defined.

(** ** More on [SetParent] *)

Lemma set_tree_fields_id (o : CodeObject) :
  set_children (_children o) (set_parent (_parent o) o) = o.
Proof. by destruct o. Qed.

(** [SetParent] writes parents and children, and nothing else. *)
Lemma SetParent_frame (h h' : heap) (self : handle) (new : option handle)
    (r : handle) (o : CodeObject) :
  SetParent h self new = Ok h' -> h !! r = Some o ->
  exists c p, h' !! r = Some (set_children c (set_parent p o)).
Proof.
  unfold SetParent.
  destruct (deref h self) as [so|e]; [|discriminate]. cbn [mbind result_bind].
  intros Hrun Ho. apply bind_Ok in Hrun as (h1 & Hold & Hrun).
  assert (H1 : exists c, h1 !! r = Some (set_children c o)).
  { destruct (_parent so) as [old|].
    - apply bind_Ok in Hold as (oo & _ & Hold).
      apply bind_Ok in Hold as (children & _ & Hold). injection Hold as <-.
      rewrite heap_lookup_alter, Ho.
      destruct (decide (old = r)); [by eexists|].
      exists (_children o). by destruct o.
    - injection Hold as <-. exists (_children o). rewrite Ho. by destruct o. }
  destruct H1 as [c1 H1].
  assert (H2 : exists p, alter (set_parent new) self h1 !! r =
                         Some (set_parent p (set_children c1 o))).
  { rewrite heap_lookup_alter, H1.
    destruct (decide (self = r)); [by eexists|].
    exists (_parent o). by destruct o. }
  destruct H2 as [p2 H2].
  destruct new as [p|].
  - apply bind_Ok in Hrun as (po & _ & Hrun). injection Hrun as <-.
    rewrite heap_lookup_alter, H2.
    destruct (decide (p = r)); simpl; [by eexists _, _|].
    by exists c1, p2.
  - injection Hrun as <-. rewrite H2. by exists c1, p2.
Qed.

Lemma without_first_last (x : handle) (l : list handle) :
  x ∉ l -> without_first x (l ++ [x]) = l.
Proof.
  induction l as [|y l IH]; intros Hx; simpl.
  - by rewrite decide_True.
  - apply not_elem_of_cons in Hx as [Hne Hx].
    rewrite decide_False by done. by rewrite IH.
Qed.

Lemma without_first_absent (x : handle) (l : list handle) :
  x ∉ l -> without_first x l = l.
Proof.
  induction l as [|y l IH]; intros Hx; simpl; [reflexivity|].
  apply not_elem_of_cons in Hx as [Hne Hx].
  rewrite decide_False by done. by rewrite IH.
Qed.

(** X3.  [SetParent] is idempotent: giving an object the parent it was just
    given leaves the whole heap as it is. *)
Theorem SetParent_idempotent (h : heap) (self : handle) (new : option handle) :
  tree_wf h -> call_ok h (self, new) ->
  exists h1, SetParent h self new = Ok h1 /\ SetParent h1 self new = Ok h1.
Proof.
  intros Hwf Hok.
  destruct (SetParent_moved h self new Hwf Hok) as (h1 & Hrun1 & Hm1).
  pose proof (moved_wf _ _ _ _ Hwf Hok Hm1) as Hwf1.
  assert (Hok1 : call_ok h1 (self, new))
    by (eapply call_ok_length; [apply Hm1 | exact Hok]).
  destruct (SetParent_moved h1 self new Hwf1 Hok1) as (h2 & Hrun2 & Hm2).
  exists h1. split; [exact Hrun1|]. rewrite Hrun2. f_equal.
  destruct Hm1 as (Hlen1 & Hpar1 & Hch1).
  destruct Hm2 as (Hlen2 & Hpar2 & Hch2).
  assert (Hself : parent_of h1 self = new)
    by (rewrite Hpar1; by rewrite decide_True).
  assert (Hp : forall r, parent_of h2 r = parent_of h1 r).
  { intros r. rewrite Hpar2.
    destruct (decide (r = self)) as [->|]; [by rewrite Hself | reflexivity]. }
  assert (Hc : forall r, r < length h1 -> children_of h2 r = children_of h1 r).
  { intros r Hr. rewrite Hch2, Hself.
    destruct (decide (new = Some r)) as [Hn|Hn]; [|by rewrite app_nil_r].
    assert (Hlast : exists l, children_of h1 r = l ++ [self] /\ self ∉ l).
    { rewrite Hch1, (decide_True (P := new = Some r)) by done.
      eexists. split; [reflexivity|].
      intros Hin. apply count_pos_elem_of in Hin.
      destruct Hwf1 as [Hcons1 _]. destruct Hok1 as [Hs1 _]. simpl in Hs1.
      pose proof (Hcons1 r self Hr Hs1) as Hcount.
      rewrite Hch1, (decide_True (P := new = Some r)), count_app in Hcount
        by done.
      rewrite count_cons, (decide_True (P := self = self)) in Hcount by done.
      rewrite Hself, (decide_True (P := new = Some r)) in Hcount by done.
      simpl in Hcount. lia. }
    destruct Hlast as (l & -> & Hl). by rewrite without_first_last. }
  apply list_eq. intros r.
  destruct (h1 !! r) as [o1|] eqn:Ho1.
  - destruct (SetParent_frame _ _ _ _ r o1 Hrun2 Ho1) as (c & p & Ho2).
    rewrite Ho2. f_equal.
    assert (Hr : r < length h1) by (eapply lookup_lt_Some; exact Ho1).
    specialize (Hp r). specialize (Hc r Hr).
    unfold parent_of in Hp. unfold children_of in Hc.
    rewrite Ho1, Ho2 in Hp, Hc. simpl in Hp, Hc.
    rewrite Hp, Hc. apply set_tree_fields_id.
  - apply lookup_ge_None in Ho1. apply lookup_ge_None. lia.
Qed.

Lemma SetParent_idempotent_witness :
  exists h1,
    SetParent [bare_object; bare_object] 1 (Some 0) = Ok h1 /\
    SetParent h1 1 (Some 0) = Ok h1.
Proof.
  apply (SetParent_idempotent [bare_object; bare_object] 1 (Some 0)).
  - apply roots_wf. repeat constructor.
  - split; simpl; [lia | intros p [= <-]; lia].
Defined.

Lemma list_remove_first_absent (x : handle) (l : list handle) :
  x ∉ l ->
  list_remove_first x l = Raise (ValueError "list.remove(x): x not in list").
Proof.
  induction l as [|y l IH]; intros Hx; simpl; [reflexivity|].
  apply not_elem_of_cons in Hx as [Hne Hx].
  rewrite decide_False by done. by rewrite IH.
Qed.

(** X4.  When the objects named exist, [SetParent] fails in one case only:
    the object has a parent whose list of children does not hold it (the
    list was changed from outside); the error is then the [ValueError] of
    [list.remove].  In every other case it returns. *)
Theorem SetParent_fails_iff (h : heap) (self : handle) (new : option handle)
    (o : CodeObject) :
  h !! self = Some o ->
  (forall p, _parent o = Some p -> p < length h) ->
  (forall p, new = Some p -> p < length h) ->
  match _parent o with
  | Some old =>
      if decide (self ∈ children_of h old)
      then exists h', SetParent h self new = Ok h'
      else SetParent h self new =
             Raise (ValueError "list.remove(x): x not in list")
  | None => exists h', SetParent h self new = Ok h'
  end.
Proof.
  intros Ho Hold Hnew. unfold SetParent, deref. rewrite Ho.
  cbn [mbind result_bind].
  assert (Hlast : forall h1, length h1 = length h ->
    exists h',
      match new with
      | Some p =>
          _ ← deref (alter (set_parent new) self h1) p;
          Ok (alter (fun po => set_children (_children po ++ [self]) po) p
                (alter (set_parent new) self h1))
      | None => Ok (alter (set_parent new) self h1)
      end = Ok h').
  { intros h1 Hlen. destruct new as [p|]; [|by eexists].
    assert (Hp : p < length (alter (set_parent (Some p)) self h1))
      by (rewrite length_alter, Hlen; by apply Hnew).
    destruct (deref_lt _ _ Hp) as (po & _ & ->). by eexists. }
  destruct (_parent o) as [old|]; [|by apply Hlast].
  destruct (deref_lt h old (Hold old eq_refl)) as (oo & Hoo & Hd).
  unfold deref in Hd |- *. rewrite Hoo. cbn [mbind result_bind].
  assert (Hch : children_of h old = _children oo)
    by (unfold children_of; by rewrite Hoo).
  rewrite Hch.
  destruct (decide (self ∈ _children oo)) as [Hin|Hin].
  - rewrite (list_remove_first_elem_of _ _ Hin). cbn [mbind result_bind].
    apply Hlast. apply length_alter.
  - by rewrite (list_remove_first_absent _ _ Hin).
Qed.

Lemma SetParent_fails_iff_witness :
  SetParent [bare_object; set_parent (Some 0) bare_object] 1 None =
  Raise (ValueError "list.remove(x): x not in list").
Proof.
  apply (SetParent_fails_iff [bare_object; set_parent (Some 0) bare_object]
           1 None (set_parent (Some 0) bare_object) eq_refl).
  - intros p [= <-]. simpl. lia.
  - discriminate.
Defined.

(** ** More on [language_model] *)

Lemma lm_frame_tree (h h1 : heap) (r : handle) :
  lm_frame h h1 ->
  parent_of h1 r = parent_of h r /\ children_of h1 r = children_of h r /\
  dict_of h1 r = dict_of h r.
Proof.
  intros Hf. split; [|split]; [| |by apply lm_frame_dict_of].
  - destruct Hf as [Hlen Hf]. unfold parent_of.
    destruct (h !! r) as [o|] eqn:Ho.
    + destruct (Hf r o Ho) as [lm ->]. reflexivity.
    + apply lookup_ge_None in Ho. rewrite <- Hlen in Ho.
      apply lookup_ge_None in Ho. by rewrite Ho.
  - destruct Hf as [Hlen Hf]. unfold children_of.
    destruct (h !! r) as [o|] eqn:Ho.
    + destruct (Hf r o Ho) as [lm ->]. reflexivity.
    + apply lookup_ge_None in Ho. rewrite <- Hlen in Ho.
      apply lookup_ge_None in Ho. by rewrite Ho.
Qed.

(** X5.  When the chain of parents of an object ends at a root, within the
    depth Python allows, [language_model] returns the language model of the
    first object of the chain, from the object up, that has one, and None,
    without an error, when none has.  On the way it stores the result in the
    object, and changes no parent, no list of children and no template
    value. *)
Theorem language_model_nearest
    (depth : nat) (h : heap) (self : handle) (chain : list handle) :
  parent_chain h self chain -> length chain <= depth ->
  exists h1,
    language_model depth h self = Ok (first_language_model h chain, h1) /\
    h1 !! self ≫= _language_model = first_language_model h chain /\
    forall r, parent_of h1 r = parent_of h r /\
              children_of h1 r = children_of h r /\
              dict_of h1 r = dict_of h r.
Proof.
  intros Hchain. revert depth.
  induction Hchain as [r o Ho Hroot | r p o chain Ho Hp Hchain IH];
    intros depth Hdepth; simpl in Hdepth;
    (destruct depth as [|depth]; [lia|]);
    cbn [language_model first_language_model]; unfold deref;
    rewrite Ho; cbn [mbind result_bind option_bind].
  - destruct (_language_model o) as [lm|] eqn:Hlm.
    + exists h. rewrite Ho. cbn. rewrite Hlm. by repeat split.
    + rewrite Hroot. exists h. rewrite Ho. cbn. rewrite Hlm. by repeat split.
  - destruct (_language_model o) as [lm|] eqn:Hlm.
    + exists h. rewrite Ho. cbn. rewrite Hlm. by repeat split.
    + rewrite Hp. destruct (IH depth) as (h1 & Hrun & _ & _); [lia|].
      rewrite Hrun. cbn [mbind result_bind].
      pose proof (language_model_frame _ _ _ _ _ Hrun) as Hf.
      eexists. split; [reflexivity|]. split.
      * destruct Hf as [_ Hf]. destruct (Hf r o Ho) as [lm' Ho'].
        rewrite heap_lookup_alter, decide_True, Ho' by done. reflexivity.
      * intros q. apply lm_frame_tree.
        eapply lm_frame_trans; [exact Hf | apply lm_frame_alter].
Qed.

Lemma language_model_nearest_witness :
  exists h1,
    language_model 2
      [set_language_model (Some (JavaLanguageModel_new (H := title_utilities) "."))
         bare_object;
       set_parent (Some 0) bare_object] 1 =
    Ok (Some (JavaLanguageModel_new (H := title_utilities) "."), h1) /\
    h1 !! 1 ≫= _language_model =
      Some (JavaLanguageModel_new (H := title_utilities) ".").
Proof.
  destruct (language_model_nearest 2
    [set_language_model (Some (JavaLanguageModel_new (H := title_utilities) "."))
       bare_object;
     set_parent (Some 0) bare_object] 1 [1; 0]) as (h1 & Hrun & Hmemo & _).
  - eapply chain_step; [reflexivity | reflexivity |].
    eapply chain_root; reflexivity.
  - simpl. lia.
  - exists h1. split; [exact Hrun | exact Hmemo].
Defined.

Lemma SetParent_length (h h' : heap) (self : handle) (new : option handle) :
  SetParent h self new = Ok h' -> length h' = length h.
Proof.
  unfold SetParent.
  destruct (deref h self) as [o|e]; [|discriminate]. cbn [mbind result_bind].
  intros Hrun. apply bind_Ok in Hrun as (h1 & Hold & Hrun).
  assert (H1 : length h1 = length h).
  { destruct (_parent o) as [old|]; [|by injection Hold as ->].
    apply bind_Ok in Hold as (oo & _ & Hold).
    apply bind_Ok in Hold as (children & _ & Hold).
    injection Hold as <-. apply length_alter. }
  destruct new as [p|].
  - apply bind_Ok in Hrun as (po & _ & Hrun). injection Hrun as <-.
    by rewrite !length_alter.
  - injection Hrun as <-. by rewrite length_alter.
Qed.

Lemma SetParent_keeps_model (h h' : heap) (self r : handle)
    (new : option handle) :
  SetParent h self new = Ok h' ->
  h' !! r ≫= _language_model = h !! r ≫= _language_model.
Proof.
  intros Hrun. destruct (h !! r) as [o|] eqn:Ho.
  - destruct (SetParent_frame _ _ _ _ r o Hrun Ho) as (c & p & ->).
    reflexivity.
  - apply lookup_ge_None in Ho. rewrite <- (SetParent_length _ _ _ _ Hrun) in Ho.
    apply lookup_ge_None in Ho. by rewrite Ho.
Qed.

Lemma language_model_stored (depth : nat) (h h1 : heap) (self : handle)
    (lm : LanguageModel) :
  language_model depth h self = Ok (Some lm, h1) ->
  h1 !! self ≫= _language_model = Some lm.
Proof.
  intros Hrun. pose proof (language_model_memo _ _ _ _ _ Hrun) as Hagain.
  destruct depth as [|depth]; [discriminate|].
  cbn [language_model] in Hrun.
  destruct (deref h self) as [o|e] eqn:Ho; [|discriminate].
  cbn [mbind result_bind] in Hrun.
  destruct (_language_model o) as [lm0|] eqn:Hown.
  { injection Hrun as <- <-. unfold deref in Ho.
    destruct (h !! self); [|discriminate]. injection Ho as ->.
    cbn. exact Hown. }
  destruct (_parent o) as [p|]; [|discriminate].
  destruct (language_model depth h p) as [[lm' h']|e] eqn:Hp; [|discriminate].
  cbn [mbind result_bind] in Hrun. injection Hrun as -> <-.
  destruct (lm_frame_deref _ _ _ _ (language_model_frame _ _ _ _ _ Hp) Ho)
    as (lm2 & Ho2 & _).
  rewrite heap_lookup_alter, decide_True, Ho2 by done. reflexivity.
Qed.

Lemma SetLanguageModel_keeps_model (h h' : heap) (self r : handle)
    (lm : option LanguageModel) :
  SetLanguageModel h r lm = Ok h' -> r <> self ->
  h' !! self ≫= _language_model = h !! self ≫= _language_model.
Proof.
  unfold SetLanguageModel. intros Hcall Hr.
  apply bind_Ok in Hcall as (o & _ & Hcall). injection Hcall as <-.
  by rewrite heap_lookup_alter, decide_False.
Qed.

Lemma SetLanguageModel_sets_model (h h' : heap) (self : handle)
    (lm : option LanguageModel) :
  SetLanguageModel h self lm = Ok h' ->
  h' !! self ≫= _language_model = lm.
Proof.
  unfold SetLanguageModel, deref. intros Hcall.
  destruct (h !! self) as [o|] eqn:Ho; [|discriminate].
  injection Hcall as <-.
  by rewrite heap_lookup_alter, decide_True, Ho.
Qed.

(** X6.  The language model an object has found stays its language model:
    after a read that found one, the object reads the same one whatever
    parents are set and whatever language models are given to other
    objects, its ancestors among them, by [SetLanguageModel] or by the
    [SetLanguageModel] of a DataValue, which also gives the model to the
    data type of the DataValue.  The calls that replace it are those that
    assign to the object itself: a DataValue whose data type is the object
    gives it the new model. *)
Theorem language_model_is_memoized
    (depth depth' : nat) (h h1 h2 : heap) (self : handle)
    (lm : LanguageModel) (calls : list object_call) :
  language_model depth h self = Ok (Some lm, h1) ->
  Forall (leaves_model self) calls ->
  run_object_calls h1 calls = Ok h2 ->
  language_model (S depth') h2 self = Ok (Some lm, h2) /\
  forall value other h3,
    DataValue.SetLanguageModel h2 value self (Some other) = Ok h3 ->
    language_model (S depth') h3 self = Ok (Some other, h3).
Proof.
  intros Hread Hcalls Hrun.
  pose proof (language_model_stored _ _ _ _ _ Hread) as Hstored.
  assert (Hkept : h2 !! self ≫= _language_model = Some lm).
  { clear Hread. revert h1 Hrun Hstored.
    induction Hcalls as [|c calls Hc _ IH]; intros h1 Hrun Hstored.
    - by injection Hrun as <-.
    - simpl in Hrun. apply bind_Ok in Hrun as (hc & Hcall & Hrun).
      apply (IH hc Hrun). rewrite <- Hstored.
      destruct c as [[r lm' | r p] | r data_type lm']; simpl in Hcall, Hc.
      + by eapply SetLanguageModel_keeps_model.
      + by eapply SetParent_keeps_model.
      + unfold DataValue.SetLanguageModel in Hcall.
        apply bind_Ok in Hcall as (hv & Hvalue & Htype).
        destruct Hc as [Hr Htype_ne].
        rewrite (SetLanguageModel_keeps_model _ _ _ _ _ Htype Htype_ne).
        by eapply SetLanguageModel_keeps_model. }
  split.
  - destruct (h2 !! self) as [o2|] eqn:Ho2; [|discriminate].
    by apply (language_model_own depth' h2 self o2 lm).
  - intros value other h3 Hcall.
    unfold DataValue.SetLanguageModel in Hcall.
    apply bind_Ok in Hcall as (hv & _ & Htype).
    pose proof (SetLanguageModel_sets_model _ _ _ _ Htype) as Hset.
    destruct (h3 !! self) as [o3|] eqn:Ho3; [|discriminate].
    by apply (language_model_own depth' h3 self o3 other).
Qed.

Lemma language_model_is_memoized_witness :
  let java := JavaLanguageModel_new (H := title_utilities) "." in
  let other := JavaLanguageModel_new (H := title_utilities) "/" in
  exists h1 h2,
    language_model 2
      [set_language_model (Some java) bare_object;
       set_parent (Some 0) bare_object;
       bare_object] 1 = Ok (Some java, h1) /\
    DataValue.SetLanguageModel h1 2 0 (Some other) = Ok h2 /\
    language_model 2 h2 1 = Ok (Some java, h2).
Proof.
  intros java other. eexists _, _.
  split; [reflexivity|]. split; [reflexivity|].
  refine (proj1 (language_model_is_memoized 2 1
    [set_language_model (Some java) bare_object;
     set_parent (Some 0) bare_object;
     bare_object] _ _ 1 java
    [CallDataValueSetLanguageModel 2 0 (Some other)] _ _ _)).
  - reflexivity.
  - repeat constructor; simpl; lia.
  - reflexivity.
Defined.

(** ** Walking up the tree *)

Lemma parent_chain_head (h : heap) (self : handle) (chain : list handle) :
  parent_chain h self chain -> exists rest, chain = self :: rest.
Proof. destruct 1; eauto. Qed.

Lemma parent_chain_in_heap (h : heap) (self r : handle) (chain : list handle) :
  parent_chain h self chain -> r ∈ chain -> is_Some (h !! r).
Proof.
  induction 1 as [s o Ho Hroot | s p o chain Ho Hp Hchain IH]; intros Hin.
  - apply list_elem_of_singleton in Hin as ->. eauto.
  - apply elem_of_cons in Hin as [-> | Hin]; eauto.
Qed.

(** X7.  When the chain of parents of an object ends at a root, within the
    depth Python allows, [FindTopParent] returns that root, which is the last
    of the chain and has no parent; the root is its own top parent, and all
    the objects of the chain have the same one. *)
Theorem FindTopParent_root
    (depth : nat) (h : heap) (self : handle) (chain : list handle) :
  parent_chain h self chain -> length chain <= depth ->
  exists top,
    last chain = Some top /\ parent_of h top = None /\
    forall r, r ∈ chain -> FindTopParent depth h r = Ok top.
Proof.
  intros Hchain. revert depth.
  induction Hchain as [r o Ho Hroot | r p o chain Ho Hp Hchain IH];
    intros depth Hdepth; simpl in Hdepth.
  - exists r. split; [reflexivity|]. split.
    + unfold parent_of. by rewrite Ho.
    + intros r' ->%list_elem_of_singleton.
      destruct depth as [|depth]; [lia|].
      cbn [FindTopParent]. unfold deref. rewrite Ho. cbn. by rewrite Hroot.
  - destruct depth as [|depth]; [lia|].
    destruct (IH depth) as (top & Hlast & Htop & Hall); [lia|].
    destruct (parent_chain_head _ _ _ Hchain) as [rest ->].
    exists top. split; [exact Hlast|]. split; [exact Htop|].
    intros r' Hin. apply elem_of_cons in Hin as [-> | Hin].
    + cbn [FindTopParent]. unfold deref. rewrite Ho. cbn. rewrite Hp.
      apply Hall. apply elem_of_cons. by left.
    + destruct (IH (S depth)) as (top' & Hlast' & _ & Hall'); [lia|].
      rewrite Hlast in Hlast'. injection Hlast' as <-. by apply Hall'.
Qed.

Lemma FindTopParent_root_witness :
  FindTopParent 3
    [bare_object; set_parent (Some 0) bare_object;
     set_parent (Some 1) bare_object] 2 = Ok 0.
Proof.
  destruct (FindTopParent_root 3
    [bare_object; set_parent (Some 0) bare_object;
     set_parent (Some 1) bare_object] 2 [2; 1; 0]) as (top & Hlast & _ & Hall).
  - eapply chain_step; [reflexivity | reflexivity |].
    eapply chain_step; [reflexivity | reflexivity |].
    eapply chain_root; reflexivity.
  - simpl. lia.
  - injection Hlast as <-. apply Hall. apply elem_of_cons. by left.
Defined.

Lemma ancestors_chain (depth : nat) (h : heap) (self : handle)
    (chain : list handle) :
  parent_chain h self chain -> length chain <= depth ->
  ancestors depth h self = Ok (rev (tail chain)).
Proof.
  intros Hchain. revert depth.
  induction Hchain as [r o Ho Hroot | r p o chain Ho Hp Hchain IH];
    intros depth Hdepth; simpl in Hdepth;
    (destruct depth as [|depth]; [lia|]);
    cbn [ancestors]; unfold deref; rewrite Ho; cbn [mbind result_bind].
  - by rewrite Hroot.
  - rewrite Hp, IH by lia. cbn [mbind result_bind tail].
    destruct Hchain; reflexivity.
Qed.

Lemma values_get_in_heap (h : heap) (key : string) (l : list handle) :
  (forall r, r ∈ l -> is_Some (h !! r)) ->
  values_get h key l =
    Ok (map (fun r => default PNone (h !! r ≫= fun o => _def_dict o !! key)) l).
Proof.
  induction l as [|r l IH]; intros Hall; [reflexivity|].
  cbn [values_get map]. unfold deref.
  destruct (Hall r) as [o Ho]; [apply elem_of_cons; by left|].
  rewrite Ho. cbn [mbind result_bind]. rewrite IH.
  - reflexivity.
  - intros r' Hin. apply Hall. apply elem_of_cons. by right.
Qed.

(** X8.  When the chain of parents of an object ends at a root, within the
    depth Python allows, [ancestors] lists the chain from the root down to
    the parent, [full_path] is that list followed by the object itself, and
    [parentPath] holds the class names of the ancestors in the same order,
    None for an ancestor that has none.  For a root the first and the last
    are empty. *)
Theorem ancestry_lists
    (depth : nat) (h : heap) (self : handle) (chain : list handle) :
  parent_chain h self chain -> length chain <= depth ->
  ancestors depth h self = Ok (rev (tail chain)) /\
  full_path depth h self = Ok (rev (tail chain) ++ [self]) /\
  rev (tail chain) ++ [self] = rev chain /\
  parentPath depth h self = Ok (map (className_of h) (rev (tail chain))).
Proof.
  intros Hchain Hdepth.
  pose proof (ancestors_chain _ _ _ _ Hchain Hdepth) as Hanc.
  split; [exact Hanc|]. split; [|split].
  - unfold full_path. by rewrite Hanc.
  - destruct (parent_chain_head _ _ _ Hchain) as [rest ->]. reflexivity.
  - unfold parentPath. rewrite Hanc. cbn [mbind result_bind].
    apply values_get_in_heap. intros r Hin.
    apply (parent_chain_in_heap h self r chain Hchain).
    apply list_elem_of_In, in_rev, list_elem_of_In in Hin.
    destruct (parent_chain_head _ _ _ Hchain) as [rest ->].
    apply elem_of_cons. by right.
Qed.

Lemma ancestry_lists_witness :
  let h := [set_def_dict {[ "className" := PStr "Books" ]} bare_object;
            set_parent (Some 0) bare_object;
            set_parent (Some 1) bare_object] in
  full_path 3 h 2 = Ok [0; 1; 2] /\
  parentPath 3 h 2 = Ok [PStr "Books"; PNone].
Proof.
  intros h.
  destruct (ancestry_lists 3 h 2 [2; 1; 0]) as (_ & Hfull & _ & Hpath).
  - eapply chain_step; [reflexivity | reflexivity |].
    eapply chain_step; [reflexivity | reflexivity |].
    eapply chain_root; reflexivity.
  - simpl. lia.
  - split; [exact Hfull | exact Hpath].
Defined.

(** ** Relative class names *)

(** [RelativeClassName] goes up the chain and writes each name after the
    delimiter of its object, when something was written before. *)
Lemma RelativeClassName_chain
    (depth : nat) (h : heap) (self : handle) (other : option handle)
    (chain : list handle) :
  rel_chain h other self chain ->
  (forall r, r ∈ chain -> named h r) ->
  length chain < depth ->
  RelativeClassName depth h self other = Ok (joined h chain, h).
Proof.
  intros Hchain. revert depth.
  induction Hchain as [r Hr | r o Hr Ho Hroot | r p o chain Hr Ho Hp Hchain IH];
    intros depth Hnamed Hdepth; simpl in Hdepth;
    (destruct depth as [|depth]; [lia|]); cbn [RelativeClassName].
  - rewrite decide_True by done. reflexivity.
  - rewrite decide_False by done. unfold deref. rewrite Ho.
    cbn [mbind result_bind]. rewrite Hroot. cbn [mbind result_bind str_truthy].
    unfold deref. rewrite Ho. cbn [mbind result_bind joined].
    rewrite Ho. cbn [str_truthy].
    destruct (Hnamed r) as (o' & lm & s & Ho' & _ & Hs);
      [apply elem_of_cons; by left|].
    rewrite Ho in Ho'. injection Ho' as <-.
    pose proof Hs as Hs'. unfold class_segment in Hs'.
    rewrite Hs', Hs. reflexivity.
  - rewrite decide_False by done. unfold deref. rewrite Ho.
    cbn [mbind result_bind]. rewrite Hp.
    rewrite (IH depth) by
      (try lia; intros q Hq; apply Hnamed, elem_of_cons; by right).
    cbn [mbind result_bind joined]. rewrite Ho.
    destruct (Hnamed r) as (o' & lm & s & Ho' & Hlm & Hs);
      [apply elem_of_cons; by left|].
    rewrite Ho in Ho'. injection Ho' as <-.
    destruct (str_truthy (joined h chain)) eqn:Hup.
    + destruct depth as [|depth]; [lia|].
      rewrite (language_model_own depth h r o lm Ho Hlm).
      cbn [mbind result_bind]. unfold deref. rewrite Ho.
      cbn [mbind result_bind]. rewrite Hlm. cbn [from_option].
      pose proof Hs as Hs'. unfold class_segment in Hs'.
      rewrite Hs', Hs. reflexivity.
    + cbn [mbind result_bind]. unfold deref. rewrite Ho.
      cbn [mbind result_bind].
      pose proof Hs as Hs'. unfold class_segment in Hs'.
      rewrite Hs', Hs. reflexivity.
Qed.

Lemma concat_snoc (d x s : string) (names : list string) :
  String.concat d ((x :: names) ++ [s]) =
  String.concat d (x :: names) +:+ d +:+ s.
Proof.
  revert x. induction names as [|y names IH]; intros x; [reflexivity|].
  change (x +:+ d +:+ String.concat d ((y :: names) ++ [s]) =
          (x +:+ d +:+ String.concat d (y :: names)) +:+ d +:+ s).
  by rewrite IH, !string_app_assoc.
Qed.

Lemma concat_truthy (d : string) (c : ascii) (x : string)
    (names : list string) :
  str_truthy (String.concat d (String c x :: names)) = true.
Proof. by destruct names. Qed.

(** One more name below: it comes after the delimiter when something was
    written above, and first otherwise. *)
Lemma concat_skip_empty_snoc (d s : string) (names : list string) :
  String.concat d (skip_empty (names ++ [s])) =
  (if str_truthy (String.concat d (skip_empty names))
   then String.concat d (skip_empty names) +:+ d
   else String.concat d (skip_empty names)) +:+ s.
Proof.
  induction names as [|x names IH].
  - by destruct s.
  - destruct x as [|c x]; [exact IH|].
    cbn [skip_empty]. rewrite concat_truthy.
    change (String.concat d ((String c x :: names) ++ [s]) =
            (String.concat d (String c x :: names) +:+ d) +:+ s).
    by rewrite concat_snoc, string_app_assoc.
Qed.

Lemma joined_concat (d : string) (h : heap) (chain : list handle)
    (names : list string) :
  Forall2 (named_as d h) chain names ->
  joined h chain = String.concat d (skip_empty (rev names)).
Proof.
  induction 1 as [|r s chain names (o & lm & Ho & Hlm & Hd & Hs) _ IH];
    [reflexivity|].
  cbn [joined rev]. rewrite Ho, Hlm, Hs, IH, concat_skip_empty_snoc.
  cbn [from_option str_of_pyval]. by rewrite Hd.
Qed.

(** X9.  [RelativeClassName(other)] for objects that have a language model
    of their own, all with the same class-name delimiter, and string names:
    the result is the names from the root, or from the child of [other] when
    [other] is on the way up, down to the object, without the empty names
    the list starts with, joined by the delimiter.  An empty name further
    down keeps its delimiter: Books, an object with no name and List give
    "Books..List".  Relative to itself an object has the empty name.  The
    heap is left as it is. *)
Theorem RelativeClassName_joined
    (depth : nat) (h : heap) (self : handle) (other : option handle)
    (chain : list handle) (names : list string) (d : string) :
  rel_chain h other self chain ->
  Forall2 (named_as d h) chain names ->
  length chain < depth ->
  RelativeClassName depth h self other =
    Ok (String.concat d (skip_empty (rev names)), h).
Proof.
  intros Hchain Hnames Hdepth.
  rewrite (RelativeClassName_chain depth h self other chain Hchain);
    [by rewrite (joined_concat d h chain names)| |exact Hdepth].
  intros r Hr.
  apply list_elem_of_lookup in Hr as [i Hi].
  destruct (Forall2_lookup_l _ _ _ _ _ Hnames Hi)
    as (s & _ & o & lm & Ho & Hlm & _ & Hs).
  by exists o, lm, s.
Qed.

Lemma RelativeClassName_joined_witness :
  let java := Some (JavaLanguageModel_new (H := title_utilities) ".") in
  let h :=
    [ set_language_model java
        (set_def_dict {[ "className" := PStr "Books" ]} bare_object);
      set_language_model java (set_parent (Some 0) bare_object);
      set_language_model java
        (set_parent (Some 1)
           (set_def_dict {[ "className" := PStr "List" ]} bare_object)) ] in
  RelativeClassName 4 h 2 None = Ok ("Books..List", h) /\
  RelativeClassName 4 h 2 (Some 0) = Ok ("List", h) /\
  RelativeClassName 4 h 2 (Some 2) = Ok (EmptyString, h).
Proof.
  intros java h. split; [|split].
  - apply (RelativeClassName_joined 4 h 2 None [2; 1; 0]
             ["List"; EmptyString; "Books"] ".").
    + eapply rel_step; [discriminate | reflexivity | reflexivity |].
      eapply rel_step; [discriminate | reflexivity | reflexivity |].
      eapply rel_root; [discriminate | reflexivity | reflexivity].
    + repeat constructor; eexists _, _; repeat split; reflexivity.
    + simpl. lia.
  - apply (RelativeClassName_joined 4 h 2 (Some 0) [2; 1]
             ["List"; EmptyString] ".").
    + eapply rel_step; [discriminate | reflexivity | reflexivity |].
      eapply rel_step; [discriminate | reflexivity | reflexivity |].
      apply rel_stop. reflexivity.
    + repeat constructor; eexists _, _; repeat split; reflexivity.
    + simpl. lia.
  - apply (RelativeClassName_joined 4 h 2 (Some 2) [] [] ".").
    + apply rel_stop. reflexivity.
    + constructor.
    + simpl. lia.
Defined.

Lemma alter_same (f : CodeObject -> CodeObject) (r : handle) (h : heap)
    (o : CodeObject) :
  h !! r = Some o -> f o = o -> alter f r h = h.
Proof.
  intros Ho Hf. apply list_eq. intros i. rewrite heap_lookup_alter.
  destruct (decide (r = i)) as [<-|]; [|reflexivity].
  rewrite Ho. simpl. by rewrite Hf.
Qed.

(** With no language model on the chain, [language_model] finds none and
    leaves the heap as it is. *)
Lemma language_model_none (depth : nat) (h : heap) (self : handle)
    (chain : list handle) :
  parent_chain h self chain -> length chain <= depth ->
  first_language_model h chain = None ->
  language_model depth h self = Ok (None, h).
Proof.
  intros Hchain. revert depth.
  induction Hchain as [r o Ho Hroot | r p o chain Ho Hp Hchain IH];
    intros depth Hdepth Hnone; simpl in Hdepth;
    (destruct depth as [|depth]; [lia|]);
    cbn [language_model first_language_model] in *; unfold deref;
    rewrite Ho in *; cbn [mbind result_bind option_bind] in *;
    destruct (_language_model o) as [lm|] eqn:Hlm; try discriminate.
  - by rewrite Hroot.
  - rewrite Hp, IH by (done || lia). cbn [mbind result_bind].
    rewrite (alter_same _ _ _ o Ho); [reflexivity|].
    destruct o. simpl in Hlm. by subst.
Qed.

Lemma parent_chain_tail (h : heap) (r p : handle) (o : CodeObject)
    (chain : list handle) :
  parent_chain h r chain -> h !! r = Some o -> _parent o = Some p ->
  exists rest, chain = r :: p :: rest /\ parent_chain h p (p :: rest).
Proof.
  intros Hchain Ho Hp. destruct Hchain as [r o' Ho' Hroot | r p' o' chain Ho' Hp' Hc].
  - rewrite Ho in Ho'. injection Ho' as <-. congruence.
  - rewrite Ho in Ho'. injection Ho' as <-. rewrite Hp in Hp'.
    injection Hp' as <-.
    destruct (parent_chain_head _ _ _ Hc) as [rest ->]. eauto.
Qed.

(** What [RelativeClassName(None)] gives when no language model is in reach
    and the ancestors have string names. *)
Lemma RelativeClassName_no_model (depth : nat) (h : heap) (self : handle)
    (chain : list handle) :
  parent_chain h self chain -> length chain < depth ->
  first_language_model h chain = None ->
  (forall r, r ∈ tail chain -> is_Some (segment_of h r)) ->
  if has_name h (tail chain)
  then RelativeClassName depth h self None =
         Raise (UnboundLocalError "class_name_delimiter")
  else forall s, segment_of h self = Some s ->
                 RelativeClassName depth h self None = Ok (s, h).
Proof.
  intros Hchain. revert depth.
  induction Hchain as [r o Ho Hroot | r p o chain Ho Hp Hchain IH];
    intros depth Hdepth Hnone Hsegs; simpl in Hdepth;
    (destruct depth as [|depth]; [lia|]).
  - cbn [tail has_name existsb]. intros s Hs.
    cbn [RelativeClassName]. rewrite decide_False by done.
    unfold deref. rewrite Ho. cbn [mbind result_bind]. rewrite Hroot.
    cbn [mbind result_bind str_truthy]. unfold deref. rewrite Ho.
    cbn [mbind result_bind].
    unfold segment_of in Hs. rewrite Ho in Hs. cbn in Hs.
    change (match get_truthy (_def_dict o) "className" with
            | Some v => v
            | None => match get_truthy (_def_dict o) "codeName" with
                      | Some v => v
                      | None => default (PStr "") (_def_dict o !! "name")
                      end
            end) with (class_segment o).
    destruct (class_segment o); [|discriminate..]. by injection Hs as ->.
  - destruct (parent_chain_head _ _ _ Hchain) as [rest ->].
    cbn [tail] in *.
    assert (Hnone' : first_language_model h (p :: rest) = None).
    { cbn [first_language_model] in Hnone. rewrite Ho in Hnone.
      cbn [mbind option_bind] in Hnone.
      by destruct (_language_model o). }
    assert (Hlm : language_model depth h r = Ok (None, h)).
    { apply (language_model_none depth h r (r :: p :: rest));
        [by eapply chain_step | simpl in *; lia | exact Hnone]. }
    specialize (IH depth ltac:(simpl in *; lia) Hnone').
    specialize (IH ltac:(intros q Hq; apply Hsegs, elem_of_cons; by right)).
    cbn [has_name existsb] in *.
    destruct (Hsegs p) as [sp Hsp]; [apply elem_of_cons; by left|].
    rewrite Hsp. cbn [from_option].
    assert (Hstep : forall up h1,
      RelativeClassName depth h p None = Ok (up, h1) -> str_truthy up = true ->
      h1 = h ->
      RelativeClassName (S depth) h r None =
        Raise (UnboundLocalError "class_name_delimiter")).
    { intros up h1 Hup Htrue ->. cbn [RelativeClassName].
      rewrite decide_False by done. unfold deref. rewrite Ho.
      cbn [mbind result_bind]. rewrite Hp, Hup. cbn [mbind result_bind].
      rewrite Htrue, Hlm. reflexivity. }
    revert IH. unfold has_name.
    destruct (existsb _ rest) eqn:Hrest; intros IH.
    + rewrite orb_true_r. cbn [RelativeClassName].
      rewrite decide_False by done. unfold deref. rewrite Ho.
      cbn [mbind result_bind]. rewrite Hp, IH. reflexivity.
    + rewrite orb_false_r. specialize (IH sp Hsp).
      destruct (str_truthy sp) eqn:Htrue.
      * by eapply Hstep.
      * intros s Hs. cbn [RelativeClassName].
        rewrite decide_False by done. unfold deref. rewrite Ho.
        cbn [mbind result_bind]. rewrite Hp, IH. cbn [mbind result_bind].
        rewrite Htrue. cbn [mbind result_bind]. unfold deref. rewrite Ho.
        cbn [mbind result_bind].
        unfold segment_of in Hs. rewrite Ho in Hs. cbn in Hs.
        change (match get_truthy (_def_dict o) "className" with
                | Some v => v
                | None => match get_truthy (_def_dict o) "codeName" with
                          | Some v => v
                          | None => default (PStr "") (_def_dict o !! "name")
                          end
                end) with (class_segment o).
        destruct (class_segment o); [|discriminate..]. injection Hs as ->.
        destruct sp; [reflexivity | discriminate].
Qed.

(** X10.  With no language model in reach, [RelativeClassName(None)] needs
    no delimiter as long as every ancestor has an empty name, and returns the
    name of the object; as soon as one ancestor has a name that is not empty
    it raises [UnboundLocalError], the delimiter being read without having
    been assigned. *)
Theorem RelativeClassName_without_language_model
    (depth : nat) (h : heap) (self : handle) (chain : list handle)
    (s : string) :
  parent_chain h self chain -> length chain < depth ->
  first_language_model h chain = None ->
  (forall r, r ∈ tail chain -> is_Some (segment_of h r)) ->
  segment_of h self = Some s ->
  RelativeClassName depth h self None =
    if has_name h (tail chain)
    then Raise (UnboundLocalError "class_name_delimiter")
    else Ok (s, h).
Proof.
  intros Hchain Hdepth Hnone Hsegs Hs.
  pose proof (RelativeClassName_no_model depth h self chain
                Hchain Hdepth Hnone Hsegs) as Hrel.
  destruct (has_name h (tail chain)); [exact Hrel | by apply Hrel].
Qed.

Lemma RelativeClassName_without_language_model_witness :
  let h := [set_def_dict {[ "className" := PStr "Books" ]} bare_object;
            set_parent (Some 0)
              (set_def_dict {[ "className" := PStr "Volumes" ]} bare_object)] in
  RelativeClassName 3 h 1 None =
    Raise (UnboundLocalError "class_name_delimiter") /\
  RelativeClassName 3 h 0 None = Ok ("Books", h).
Proof.
  intros h. split.
  - apply (RelativeClassName_without_language_model 3 h 1 [1; 0] "Volumes").
    + eapply chain_step; [reflexivity | reflexivity |].
      eapply chain_root; reflexivity.
    + simpl. lia.
    + reflexivity.
    + intros r Hr. apply list_elem_of_singleton in Hr as ->. by eexists.
    + reflexivity.
  - apply (RelativeClassName_without_language_model 3 h 0 [0] "Books").
    + eapply chain_root; reflexivity.
    + simpl. lia.
    + reflexivity.
    + intros r Hr. by apply elem_of_nil in Hr.
    + reflexivity.
Defined.

(** ** More on the path and the name of a Module *)

(** X11.  The path of a Module whose ancestors are Modules and whose root
    has a language model of its own: the default container path of the root,
    followed by the path segments from the root down to the Module, joined by
    ['/'], a segment that is empty or None adding nothing.  The heap is left
    as it is, and reading the path does not freeze the Module: [SetPath]
    still succeeds. *)
Theorem path_joined
    (depth : nat) (h : heap) (self root : handle) (chain : list handle)
    (ro : CodeObject) (lm : LanguageModel) (base : string) (new_path : pyval) :
  parent_chain h self chain -> length chain < depth ->
  (forall r, r ∈ chain -> is_Some (path_segment h r)) ->
  last chain = Some root -> h !! root = Some ro ->
  _language_model ro = Some lm -> container_path h lm root = Ok base ->
  path depth h self = (p ← joined_path h base chain; Ok (p, h)) /\
  ((exists f, h !! self ≫= module_fields = Some f /\ _name f = None) ->
   SetPath h self new_path = Ok (alter (set_path new_path) self h)).
Proof.
  intros Hchain Hdepth Hmods Hlast Hro Hlm Hbase. split.
  - revert depth Hdepth.
    induction Hchain as [r o Ho Hroot | r p o chain Ho Hp Hchain IH];
      intros depth Hdepth; simpl in Hdepth;
      (destruct depth as [|depth]; [lia|]);
      (destruct (Hmods r) as [seg Hseg]; [apply elem_of_cons; by left|]);
      cbn [path joined_path]; rewrite Hseg;
      unfold path_segment in Hseg; unfold deref, module_attr;
      rewrite Ho in *; cbn [mbind result_bind option_bind] in *;
      (destruct (module_fields o) as [f|] eqn:Hf; [|discriminate]);
      cbn [mbind result_bind option_bind] in *; injection Hseg as <-.
    + rewrite Hroot. injection Hlast as <-.
      rewrite Ho in Hro. injection Hro as <-.
      destruct depth as [|depth]; [lia|].
      rewrite (language_model_own depth h r o lm Ho Hlm).
      cbn [mbind result_bind]. unfold container_path in Hbase.
      rewrite Ho in Hbase. cbn [mbind option_bind] in Hbase.
      rewrite Hf in Hbase. rewrite Hbase. cbn [mbind result_bind].
      by destruct (join_path base (_path f)).
    + rewrite Hp.
      destruct (parent_chain_head _ _ _ Hchain) as [rest ->].
      rewrite IH; [| |exact Hlast|lia].
      * destruct (joined_path h base (p :: rest)) as [up|e];
          cbn [mbind result_bind]; [|reflexivity].
        by destruct (join_path up (_path f)).
      * intros q Hq. apply Hmods. apply elem_of_cons. by right.
  - intros (f & Hf & Hname). unfold SetPath, deref, module_attr.
    destruct (h !! self) as [o|]; [|discriminate].
    cbn [mbind result_bind option_bind] in *. rewrite Hf.
    cbn [mbind result_bind]. by rewrite Hname.
Qed.

Lemma path_joined_witness :
  let java := JavaLanguageModel_new (H := title_utilities) "." in
  let module path parent :=
    set_parent parent
      (set_module_fields
         (Some {| _path := path; _owner_name := PStr "Google";
                  _owner_domain := PStr "google.com"; _name := None |})
         bare_object) in
  let h := [set_language_model (Some java) (module (PStr "books") None);
            module PNone (Some 0); module (PStr "model") (Some 1)] in
  path 4 h 2 = Ok ("com/google/api/services/books/model", h).
Proof.
  intros java module h.
  destruct (path_joined 4 h 2 0 [2; 1; 0]
              (set_language_model (Some java) (module (PStr "books") None))
              java "com/google/api/services" PNone) as [Hpath _].
  - eapply chain_step; [reflexivity | reflexivity |].
    eapply chain_step; [reflexivity | reflexivity |].
    eapply chain_root; reflexivity.
  - simpl. lia.
  - intros r Hr.
    repeat (apply elem_of_cons in Hr as [-> | Hr]; [by eexists|]).
    by apply elem_of_nil in Hr.
  - reflexivity.
  - reflexivity.
  - reflexivity.
  - reflexivity.
  - exact Hpath.
Defined.

Lemma has_char_app (c : ascii) (a b : string) :
  has_char c (a +:+ b) = has_char c a || has_char c b.
Proof.
  induction a as [|x a IH]; [reflexivity|].
  change (bool_decide (x = c) || has_char c (a +:+ b) =
          bool_decide (x = c) || has_char c a || has_char c b).
  rewrite IH. by destruct (bool_decide (x = c)).
Qed.

Lemma replace_char_removes (c : ascii) (new s : string) :
  has_char c new = false -> has_char c (replace_char c new s) = false.
Proof.
  intros Hnew. induction s as [|x s IH]; [reflexivity|].
  cbn [replace_char]. destruct (decide (x = c)) as [->|Hne].
  - by rewrite has_char_app, Hnew, IH.
  - cbn [has_char]. by rewrite bool_decide_eq_false_2, IH.
Qed.

(** [language_model] makes up no language model: what it returns and what it
    stores was assigned to some object. *)
Lemma language_model_origin (depth : nat) (h h1 : heap) (self : handle)
    (res : option LanguageModel) :
  language_model depth h self = Ok (res, h1) ->
  (forall lm, res = Some lm -> model_in h lm) /\
  (forall lm, model_in h1 lm -> model_in h lm).
Proof.
  revert h h1 self res.
  induction depth as [|depth IH]; intros h h1 self res; [discriminate|].
  cbn [language_model]. unfold deref.
  destruct (h !! self) as [o|] eqn:Ho; [|discriminate].
  cbn [mbind result_bind].
  destruct (_language_model o) as [lm0|] eqn:Hown.
  { intros [= <- <-]. split; [|done]. intros lm [= <-]. by exists self, o. }
  destruct (_parent o) as [p|]; [|by intros [= <- <-]].
  destruct (language_model depth h p) as [[lm' h']|e] eqn:Hp; [|discriminate].
  cbn [mbind result_bind]. intros [= <- <-].
  destruct (IH _ _ _ _ Hp) as [Hres Hsub]. split; [exact Hres|].
  intros lm (r & o' & Ho' & Hlm). rewrite heap_lookup_alter in Ho'.
  destruct (decide (self = r)) as [<-|Hne].
  - destruct (h' !! self) as [o''|]; [|discriminate].
    injection Ho' as <-. simpl in Hlm. by apply Hres.
  - apply Hsub. by exists r, o'.
Qed.

Lemma path_origin (depth : nat) (h h1 : heap) (self : handle) (p : string) :
  path depth h self = Ok (p, h1) ->
  forall lm, model_in h1 lm -> model_in h lm.
Proof.
  revert h h1 self p.
  induction depth as [|depth IH]; intros h h1 self p; [discriminate|].
  cbn [path]. destruct (deref h self) as [o|e]; [|discriminate].
  cbn [mbind result_bind].
  destruct (module_attr o "path") as [f|e]; [|discriminate].
  cbn [mbind result_bind].
  destruct (_parent o) as [q|].
  - destruct (path depth h q) as [[base h']|e] eqn:Hq; [|discriminate].
    cbn [mbind result_bind]. destruct (join_path base (_path f)); [|discriminate].
    cbn [mbind result_bind]. intros [= <- <-]. by eapply IH.
  - destruct (language_model depth h self) as [[lm h']|e] eqn:Hlm;
      [|discriminate].
    cbn [mbind result_bind]. destruct lm as [lm|]; [|discriminate].
    destruct (DefaultContainerPathForOwner lm _ _); [|discriminate].
    cbn [mbind result_bind].
    destruct (join_path _ (_path f)); [|discriminate].
    cbn [mbind result_bind]. intros [= <- <-].
    by destruct (language_model_origin _ _ _ _ _ Hlm) as [_ Hsub].
Qed.

(** X12.  When no language model of the heap has a ['/'] in its module-name
    delimiter, the name that [name] computes for a Module has no ['/'], and
    it is stored in the Module. *)
Theorem name_has_no_slash
    (depth : nat) (h h1 : heap) (self : handle) (f : ModuleFields)
    (n : string) :
  (forall lm, model_in h lm ->
              has_char "/" (module_name_delimiter lm) = false) ->
  h !! self ≫= module_fields = Some f -> name_truthy (_name f) = false ->
  name depth h self = Ok (n, h1) ->
  has_char "/" n = false /\
  exists f1, h1 !! self ≫= module_fields = Some f1 /\ _name f1 = Some n.
Proof.
  intros Hdelim Hf Hnone. unfold name.
  destruct (deref h self) as [o|e] eqn:Ho; [|discriminate].
  assert (Ho' : h !! self = Some o).
  { unfold deref in Ho. destruct (h !! self); [by injection Ho as ->|discriminate]. }
  rewrite Ho' in Hf. cbn [mbind option_bind] in Hf.
  cbn [mbind result_bind]. unfold module_attr. rewrite Hf.
  cbn [mbind result_bind]. rewrite Hnone. intros Hrun.
  apply bind_Ok in Hrun as ([p h'] & Hp & Hrun).
  apply bind_Ok in Hrun as ([lm h2] & Hlm & Hrun).
  destruct lm as [lm|]; [|discriminate]. injection Hrun as <- <-.
  split.
  - apply replace_char_removes, Hdelim.
    apply (path_origin _ _ _ _ _ Hp).
    destruct (language_model_origin _ _ _ _ _ Hlm) as [Hres _].
    by apply Hres.
  - assert (Hframe : lm_frame h h2).
    { eapply lm_frame_trans;
        [by eapply path_frame | by eapply language_model_frame]. }
    destruct (lm_frame_deref _ _ _ _ Hframe Ho) as (lm2 & Ho2 & _).
    rewrite heap_lookup_alter, decide_True, Ho2 by done.
    cbn. rewrite Hf. cbn. by eexists.
Qed.

Lemma name_has_no_slash_witness :
  let java := JavaLanguageModel_new (H := title_utilities) "." in
  let f := {| _path := PStr "books/model"; _owner_name := PStr "Google";
              _owner_domain := PStr "google.com"; _name := None |} in
  let h := [set_language_model (Some java)
              (set_module_fields (Some f) bare_object)] in
  exists h1,
    name 3 h 0 = Ok ("com.google.api.services.books.model", h1) /\
    has_char "/" "com.google.api.services.books.model" = false.
Proof.
  intros java f h. eexists. split; [reflexivity|].
  eapply (name_has_no_slash 3 h _ 0 f).
  - intros lm (r & o & Ho & Hlm).
    destruct r as [|r]; [|discriminate].
    injection Ho as <-. injection Hlm as <-. reflexivity.
  - reflexivity.
  - reflexivity.
  - reflexivity.
Defined.

Lemma run_calls_module_fields (h h' : heap) (calls : list tree_call)
    (r : handle) :
  run_calls h calls = Ok h' ->
  h' !! r ≫= module_fields = h !! r ≫= module_fields.
Proof.
  revert h. induction calls as [|c calls IH]; intros h; simpl.
  - by intros [= <-].
  - intros Hrun. apply bind_Ok in Hrun as (h1 & Hc & Hrun).
    rewrite (IH _ Hrun). destruct c as [s lm | s p]; simpl in Hc.
    + unfold SetLanguageModel in Hc.
      apply bind_Ok in Hc as (o & _ & Hc). injection Hc as <-.
      rewrite heap_lookup_alter. destruct (decide (s = r)); [|reflexivity].
      by destruct (h !! r).
    + destruct (h !! r) as [o|] eqn:Ho.
      * destruct (SetParent_frame _ _ _ _ r o Hc Ho) as (c' & p' & ->).
        reflexivity.
      * apply lookup_ge_None in Ho.
        rewrite <- (SetParent_length _ _ _ _ Hc) in Ho.
        apply lookup_ge_None in Ho. by rewrite Ho.
Qed.

(** A name that is not empty is stored by the read that returns it. *)
Lemma name_stored (depth : nat) (h h1 : heap) (self : handle) (n : string) :
  name depth h self = Ok (n, h1) -> str_truthy n = true ->
  exists f, h1 !! self ≫= module_fields = Some f /\ _name f = Some n.
Proof.
  unfold name.
  destruct (deref h self) as [o|e] eqn:Ho; [|discriminate].
  assert (Ho' : h !! self = Some o).
  { unfold deref in Ho.
    destruct (h !! self); [by injection Ho as ->|discriminate]. }
  cbn [mbind result_bind]. unfold module_attr.
  destruct (module_fields o) as [f|] eqn:Hf; [|discriminate].
  cbn [mbind result_bind].
  destruct (name_truthy (_name f)) eqn:Hcached.
  - intros [= <- <-] _. exists f. rewrite Ho'. cbn. split; [exact Hf|].
    by destruct (_name f).
  - intros Hrun Hn.
    apply bind_Ok in Hrun as ([p h'] & Hp & Hrun).
    apply bind_Ok in Hrun as ([lm h2] & Hlm & Hrun).
    destruct lm as [lm|]; [|discriminate]. injection Hrun as <- <-.
    assert (Hframe : lm_frame h h2).
    { eapply lm_frame_trans;
        [by eapply path_frame | by eapply language_model_frame]. }
    destruct (lm_frame_deref _ _ _ _ Hframe Ho) as (lm2 & Ho2 & _).
    rewrite heap_lookup_alter, decide_True, Ho2 by done.
    cbn. rewrite Hf. cbn. by eexists.
Qed.

(** X13.  The name of a Module is computed once: after a read that returned
    a name that is not empty, every read returns that name and changes
    nothing, whatever parents and language models are set in between, those
    of the Module among them. *)
Theorem name_is_memoized
    (depth depth' : nat) (h h1 h2 : heap) (self : handle) (n : string)
    (calls : list tree_call) :
  name depth h self = Ok (n, h1) -> str_truthy n = true ->
  run_calls h1 calls = Ok h2 ->
  name depth' h2 self = Ok (n, h2).
Proof.
  intros Hread Hn Hcalls.
  destruct (name_stored _ _ _ _ _ Hread Hn) as (f & Hf & Hname).
  rewrite <- (run_calls_module_fields _ _ _ self Hcalls) in Hf.
  unfold name, deref, module_attr.
  destruct (h2 !! self) as [o2|]; [|discriminate].
  cbn [mbind result_bind option_bind] in *. rewrite Hf.
  cbn [mbind result_bind]. rewrite Hname. cbn [name_truthy default].
  by rewrite Hn.
Qed.

Lemma name_is_memoized_witness :
  let java := JavaLanguageModel_new (H := title_utilities) "." in
  let other := JavaLanguageModel_new (H := title_utilities) "::" in
  let f := {| _path := PStr "books"; _owner_name := PStr "Google";
              _owner_domain := PStr "google.com"; _name := None |} in
  let h := [set_language_model (Some java)
              (set_module_fields (Some f) bare_object)] in
  exists h1 h2,
    name 3 h 0 = Ok ("com.google.api.services.books", h1) /\
    SetLanguageModel h1 0 (Some other) = Ok h2 /\
    name 3 h2 0 = Ok ("com.google.api.services.books", h2).
Proof.
  intros java other f h. eexists _, _.
  split; [reflexivity|]. split; [reflexivity|].
  eapply name_is_memoized with
    (depth := 3) (h := h) (calls := [CallSetLanguageModel 0 (Some other)]);
    reflexivity.
Defined.

(** ** Modules made from a library definition *)

Lemma alter_last (f : CodeObject -> CodeObject) (h : heap) (o : CodeObject) :
  alter f (length h) (h ++ [o]) = h ++ [f o].
Proof.
  apply list_eq. intros i. rewrite heap_lookup_alter.
  destruct (decide (length h = i)) as [<-|Hne].
  - by rewrite !lookup_app_new.
  - destruct (decide (i < length h)).
    + by rewrite !lookup_app_l.
    + rewrite !lookup_app_r by lia.
      destruct (i - length h) as [|k] eqn:Hk; [lia | reflexivity].
Qed.

Lemma Module_init_root `{Utilities} (h : heap)
    (path owner_name owner_domain : pyval) :
  Module_init h path owner_name owner_domain None None =
  Ok (length h, h ++ [root_module path owner_name owner_domain]).
Proof.
  unfold Module_init, CodeObject_init, SetParent, deref.
  rewrite lookup_app_new. cbn [mbind result_bind _parent].
  rewrite alter_last. cbn [set_parent _def_dict _api _children
    _language_model _module module_fields].
  unfold get_truthy. rewrite lookup_empty. cbn [mbind result_bind].
  rewrite alter_last. reflexivity.
Qed.

(** X14.  [ModuleFromDictionary] returns None, and builds nothing, for a
    missing or empty library definition.  Otherwise it adds one Module to the
    heap, with the module path of the definition, or the empty path when that
    is missing or empty, and with no parent and no language model: reading
    its name raises [AttributeError] until a language model is set, and then
    gives the default container path of the owner followed by the path, with
    the module-name delimiter for ['/']. *)
Theorem ModuleFromDictionary_spec `{Utilities} (h : heap)
    (lib_def : gmap string pyval) (lm : LanguageModel) (depth : nat) :
  let segment := modulePath_or_empty lib_def in
  let owner := default PNone (lib_def !! "owner") in
  let domain := default PNone (lib_def !! "domain") in
  let m := length h in
  let h1 := h ++ [root_module segment owner domain] in
  ModuleFromDictionary h None = Ok (None, h) /\
  ModuleFromDictionary h (Some ∅) = Ok (None, h) /\
  (lib_def <> ∅ ->
   ModuleFromDictionary h (Some lib_def) = Ok (Some m, h1) /\
   name (S (S depth)) h1 m =
     Raise (AttributeError "DefaultContainerPathForOwner") /\
   exists h2,
     SetLanguageModel h1 m (Some lm) = Ok h2 /\
     match base ← DefaultContainerPathForOwner lm owner (SanitizeDomain domain);
           join_path base segment with
     | Ok p =>
         exists h3,
           name (S (S depth)) h2 m =
             Ok (replace_char "/" (module_name_delimiter lm) p, h3)
     | Raise e => name (S (S depth)) h2 m = Raise e
     end).
Proof.
  intros segment owner domain m h1.
  split; [reflexivity|]. split; [reflexivity|]. intros Hne.
  split; [|split].
  - unfold ModuleFromDictionary. rewrite decide_False by done.
    fold segment owner domain. by rewrite Module_init_root.
  - unfold name, deref. subst h1 m. rewrite lookup_app_new.
    unfold root_module, module_attr.
    repeat (cbn; unfold deref; rewrite ?lookup_app_new).
    reflexivity.
  - unfold SetLanguageModel, deref. subst h1 m. rewrite lookup_app_new.
    cbn [mbind result_bind]. eexists. split; [reflexivity|].
    rewrite alter_last.
    set (o := set_language_model (Some lm) (root_module segment owner domain)).
    assert (Ho : (h ++ [o]) !! length h = Some o) by apply lookup_app_new.
    unfold name, deref. rewrite Ho. cbn [mbind result_bind].
    erewrite (path_root depth _ _ o _ lm Ho); [|reflexivity..].
    cbn [_owner_name _owner_domain _path].
    destruct (DefaultContainerPathForOwner lm owner (SanitizeDomain domain))
      as [base|e]; cbn [mbind result_bind]; [|reflexivity].
    destruct (join_path base segment) as [p|e]; cbn [mbind result_bind];
      [|reflexivity].
    rewrite (language_model_own _ _ _ o lm Ho eq_refl).
    eexists. reflexivity.
Qed.

(** ** Unwrapping collections *)

Lemma unwraps_to_functional (d leaf leaf' : DataType) (n n' : nat) :
  unwraps_to d n leaf -> unwraps_to d n' leaf' -> n = n' /\ leaf = leaf'.
Proof.
  intros Hu. revert n' leaf'.
  induction Hu as [leaf Hleaf | t values base leaf n Ht Hu IH];
    intros n' leaf' Hu'.
  - inversion Hu' as [? Hleaf' | t values base ? m Ht Hu'']; subst; [done|].
    simpl in Hleaf. congruence.
  - inversion Hu' as [? Hleaf' | ? ? ? ? m Ht' Hu'']; subst.
    + simpl in Hleaf'. congruence.
    + destruct (IH _ _ Hu'') as [-> ->]. done.
Qed.

(** X15.  The loop that unwraps arrays and maps always ends.  Either it
    returns a data type that is neither an array nor a map, after one step
    for each layer around it, or the innermost array or map has no
    [_base_type] and the loop raises [AttributeError]; then there is no leaf
    to find. *)
Theorem strip_collections_result (steps : nat) (d : DataType) :
  match strip_collections steps d with
  | Ok (n, leaf) =>
      is_collection (json_type leaf) = false /\
      exists layers, n = steps + layers /\ unwraps_to d layers leaf
  | Raise e =>
      e = AttributeError "_base_type" /\
      forall layers leaf, ~ unwraps_to d layers leaf
  end.
Proof.
  revert steps. induction d as [t values | t values base IH]; intros steps.
  - cbn [strip_collections json_type].
    destruct (is_collection t) eqn:Ht.
    + split; [reflexivity|]. intros layers leaf Hu.
      inversion Hu; subst. simpl in *. congruence.
    + split; [exact Ht|]. exists 0. split; [lia|]. by apply unwraps_leaf.
  - cbn [strip_collections json_type].
    destruct (is_collection t) eqn:Ht.
    + specialize (IH (S steps)).
      destruct (strip_collections (S steps) base) as [[n leaf]|e].
      * destruct IH as (Hleaf & layers & -> & Hu). split; [exact Hleaf|].
        exists (S layers). split; [lia|]. by apply unwraps_layer.
      * destruct IH as [-> Hnone]. split; [reflexivity|].
        intros layers leaf Hu. inversion Hu; subst.
        -- simpl in *. congruence.
        -- by eapply Hnone.
    + split; [exact Ht|]. exists 0. split; [lia|]. by apply unwraps_leaf.
Qed.

(** ** The marker for string-encoded numbers *)

Lemma format_test (o : option pyval) (x : string) :
  bool_decide (default PNone o = PStr x) = bool_decide (o = Some (PStr x)).
Proof.
  apply bool_decide_ext. destruct o as [v|]; simpl.
  - split; [intros ->; reflexivity | intros [= ->]; reflexivity].
  - split; discriminate.
Qed.

Lemma _HandleJsonString_leaf (element : Element) (n : nat) (leaf : DataType) :
  strip_collections 0 (el_data_type element) = Ok (n, leaf) ->
  Java14Generator._HandleJsonString element =
    Ok (if is_json_string leaf
        then el_SetTemplateValue "requiresJsonString" (PBool true) element
        else element).
Proof.
  intros Hs. unfold Java14Generator._HandleJsonString. rewrite Hs.
  cbn [mbind result_bind]. rewrite !format_test.
  fold (is_json_string leaf). by destruct (is_json_string leaf).
Qed.

(** X16.  [_HandleJsonString] writes at most one template value: the
    element it returns is the element it was given, or that element with
    [requiresJsonString] set to True, which is the case exactly when the data
    type left after unwrapping is a string of format int64 or uint64.  Its
    data type and its other template values are kept, a second pass changes
    nothing more, and the only error is that of the unwrapping. *)
Theorem _HandleJsonString_effect (element : Element) :
  match strip_collections 0 (el_data_type element) with
  | Ok (_, leaf) =>
      let marked :=
        el_SetTemplateValue "requiresJsonString" (PBool true) element in
      let element' := if is_json_string leaf then marked else element in
      Java14Generator._HandleJsonString element = Ok element' /\
      Java14Generator._HandleJsonString element' = Ok element' /\
      el_data_type element' = el_data_type element /\
      forall k, k <> "requiresJsonString" ->
                el_values element' !! k = el_values element !! k
  | Raise e =>
      Java14Generator._HandleJsonString element = Raise e /\
      e = AttributeError "_base_type"
  end.
Proof.
  pose proof (strip_collections_result 0 (el_data_type element)) as Hres.
  destruct (strip_collections 0 (el_data_type element)) as [[n leaf]|e]
    eqn:Hs.
  - cbv zeta. split; [by eapply _HandleJsonString_leaf|].
    destruct (is_json_string leaf) eqn:Hj.
    + split; [|split].
      * rewrite (_HandleJsonString_leaf _ n leaf) by exact Hs.
        rewrite Hj. unfold el_SetTemplateValue. cbn [el_values el_data_type].
        by rewrite insert_insert_eq.
      * reflexivity.
      * intros k Hk. cbn [el_SetTemplateValue el_values].
        by rewrite lookup_insert_ne.
    + split; [|split; [reflexivity | done]].
      rewrite (_HandleJsonString_leaf _ n leaf) by exact Hs. by rewrite Hj.
  - destruct Hres as [-> _]. split; [|reflexivity].
    unfold Java14Generator._HandleJsonString. by rewrite Hs.
Qed.

(** ** Imports *)

Lemma top_parent_root (turns : nat) (h : heap) (self : handle)
    (chain : list handle) :
  parent_chain h self chain -> length chain <= turns ->
  exists top,
    last chain = Some top /\
    BaseJavaGenerator.top_parent turns h self = Some (Ok top).
Proof.
  intros Hchain. revert turns.
  induction Hchain as [r o Ho Hroot | r p o chain Ho Hp Hchain IH];
    intros turns Hturns; simpl in Hturns;
    (destruct turns as [|turns]; [lia|]);
    cbn [BaseJavaGenerator.top_parent]; rewrite Ho.
  - rewrite Hroot. by exists r.
  - rewrite Hp. destruct (IH turns) as (top & Hlast & Hrun); [lia|].
    exists top. split; [|exact Hrun].
    destruct (parent_chain_head _ _ _ Hchain) as [rest ->]. exact Hlast.
Qed.

Lemma FindTopParent_chain (depth : nat) (h : heap) (self : handle)
    (chain : list handle) :
  parent_chain h self chain -> length chain <= depth ->
  exists top, last chain = Some top /\ FindTopParent depth h self = Ok top.
Proof.
  intros Hchain. revert depth.
  induction Hchain as [r o Ho Hroot | r p o chain Ho Hp Hchain IH];
    intros depth Hdepth; simpl in Hdepth;
    (destruct depth as [|depth]; [lia|]);
    cbn [FindTopParent]; unfold deref; rewrite Ho; cbn [mbind result_bind].
  - rewrite Hroot. by exists r.
  - rewrite Hp. destruct (IH depth) as (top & Hlast & Hrun); [lia|].
    exists top. split; [|exact Hrun].
    destruct (parent_chain_head _ _ _ Hchain) as [rest ->]. exact Hlast.
Qed.

(** X17.  [_HandleImports] for an element whose schema has a chain of parents
    that ends at a root: with inner model classes the imports go to the
    import manager of that root, which the loop finds in as many turns as the
    chain is long and which is the object [FindTopParent] returns; without
    them they go to the schema itself.  The imports are those of the entry of
    the type map for the type and format left after unwrapping, in their
    order, and the template values of that entry are set to True; for a pair
    the type map does not have nothing is imported and the element is
    unchanged. *)
Theorem _HandleImports_spec
    (inner : bool) (type_map : gmap (pyval * pyval) (string * ImportDefinition))
    (turns : nat) (h : heap) (schema : handle) (chain : list handle)
    (element : Element) (n : nat) (leaf : DataType) :
  parent_chain h schema chain -> length chain <= turns ->
  strip_collections 0 (el_data_type element) = Ok (n, leaf) ->
  exists top,
    last chain = Some top /\ FindTopParent turns h schema = Ok top /\
    BaseJavaGenerator._HandleImports inner type_map turns h schema element =
      Some (Ok
        (let manager := if inner then top else schema in
         match type_map !! (PStr (json_type leaf),
                            default PNone (dt_values leaf !! "format")) with
         | Some (_, definition) =>
             (manager, imports definition,
              BaseJavaGenerator.set_template_values
                (template_values definition) element)
         | None => (manager, [], element)
         end)).
Proof.
  intros Hchain Hturns Hs.
  destruct (top_parent_root turns h schema chain Hchain Hturns)
    as (top & Hlast & Hloop).
  destruct (FindTopParent_chain turns h schema chain Hchain Hturns)
    as (top' & Hlast' & Hfind).
  rewrite Hlast in Hlast'. injection Hlast' as <-.
  exists top. split; [exact Hlast|]. split; [exact Hfind|].
  unfold BaseJavaGenerator._HandleImports. rewrite Hs.
  cbn [mbind result_bind].
  destruct inner; [rewrite Hloop|];
    by destruct (type_map !! _) as [[name definition]|].
Qed.

Lemma _HandleImports_spec_witness :
  BaseJavaGenerator._HandleImports true
    JavaLanguageModel.TYPE_FORMAT_TO_DATATYPE_AND_IMPORTS 2
    [bare_object; set_parent (Some 0) bare_object] 1
    {| el_values := ∅;
       el_data_type :=
         Wrapper "array" ∅ (Plain "string" {[ "format" := PStr "int64" ]}) |} =
  Some (Ok (0, ["java.lang.Long"; "com.google.api.client.json.JsonString"],
            {| el_values := {[ "requiresJsonString" := PBool true ]};
               el_data_type :=
                 Wrapper "array" ∅
                   (Plain "string" {[ "format" := PStr "int64" ]}) |})).
Proof.
  destruct (_HandleImports_spec true
    JavaLanguageModel.TYPE_FORMAT_TO_DATATYPE_AND_IMPORTS 2
    [bare_object; set_parent (Some 0) bare_object] 1 [1; 0]
    {| el_values := ∅;
       el_data_type :=
         Wrapper "array" ∅ (Plain "string" {[ "format" := PStr "int64" ]}) |}
    1 (Plain "string" {[ "format" := PStr "int64" ]}))
    as (top & Hlast & _ & Hrun).
  - eapply chain_step; [reflexivity | reflexivity |].
    eapply chain_root; reflexivity.
  - simpl. lia.
  - reflexivity.
  - injection Hlast as <-. exact Hrun.
Defined.

Lemma json_string_key_leaf (leaf : DataType) :
  json_string_key
    (PStr (json_type leaf), default PNone (dt_values leaf !! "format")) =
  is_json_string leaf.
Proof.
  unfold json_string_key, is_json_string, type_key. simpl.
  destruct (decide (json_type leaf = "string")) as [Ht|Ht].
  - rewrite Ht, (bool_decide_eq_true_2 ("string" = "string")) by done.
    rewrite <- !format_test. simpl.
    f_equal; apply bool_decide_ext; split; congruence.
  - rewrite (bool_decide_eq_false_2 (json_type leaf = "string")) by done.
    rewrite !bool_decide_eq_false_2 by congruence. reflexivity.
Qed.

(** In the type map of Java the entries for numbers that travel as strings,
    and only they, ask for the JsonString import and for the marker. *)
Lemma java_type_map_json_string (key : pyval * pyval) (name : string)
    (definition : ImportDefinition) :
  JavaLanguageModel.TYPE_FORMAT_TO_DATATYPE_AND_IMPORTS !! key =
    Some (name, definition) ->
  template_values definition =
    (if json_string_key key then ["requiresJsonString"] else []) /\
  bool_decide (JavaLanguageModel._JSON_STRING_IMPORT ∈ imports definition) =
    json_string_key key.
Proof.
  intros Hk. apply elem_of_list_to_map_2 in Hk.
  assert (Hall : Forall (fun kv =>
      template_values kv.2.2 =
        (if json_string_key kv.1 then ["requiresJsonString"] else []) /\
      bool_decide (JavaLanguageModel._JSON_STRING_IMPORT ∈ imports kv.2.2) =
        json_string_key kv.1)
    JavaLanguageModel.TYPE_FORMAT_TO_DATATYPE_AND_IMPORTS_items).
  { repeat (apply Forall_cons; split; [by vm_compute|]). constructor. }
  rewrite Forall_forall in Hall. exact (Hall _ Hk).
Qed.

Lemma java_type_map_missing (key : pyval * pyval) :
  JavaLanguageModel.TYPE_FORMAT_TO_DATATYPE_AND_IMPORTS !! key = None ->
  json_string_key key = false.
Proof.
  intros Hk. unfold json_string_key.
  rewrite !bool_decide_eq_false_2; [reflexivity | |];
    intros ->; vm_compute in Hk; discriminate.
Qed.

(** X18.  The two generators agree on the marker.  With the type map of the
    Java language models, the element that [_HandleImports] returns is the
    element that [_HandleJsonString] returns, and the JsonString import is
    among the imports exactly when the data type left after unwrapping is a
    string of format int64 or uint64. *)
Theorem generators_agree_on_json_string
    (inner : bool) (turns : nat) (h : heap) (schema manager : handle)
    (element element' : Element) (added : list string) :
  BaseJavaGenerator._HandleImports inner
    JavaLanguageModel.TYPE_FORMAT_TO_DATATYPE_AND_IMPORTS
    turns h schema element = Some (Ok (manager, added, element')) ->
  Java14Generator._HandleJsonString element = Ok element' /\
  exists n leaf,
    strip_collections 0 (el_data_type element) = Ok (n, leaf) /\
    bool_decide (JavaLanguageModel._JSON_STRING_IMPORT ∈ added) =
      is_json_string leaf.
Proof.
  unfold BaseJavaGenerator._HandleImports.
  destruct (if inner then _ else _) as [[parent|e]|]; [|discriminate..].
  intros [= Hrun].
  destruct (strip_collections 0 (el_data_type element)) as [[n leaf]|e]
    eqn:Hs; [|discriminate].
  cbn [mbind result_bind] in Hrun.
  rewrite (_HandleJsonString_leaf _ n leaf Hs).
  rewrite <- json_string_key_leaf.
  destruct (JavaLanguageModel.TYPE_FORMAT_TO_DATATYPE_AND_IMPORTS !! _)
    as [[name definition]|] eqn:Hk.
  - destruct (java_type_map_json_string _ _ _ Hk) as [Htv Himp].
    injection Hrun as <- <- <-. cbn [snd]. rewrite Htv. split.
    + by destruct (json_string_key _).
    + exists n, leaf. split; [reflexivity|].
      rewrite <- json_string_key_leaf. exact Himp.
  - pose proof (java_type_map_missing _ Hk) as Hno.
    injection Hrun as <- <- <-. rewrite Hno. split; [reflexivity|].
    exists n, leaf. split; [reflexivity|].
    by rewrite <- json_string_key_leaf, Hno.
Qed.

Lemma generators_agree_on_json_string_witness :
  Java14Generator._HandleJsonString
    {| el_values := ∅;
       el_data_type := Plain "string" {[ "format" := PStr "uint64" ]} |} =
  Ok {| el_values := {[ "requiresJsonString" := PBool true ]};
        el_data_type := Plain "string" {[ "format" := PStr "uint64" ]} |}.
Proof.
  apply (generators_agree_on_json_string false 0 [] 0 0
           {| el_values := ∅;
              el_data_type := Plain "string" {[ "format" := PStr "uint64" ]} |}
           {| el_values := {[ "requiresJsonString" := PBool true ]};
              el_data_type := Plain "string" {[ "format" := PStr "uint64" ]} |}
           ["com.google.common.primitives.UnsignedLong";
            "com.google.api.client.json.JsonString"]).
  reflexivity.
Defined.

(** ** Class names of resources and methods *)

Lemma string_app_longer (a b : string) :
  b <> EmptyString -> a +:+ b <> a.
Proof.
  intros Hb Heq. apply (f_equal String.length) in Heq.
  rewrite string_length_app in Heq. destruct b; [done|]. simpl in Heq. lia.
Qed.

(** X19.  [JavaApi.ToClassName] for a resource or a method whose name is not
    reserved: it returns without reading more of the Api than its class name,
    and what it returns is never that class name; a name equal to it comes
    back with Operations, for a resource, or Operation, for a method, put
    after it, any other name as it is. *)
Theorem ToClassName_differs_from_api `{Utilities} (class_name : pyval)
    (values : gmap string pyval) (s : string) (element_type : pyval) :
  let name := replace_char " " EmptyString (CamelCase s) in
  JavaLanguageModel.reserved (lower name) = false ->
  element_type = PStr "resource" \/ element_type = PStr "method" ->
  exists r,
    JavaApi.ToClassName class_name values s element_type = Ok r /\
    values !! "className" <> Some (PStr r) /\
    r = (if decide (values !! "className" = Some (PStr name))
         then name +:+ (if decide (element_type = PStr "resource")
                        then "Operations" else "Operation")
         else name).
Proof.
  intros name Hres Htype. unfold JavaApi.ToClassName. fold name.
  rewrite Hres.
  destruct (decide (values !! "className" = Some (PStr name))) as [Heq|Hne].
  - rewrite decide_True by done.
    destruct Htype as [-> | ->].
    + rewrite decide_True by done. eexists. split; [reflexivity|].
      split; [|by rewrite decide_True].
      rewrite Heq. intros [= Hbad]. symmetry in Hbad.
      by apply string_app_longer in Hbad.
    + rewrite decide_False by done. rewrite decide_True by done.
      eexists. split; [reflexivity|].
      split; [|by rewrite decide_False].
      rewrite Heq. intros [= Hbad]. symmetry in Hbad.
      by apply string_app_longer in Hbad.
  - rewrite decide_False by congruence. by exists name.
Qed.

Lemma ToClassName_differs_from_api_witness :
  JavaApi.ToClassName (H := title_utilities) PNone
    {[ "className" := PStr "Books" ]} "books" (PStr "resource") =
  Ok "BooksOperations".
Proof.
  destruct (ToClassName_differs_from_api (H := title_utilities) PNone
              {[ "className" := PStr "Books" ]} "books" (PStr "resource"))
    as (r & Hrun & _ & Hr).
  - reflexivity.
  - by left.
  - rewrite Hrun, Hr. reflexivity.
Defined.

(** ** The two language models side by side *)

Lemma type_tables_same_keys :
  JavaLanguageModel.TYPE_FORMAT_TO_DATATYPE_AND_IMPORTS_items.*1 =
  Java14LanguageModel.TYPE_FORMAT_TO_DATATYPE_items.*1.
Proof. reflexivity. Qed.

Lemma java14_type_map_missing (key : pyval * pyval) :
  JavaLanguageModel.TYPE_FORMAT_TO_DATATYPE_AND_IMPORTS !! key = None ->
  Java14LanguageModel.TYPE_FORMAT_TO_DATATYPE !! key = None.
Proof.
  unfold JavaLanguageModel.TYPE_FORMAT_TO_DATATYPE_AND_IMPORTS,
    Java14LanguageModel.TYPE_FORMAT_TO_DATATYPE.
  intros Hk. apply not_elem_of_list_to_map_2 in Hk.
  apply not_elem_of_list_to_map_1. by rewrite <- type_tables_same_keys.
Qed.

Lemma java14_type_map_import (key : pyval * pyval) (name : string)
    (definition : ImportDefinition) :
  JavaLanguageModel.TYPE_FORMAT_TO_DATATYPE_AND_IMPORTS !! key =
    Some (name, definition) ->
  exists qualified,
    Java14LanguageModel.TYPE_FORMAT_TO_DATATYPE !! key = Some qualified /\
    (key <> type_key "string" (Some "uint64") ->
     head (imports definition) = Some qualified).
Proof.
  intros Hk. apply elem_of_list_to_map_2 in Hk.
  assert (Hall : Forall (fun kv : (pyval * pyval) * (string * ImportDefinition) =>
                   exists qualified,
                     Java14LanguageModel.TYPE_FORMAT_TO_DATATYPE !! kv.1 =
                       Some qualified /\
                     (kv.1 <> type_key "string" (Some "uint64") ->
                      head (imports kv.2.2) = Some qualified))
                   JavaLanguageModel.TYPE_FORMAT_TO_DATATYPE_AND_IMPORTS_items).
  { unfold JavaLanguageModel.TYPE_FORMAT_TO_DATATYPE_AND_IMPORTS_items.
    repeat (apply Forall_cons_2; [
      eexists; split; [vm_compute; reflexivity|];
      first [ by intros _ | by intros Hne; destruct Hne ] |]).
    constructor. }
  rewrite Forall_forall in Hall. exact (Hall _ Hk).
Qed.

(** X20.  The two language models on one schema dictionary.  For a (type,
    format) pair of the table the Java model returns the short name, the
    Java 1.4 model a qualified one, which is, but for (string, uint64), the
    first class the Java model imports for the pair; for any other pair the
    two do the same, returning the same name or raising the same error. *)
Theorem language_models_agree `{Utilities} (def_dict : gmap string pyval) :
  let key := (default (PStr "string") (def_dict !! "type"),
              default PNone (def_dict !! "format")) in
  match JavaLanguageModel.TYPE_FORMAT_TO_DATATYPE_AND_IMPORTS !! key with
  | Some (name, definition) =>
      JavaLanguageModel.GetCodeTypeFromDictionary def_dict = Ok name /\
      exists qualified,
        Java14LanguageModel.GetCodeTypeFromDictionary def_dict = Ok qualified /\
        (key <> type_key "string" (Some "uint64") ->
         head (imports definition) = Some qualified)
  | None =>
      Java14LanguageModel.GetCodeTypeFromDictionary def_dict =
      JavaLanguageModel.GetCodeTypeFromDictionary def_dict
  end.
Proof.
  intros key.
  unfold JavaLanguageModel.GetCodeTypeFromDictionary,
    Java14LanguageModel.GetCodeTypeFromDictionary. fold key.
  destruct (JavaLanguageModel.TYPE_FORMAT_TO_DATATYPE_AND_IMPORTS !! key)
    as [[name definition]|] eqn:Hk.
  - split; [reflexivity|].
    destruct (java14_type_map_import _ _ _ Hk) as (qualified & Hq & Himp).
    exists qualified. rewrite Hq.
    destruct (str_truthy qualified) eqn:Htruthy; [done|].
    destruct qualified; [|done].
    apply elem_of_list_to_map_2 in Hq.
    assert (Hall : Forall (fun kv : (pyval * pyval) * string =>
                     kv.2 <> EmptyString)
                     Java14LanguageModel.TYPE_FORMAT_TO_DATATYPE_items)
      by (repeat constructor; done).
    rewrite Forall_forall in Hall. by destruct (Hall _ Hq).
  - by rewrite (java14_type_map_missing _ Hk).
Qed.

(** ** Member names and class names *)

Lemma lower_ascii_not_upper (c : ascii) : is_upper (lower_ascii c) = false.
Proof. destruct c as [[] [] [] [] [] [] [] []]; vm_compute; reflexivity. Qed.

(** X21.  [ToMemberName]: what it raises and what it returns.  It raises
    in three cases only: IndexError when the name is not reserved and
    camel-cases to the empty string, AttributeError when the name is reserved
    and there is no API, KeyError when the name is reserved and the API has
    no name.  For a name that is not reserved the API is not read, and the
    result is the camel-cased name with its first character lowered, so it
    starts with no upper-case letter. *)
Theorem ToMemberName_outcome `{Utilities}
    (s : string) (the_api : option (gmap string pyval)) :
  (forall e,
     JavaLanguageModel.ToMemberName s the_api = Raise e <->
     (JavaLanguageModel.reserved (lower s) = false /\
      CamelCase s = EmptyString /\ e = IndexError) \/
     (JavaLanguageModel.reserved (lower s) = true /\
      the_api = None /\ e = AttributeError "values") \/
     (JavaLanguageModel.reserved (lower s) = true /\
      (exists values, the_api = Some values /\ values !! "name" = None) /\
      e = KeyError "name")) /\
  (forall member,
     JavaLanguageModel.reserved (lower s) = false ->
     JavaLanguageModel.ToMemberName s the_api = Ok member ->
     (forall other_api,
        JavaLanguageModel.ToMemberName s other_api = Ok member) /\
     exists c c' rest,
       CamelCase s = String c rest /\ member = String c' rest /\
       is_upper c' = false /\ lower_ascii c = c').
Proof.
  unfold JavaLanguageModel.ToMemberName. split.
  - intros e.
    destruct (JavaLanguageModel.reserved (lower s)) eqn:Hres.
    + destruct the_api as [values|]; cbn.
      * destruct (values !! "name") as [api_name|] eqn:Hname; cbn.
        -- split; [done|].
           intros [(? & _)|[(_ & ? & _)|(_ & (v & [= <-] & Hnone) & _)]];
             congruence.
        -- split.
           ++ intros [= <-]. right; right. eauto.
           ++ intros [(? & _)|[(_ & ? & _)|(_ & _ & ->)]]; congruence.
      * split.
        -- intros [= <-]. right; left. done.
        -- intros [(? & _)|[(_ & _ & ->)|(_ & (v & ? & _) & _)]]; congruence.
    + destruct (CamelCase s) as [|c rest] eqn:Hcamel.
      * split.
        -- intros [= <-]. by left.
        -- intros [(_ & _ & ->)|[(? & _)|(? & _)]]; congruence.
      * split; [done|].
        intros [(_ & ? & _)|[(? & _)|(? & _)]]; congruence.
  - intros member -> Hrun.
    destruct (CamelCase s) as [|c rest]; [done|].
    injection Hrun as <-. split; [done|].
    exists c, (lower_ascii c), rest.
    split; [done|]. split; [done|]. split; [|done].
    apply lower_ascii_not_upper.
Qed.

(** X22.  [ToSafeClassName] with a parent none of whose path (its
    ancestors and itself) has the camel-cased name as its safe class name:
    the parent makes no difference, the result is the one for no parent;
    and when that name is not reserved, it is returned as it is, with no
    API read. *)
Theorem ToSafeClassName_without_collision `{Utilities}
    (s : string) (the_api : option (gmap string pyval))
    (ancestors : list Schema) (parent : Schema) :
  (forall ancestor, ancestor ∈ ancestors ++ [parent] ->
     safeClassName ancestor <> PStr (CamelCase s)) ->
  JavaLanguageModel.ToSafeClassName s the_api (Some (ancestors, parent)) =
    JavaLanguageModel.ToSafeClassName s the_api None /\
  (JavaLanguageModel.reserved (lower (CamelCase s)) = false ->
   JavaLanguageModel.ToSafeClassName s the_api (Some (ancestors, parent)) =
     Ok (CamelCase s)).
Proof.
  intros Hno. unfold JavaLanguageModel.ToSafeClassName.
  cbn [JavaLanguageModel.disambiguated].
  rewrite (disambiguated_no_collision _ _ _ Hno).
  split; [reflexivity|]. by intros ->.
Qed.

Lemma ToSafeClassName_without_collision_witness :
  JavaLanguageModel.ToSafeClassName (H := title_utilities) "book" None
    (Some ([ {| safeClassName := PStr "Library"; class_name := PStr "Library" |} ],
           {| safeClassName := PStr "Shelf"; class_name := PStr "Shelf" |})) =
  Ok "Book".
Proof.
  refine (proj2 (ToSafeClassName_without_collision (H := title_utilities)
            "book" None
            [ {| safeClassName := PStr "Library"; class_name := PStr "Library" |} ]
            {| safeClassName := PStr "Shelf"; class_name := PStr "Shelf" |} _) _).
  - intros ancestor Hin.
    apply elem_of_cons in Hin as [-> | Hin]; [done|].
    apply elem_of_cons in Hin as [-> | Hin]; [done|].
    by apply elem_of_nil in Hin.
  - reflexivity.
Defined.

(** ** Integer literals of the two language models *)

(** X23.  For a (type, format) pair of the table each language model
    resolves the type, and [_Int], given the name its own model resolved,
    does the same in both: the same literal for the same value, or a
    ValueError in both. *)
Theorem int_literals_agree `{Utilities} (def_dict : gmap string pyval)
    (value : Z) (name : string) (definition : ImportDefinition) :
  JavaLanguageModel.TYPE_FORMAT_TO_DATATYPE_AND_IMPORTS !!
    (default (PStr "string") (def_dict !! "type"),
     default PNone (def_dict !! "format")) = Some (name, definition) ->
  exists code_type code_type14,
    JavaLanguageModel.GetCodeTypeFromDictionary def_dict = Ok code_type /\
    Java14LanguageModel.GetCodeTypeFromDictionary def_dict = Ok code_type14 /\
    same_literal
      (JavaLanguageModel._Int
         {| dv_value := value; dv_code_type := code_type |})
      (Java14LanguageModel._Int
         {| dv_value := value; dv_code_type := code_type14 |}).
Proof.
  intros Hk.
  unfold JavaLanguageModel.GetCodeTypeFromDictionary,
    Java14LanguageModel.GetCodeTypeFromDictionary.
  rewrite Hk. cbn [fst].
  apply elem_of_list_to_map_2 in Hk.
  assert (Hall : Forall (fun kv : (pyval * pyval) * (string * ImportDefinition) =>
                   exists qualified,
                     Java14LanguageModel.TYPE_FORMAT_TO_DATATYPE !! kv.1 =
                       Some qualified /\
                     str_truthy qualified = true /\
                     same_literal
                       (JavaLanguageModel._Int
                          {| dv_value := value; dv_code_type := kv.2.1 |})
                       (Java14LanguageModel._Int
                          {| dv_value := value; dv_code_type := qualified |}))
                   JavaLanguageModel.TYPE_FORMAT_TO_DATATYPE_AND_IMPORTS_items).
  { unfold JavaLanguageModel.TYPE_FORMAT_TO_DATATYPE_AND_IMPORTS_items,
      JavaLanguageModel._Int, Java14LanguageModel._Int, int_error_message.
    generalize (str_of_long value). intros digits.
    repeat (apply Forall_cons_2; [
      eexists; split; [vm_compute; reflexivity|];
      split; [reflexivity|]; vm_compute; done |]).
    constructor. }
  rewrite Forall_forall in Hall.
  destruct (Hall _ Hk) as (qualified & Hq & Htruthy & Hsame).
  cbn [fst snd] in Hq, Hsame.
  exists name, qualified. rewrite Hq, Htruthy. done.
Qed.

Lemma int_literals_agree_witness :
  exists code_type code_type14,
    JavaLanguageModel.GetCodeTypeFromDictionary (H := title_utilities)
      {[ "type" := PStr "string"; "format" := PStr "int64" ]} = Ok code_type /\
    Java14LanguageModel.GetCodeTypeFromDictionary (H := title_utilities)
      {[ "type" := PStr "string"; "format" := PStr "int64" ]} =
      Ok code_type14 /\
    same_literal
      (JavaLanguageModel._Int {| dv_value := 7; dv_code_type := code_type |})
      (Java14LanguageModel._Int
         {| dv_value := 7; dv_code_type := code_type14 |}).
Proof.
  eapply (int_literals_agree (H := title_utilities)
            {[ "type" := PStr "string"; "format" := PStr "int64" ]} 7).
  vm_compute. reflexivity.
Defined.

(** ** Code names under the Java language model *)

(** X24.  The first read of [codeName] with a Java language model in reach,
    for an object with no code name yet and a wire name that is not reserved
    and does not camel-case to the empty string: the read returns the
    camel-cased wire name with its first character lowered and stores it;
    every later read, after any calls of SetParent and SetLanguageModel,
    returns the same name and changes nothing. *)
Theorem codeName_java_member `{Utilities} (depth : nat) (h h1 : heap)
    (self : nat) (o : CodeObject) (wire_name : string)
    (module_delimiter : string) (c : ascii) (rest : string) :
  h !! self = Some o ->
  get_truthy (_def_dict o) "codeName" = None ->
  _def_dict o !! "wireName" = Some (PStr wire_name) ->
  language_model depth h self =
    Ok (Some (JavaLanguageModel_new module_delimiter), h1) ->
  JavaLanguageModel.reserved (lower wire_name) = false ->
  CamelCase wire_name = String c rest ->
  let member := PStr (String (lower_ascii c) rest) in
  let h2 := SetTemplateValue h1 self "codeName" member in
  codeName depth h self = Ok (member, h2) /\
  forall calls h3 depth',
    run_calls h2 calls = Ok h3 ->
    codeName depth' h3 self = Ok (member, h3).
Proof.
  intros Ho Hnone Hwire Hlm Hres Hcamel member h2.
  assert (Hread : codeName depth h self = Ok (member, h2)).
  { rewrite (codeName_first_read _ _ _ _ _ _ _ Ho Hnone Hwire Hlm).
    cbn [JavaLanguageModel_new ToMemberName].
    unfold JavaLanguageModel.ToMemberName. rewrite Hres, Hcamel.
    reflexivity. }
  split; [exact Hread|].
  intros calls h3 depth' Hcalls.
  by eapply codeName_is_stable.
Qed.

Lemma codeName_java_member_witness :
  let h := [ set_language_model
               (Some (JavaLanguageModel_new (H := title_utilities) "."))
               (set_def_dict {[ "wireName" := PStr "books" ]} bare_object) ] in
  codeName 1 h 0 =
    Ok (PStr "books", SetTemplateValue h 0 "codeName" (PStr "books")).
Proof.
  intros h.
  refine (proj1 (codeName_java_member (H := title_utilities) 1 h h 0 _
                   "books" "." "B" "ooks" _ _ _ _ _ _));
    reflexivity.
Defined.
